(** * Beat Studio backend: the stem-separation pipeline of [server/main.py]

    A shallow embedding of the request handler [separate] and of the
    functions it calls ([resolve_demucs_bin], [resolve_ffmpeg_bin],
    [maybe_transcode_to_wav], [run_demucs], [zip_stems]), together with
    the part of Python's [pathlib], [tempfile], [zipfile] and of the file
    system they rely on.

    Modelling decisions, all visible in the definitions below:
    - a Python [str] is held as the bytes of its UTF-8 text ([string]);
      [str.lower] is the ASCII lowering, which agrees with Python's on the
      membership test of the accepted suffixes (no non-ASCII character
      lowers to a letter of [.wav], [.flac], [.mp3], [.m4a], [.ogg]);
      [Str.latin1] tells whether every character is below U+0100, which is
      when [str.encode("latin-1")] succeeds;
    - paths are [PurePosixPath]s with the semantics of Python 3.10-3.13;
    - the file system is a finite map from canonical absolute component
      lists to nodes (regular file or directory), without symbolic links,
      permissions or name-length limits;
    - effects are threaded through a state-and-exception monad whose state
      holds the file system and a log of the effects the handler requested;
    - child processes, [shutil.which] and the random name of [mkdtemp] are
      inputs ([Host]). *)

From Stdlib Require Import Ascii String List Bool Arith Lia.
From stdpp Require Import base option list strings gmap fin_maps.

Local Open Scope string_scope.
Local Open Scope list_scope.

#[local] Arguments String.append : simpl nomatch.

(** ** Python strings *)

Module Str.

(** [c in "A".."Z"] *)
Definition is_upper (c : ascii) : bool :=
  ((65 <=? nat_of_ascii c) && (nat_of_ascii c <=? 90))%nat.

Definition is_lower (c : ascii) : bool :=
  ((97 <=? nat_of_ascii c) && (nat_of_ascii c <=? 122))%nat.

Definition lower_ascii (c : ascii) : ascii :=
  if is_upper c then ascii_of_nat (nat_of_ascii c + 32) else c.

Definition upper_ascii (c : ascii) : ascii :=
  if is_lower c then ascii_of_nat (nat_of_ascii c - 32) else c.

(** [s.lower()] *)
Fixpoint lower (s : string) : string :=
  match s with
  | EmptyString => EmptyString
  | String c r => String (lower_ascii c) (lower r)
  end.

(** [s.rfind(c)], with [None] for Python's [-1]. *)
Fixpoint rfind (c : ascii) (s : string) : option nat :=
  match s with
  | EmptyString => None
  | String a r =>
      match rfind c r with
      | Some j => Some (S j)
      | None => if Ascii.eqb a c then Some 0 else None
      end
  end.

(** [s.split(c)] *)
Fixpoint split (c : ascii) (s : string) : list string :=
  match s with
  | EmptyString => [EmptyString]
  | String a r =>
      if Ascii.eqb a c then EmptyString :: split c r
      else match split c r with
           | [] => [String a EmptyString]
           | w :: ws => String a w :: ws
           end
  end.

(** [c in s] *)
Fixpoint contains (c : ascii) (s : string) : bool :=
  match s with
  | EmptyString => false
  | String a r => Ascii.eqb a c || contains c r
  end.

(** [sep.join(l)] *)
Fixpoint join (sep : string) (l : list string) : string :=
  match l with
  | [] => EmptyString
  | [x] => x
  | x :: r => (x ++ sep ++ join sep r)%string
  end.

(** Python truthiness of a [str]. *)
Definition nonempty (s : string) : bool :=
  match s with EmptyString => false | String _ _ => true end.

(** Python truthiness of a [str | None]. *)
Definition truthy (o : option string) : bool :=
  match o with Some s => nonempty s | None => false end.

(** [a or b] on strings. *)
Definition or_else (a b : string) : string := if nonempty a then a else b.

(** The double-quote character. *)
Definition dquote : string := String (ascii_of_nat 34) EmptyString.

(** A byte that stands for itself in UTF-8: a character below U+0080. *)
Definition is_ascii (c : ascii) : bool := (nat_of_ascii c <? 128)%nat.

(** The first byte of a two-byte sequence for a character from U+0080 to
    U+00FF: [0xC2] or [0xC3]. *)
Definition is_latin1_lead (c : ascii) : bool :=
  ((nat_of_ascii c =? 194) || (nat_of_ascii c =? 195))%nat.

(** A continuation byte, [0x80] to [0xBF]. *)
Definition is_continuation (c : ascii) : bool :=
  ((128 <=? nat_of_ascii c) && (nat_of_ascii c <=? 191))%nat.

(** [s.encode("latin-1")] succeeds: every character of [s] is below
    U+0100.  In UTF-8 these are the single bytes below [0x80] and the
    two-byte sequences that begin with [0xC2] or [0xC3]; any other byte
    begins a character from U+0100 on, or is no text at all (a lone
    surrogate of Python is not encodable either). *)
Fixpoint latin1 (s : string) : bool :=
  match s with
  | EmptyString => true
  | String c r =>
      if is_ascii c then latin1 r
      else if is_latin1_lead c then
        match r with
        | String d r' => is_continuation d && latin1 r'
        | EmptyString => false
        end
      else false
  end.

End Str.

(** ** [pathlib.PurePosixPath] *)

Record Path := mkPath {
  root : string;          (* "", "/" or "//" *)
  parts : list string     (* the components after the root *)
}.

#[global] Instance Path_eq_dec : EqDecision Path.
Proof. solve_decision. Defined.

Module PurePath.

(** The root of a POSIX path string: two leading slashes are kept,
    one or three and more collapse to one. *)
Definition splitroot (s : string) : string * string :=
  match s with
  | String "/"%char (String "/"%char (String "/"%char r)) => ("/", String "/"%char r)
  | String "/"%char (String "/"%char r) => ("//", r)
  | String "/"%char r => ("/", r)
  | _ => ("", s)
  end.

Definition keep_part (x : string) : bool :=
  Str.nonempty x && negb (String.eqb x ".").

(** [Path(s)]: split on the separator; empty and [.] components vanish. *)
Definition parse (s : string) : Path :=
  let '(rt, rel) := splitroot s in
  mkPath rt (List.filter keep_part (Str.split "/" rel)).

(** [p / s] for a string [s]: an absolute right operand replaces [p]. *)
Definition joinpath (p : Path) (s : string) : Path :=
  let q := parse s in
  if Str.nonempty (root q) then q else mkPath (root p) (parts p ++ parts q).

(** [p.name] *)
Definition name (p : Path) : string := List.last (parts p) "".

(** The index at which the suffix starts, when there is one:
    [i = name.rfind('.')] with [0 < i < len(name) - 1]. *)
Definition suffix_index (nm : string) : option nat :=
  match Str.rfind "." nm with
  | Some i => if ((0 <? i) && (i <? String.length nm - 1))%nat then Some i else None
  | None => None
  end.

(** [p.suffix] *)
Definition suffix (p : Path) : string :=
  let nm := name p in
  match suffix_index nm with
  | Some i => String.substring i (String.length nm - i)%nat nm
  | None => ""
  end.

(** [p.stem] *)
Definition stem (p : Path) : string :=
  let nm := name p in
  match suffix_index nm with
  | Some i => String.substring 0 i nm
  | None => nm
  end.

(** [str(p)] *)
Definition str (p : Path) : string :=
  match root p, parts p with
  | "", [] => "."
  | rt, ps => (rt ++ Str.join "/" ps)%string
  end.

End PurePath.

Notation "p // s" := (PurePath.joinpath p s) (at level 40, left associativity).

(** ** The file system *)

Inductive node :=
  | File (data : string)
  | Dir.

#[global] Instance node_eq_dec : EqDecision node.
Proof. solve_decision. Defined.

(** Keys are canonical absolute paths: the components below the root
    directory, which is the key [[]] and always a directory. *)
Abbreviation FS := (gmap (list string) node).

Module FileSystem.

Definition is_dir (fs : FS) (k : list string) : bool :=
  match k with
  | [] => true
  | _ => match fs !! k with Some Dir => true | _ => false end
  end.

(** One step of path resolution from the directory [cur]. *)
Definition step (cur : list string) (c : string) : list string :=
  if String.eqb c ".." then removelast cur
  else if String.eqb c "." || String.eqb c "" then cur
  else cur ++ [c].

(** Resolution of the components [cs] from [cur]: every component is
    looked up in a directory, so the walk fails (ENOENT, ENOTDIR) as soon
    as it has to go through something that is not a directory. *)
Fixpoint walk (fs : FS) (cur : list string) (cs : list string) : option (list string) :=
  match cs with
  | [] => Some cur
  | c :: rest => if is_dir fs cur then walk fs (step cur c) rest else None
  end.

(** The key a path resolves to; relative paths start from [cwd]. *)
Definition locate (cwd : string) (fs : FS) (p : Path) : option (list string) :=
  if Str.nonempty (root p) then walk fs [] (parts p)
  else walk fs [] (parts (PurePath.parse cwd) ++ parts p).

(** [os.stat]: what is at the path, if anything. *)
Definition stat (cwd : string) (fs : FS) (p : Path) : option node :=
  match locate cwd fs p with
  | Some [] => Some Dir
  | Some k => fs !! k
  | None => None
  end.

(** [p.exists()] *)
Definition path_exists (cwd : string) (fs : FS) (p : Path) : bool :=
  match stat cwd fs p with Some _ => true | None => false end.

(** [p.is_file()], [p.is_dir()] *)
Definition path_is_file (cwd : string) (fs : FS) (p : Path) : bool :=
  match stat cwd fs p with Some (File _) => true | _ => false end.

Definition path_is_dir (cwd : string) (fs : FS) (p : Path) : bool :=
  match stat cwd fs p with Some Dir => true | _ => false end.

(** The keys at or below [k] are dropped. *)
Definition remove_tree (k : list string) (fs : FS) : FS :=
  filter (fun kv => ¬ (k `prefix_of` kv.1)) fs.

End FileSystem.

(** ** [os.path] on strings *)

Module OsPath.

Definition isabs (s : string) : bool :=
  match s with String "/"%char _ => true | _ => false end.

Fixpoint ends_with_sep (s : string) : bool :=
  match s with
  | EmptyString => false
  | String c EmptyString => Ascii.eqb c "/"
  | String _ r => ends_with_sep r
  end.

(** [os.path.join(a, b)] *)
Definition join (a b : string) : string :=
  if isabs b then b
  else if negb (Str.nonempty a) || ends_with_sep a then (a ++ b)%string
  else (a ++ "/" ++ b)%string.

(** The loop of [normpath] over the split components; [new_comps] is
    kept reversed. *)
Fixpoint norm_comps (rooted : bool) (rev_new : list string) (comps : list string)
  : list string :=
  match comps with
  | [] => rev rev_new
  | comp :: rest =>
      if String.eqb comp "" || String.eqb comp "." then norm_comps rooted rev_new rest
      else if negb (String.eqb comp "..")
              || (negb rooted && match rev_new with [] => true | _ => false end)
              || match rev_new with x :: _ => String.eqb x ".." | [] => false end
      then norm_comps rooted (comp :: rev_new) rest
      else norm_comps rooted (List.tl rev_new) rest
  end.

Definition initial_slashes (s : string) : string :=
  match s with
  | String "/"%char (String "/"%char (String "/"%char _)) => "/"
  | String "/"%char (String "/"%char _) => "//"
  | String "/"%char _ => "/"
  | _ => ""
  end.

(** [os.path.normpath(s)] *)
Definition normpath (s : string) : string :=
  if negb (Str.nonempty s) then "."
  else
    let sl := initial_slashes s in
    let comps := norm_comps (Str.nonempty sl) [] (Str.split "/" s) in
    let path := (sl ++ Str.join "/" comps)%string in
    Str.or_else path ".".

End OsPath.

(** ** The process environment and the outside world *)

(** What the module reads when it is imported and what the process
    inherits. *)
Record Env := mkEnv {
  environ : gmap string string;   (* os.environ *)
  here : Path;                    (* Path(__file__).resolve().parent *)
  cwd : string;                   (* os.getcwd() *)
  tempdir : string                (* tempfile.gettempdir() *)
}.

(** How a child process ends; [None] for [stdout]/[stderr] stands for
    bytes that are not valid UTF-8. *)
Inductive ProcOutcome :=
  | SpawnFailed
  | Exited (returncode : Z) (stdout stderr : option string) (fs' : FS).

(** The inputs that the handler does not control. *)
Record Host := mkHost {
  which : string -> option string;            (* shutil.which *)
  spawn : list string -> FS -> ProcOutcome;   (* the child processes *)
  rand : nat                                  (* mkdtemp's random draw *)
}.

Inductive exn :=
  | HTTPException (status_code : nat) (detail : string)
  | AttributeError
  | OSError
  | UnicodeDecodeError
  | UnicodeEncodeError.

#[global] Instance exn_eq_dec : EqDecision exn.
Proof. solve_decision. Defined.

Inductive event :=
  | EvWhich (cmd : string)
  | EvMkdtemp (dir : string)
  | EvWriteBytes (p : Path)
  | EvSpawn (argv : list string)
  | EvRmtree (dir : string).

#[global] Instance event_eq_dec : EqDecision event.
Proof. solve_decision. Defined.

Record World := mkWorld {
  fs : FS;
  log : list event      (* oldest first *)
}.

(** ** The monad of the handler: state and exceptions *)

Inductive result (A : Type) :=
  | Ok (a : A)
  | Raise (e : exn).
Arguments Ok {A} a.
Arguments Raise {A} e.

Definition M (A : Type) : Type := World -> result A * World.

Definition ret {A} (a : A) : M A := fun w => (Ok a, w).
Definition raise {A} (e : exn) : M A := fun w => (Raise e, w).
Definition bind {A B} (m : M A) (k : A -> M B) : M B :=
  fun w => match m w with
           | (Ok a, w') => k a w'
           | (Raise e, w') => (Raise e, w')
           end.

Notation "'do' x <- m ; k" := (bind m (fun x => k))
  (at level 10, x name, m at level 100, k at level 200).
Notation "'exec' m ; k" := (bind m (fun _ => k))
  (at level 10, m at level 100, k at level 200).

Definition emit (ev : event) : M unit :=
  fun w => (Ok tt, mkWorld (fs w) (log w ++ [ev])).

Definition get_fs : M FS := fun w => (Ok (fs w), w).
Definition put_fs (f : FS) : M unit := fun w => (Ok tt, mkWorld f (log w)).

Definition is_spawn (ev : event) : bool :=
  match ev with EvSpawn _ => true | _ => false end.
Definition is_which (ev : event) : bool :=
  match ev with EvWhich _ => true | _ => false end.

(** ** [zipfile] and the HTTP replies *)

Record ZipEntry := mkEntry {
  arcname : string;
  payload : string
}.

#[global] Instance ZipEntry_eq_dec : EqDecision ZipEntry.
Proof. solve_decision. Defined.

(** The archive held in the [BytesIO] buffer: its entries, in the order
    in which they were written. *)
Abbreviation BytesIO := (list ZipEntry).

Inductive Reply :=
  | JsonReply (body : list (string * string))
  | StreamingResponse (content : BytesIO) (media_type : string)
                      (headers : list (string * string)).

Record UploadFile := mkUpload {
  filename : option string;
  content : string
}.

Record Request := mkRequest {
  method : string
}.

(** [Response.init_headers] of Starlette encodes the name, lowered, and the
    value of every header, and the media type, as Latin-1. *)
Definition encodable_headers (media_type : string) (headers : list (string * string))
  : bool :=
  forallb (fun h => Str.latin1 (Str.lower (fst h)) && Str.latin1 (snd h)) headers
  && Str.latin1 media_type.

Module ZipFile.

Fixpoint lstrip_sep (s : string) : string :=
  match s with
  | String "/"%char r => lstrip_sep r
  | _ => s
  end.

(** The name [ZipInfo.from_file] gives an entry. *)
Definition entry_name (arc : string) (isdir : bool) : string :=
  let a := lstrip_sep (OsPath.normpath arc) in
  if isdir then (a ++ "/")%string else a.

End ZipFile.

(** ** The handler *)

Section Server.

Variable env : Env.
Variable host : Host.

Definition DEMUCS_MODEL : string := default "htdemucs" (environ env !! "DEMUCS_MODEL").
Definition DEMUCS_BIN : option string := environ env !! "DEMUCS_BIN".
Definition FFMPEG_BIN : option string := environ env !! "FFMPEG_BIN".

(** *** Library calls with an effect *)

Definition path_exists (p : Path) : M bool :=
  fun w => (Ok (FileSystem.path_exists (cwd env) (fs w) p), w).

Definition shutil_which (cmd : string) : M (option string) :=
  exec emit (EvWhich cmd);
  ret (which host cmd).

(** [os.mkdir]: the parent is a directory and nothing is at the path. *)
Definition mkdir (s : string) : M unit :=
  do f <- get_fs;
  match FileSystem.locate (cwd env) f (PurePath.parse s) with
  | Some [] => raise OSError
  | Some k =>
      match f !! k with
      | Some _ => raise OSError
      | None => put_fs (<[k := Dir]> f)
      end
  | None => raise OSError
  end.

(** [p.write_bytes(data)]: the file is created or truncated; the write is
    logged once it is done. *)
Definition write_bytes (p : Path) (data : string) : M unit :=
  do f <- get_fs;
  match FileSystem.locate (cwd env) f p with
  | Some [] => raise OSError
  | Some k =>
      match f !! k with
      | Some Dir => raise OSError
      | _ => exec put_fs (<[k := File data]> f); emit (EvWriteBytes p)
      end
  | None => raise OSError
  end.

(** The alphabet and the eight-letter names of [tempfile]. *)
Definition characters : list ascii :=
  list_ascii_of_string "abcdefghijklmnopqrstuvwxyz0123456789_".

Fixpoint random_name (n seed : nat) : string :=
  match n with
  | O => EmptyString
  | S n' => String (nth (seed mod 37) characters "a"%char) (random_name n' (seed / 37))
  end.

(** [tempfile.mkdtemp()], for the name the host draws: the directory is
    made under [gettempdir()] and its name returned.  (From Python 3.12
    on the name goes through [abspath] first, which leaves it as it is,
    [gettempdir()] being absolute and normalised.) *)
Definition mkdtemp : M string :=
  let file := OsPath.join (tempdir env) ("tmp" ++ random_name 8 (rand host))%string in
  exec mkdir file;
  exec emit (EvMkdtemp file);
  ret file.

(** [TemporaryDirectory.cleanup]: the tree is removed; a directory that
    is already gone is no error, anything else at the path is. *)
Definition cleanup (name : string) : M unit :=
  exec emit (EvRmtree name);
  do f <- get_fs;
  match FileSystem.locate (cwd env) f (PurePath.parse name) with
  | Some k =>
      match k, f !! k with
      | [], _ | _, Some Dir => put_fs (FileSystem.remove_tree k f)
      | _, Some (File _) => raise OSError
      | _, None => ret tt
      end
  | None => ret tt
  end.

(** [with tempfile.TemporaryDirectory() as tmpdir: body]: the cleanup
    runs however the body ends. *)
Definition with_TemporaryDirectory {A} (body : string -> M A) : M A :=
  fun w =>
    match mkdtemp w with
    | (Raise e, w1) => (Raise e, w1)
    | (Ok tmpdir, w1) =>
        let '(r, w2) := body tmpdir w1 in
        match cleanup tmpdir w2 with
        | (Ok _, w3) => (r, w3)
        | (Raise e, w3) => (Raise e, w3)
        end
    end.

(** [asyncio.create_subprocess_exec] on the words of [cmd], followed by
    [communicate()]: the handler waits for the child to end. *)
Definition run_subprocess (cmd : list string) : M (Z * option string * option string) :=
  exec emit (EvSpawn cmd);
  do f <- get_fs;
  match spawn host cmd f with
  | SpawnFailed => raise OSError
  | Exited rc out err f' => exec put_fs f'; ret (rc, out, err)
  end.

(** [b.decode()] *)
Definition decode (b : option string) : M string :=
  match b with
  | Some s => ret s
  | None => raise UnicodeDecodeError
  end.

(** [stderr.decode() or stdout.decode()] *)
Definition diagnostics (out err : option string) : M string :=
  do e <- decode err;
  if Str.nonempty e then ret e else decode out.

(** [zf.write(p, arcname=arc)] *)
Definition zf_write (zf : BytesIO) (p : Path) (arc : string) : M BytesIO :=
  do f <- get_fs;
  match FileSystem.stat (cwd env) f p with
  | Some (File data) => ret (zf ++ [mkEntry (ZipFile.entry_name arc false) data])
  | Some Dir => ret (zf ++ [mkEntry (ZipFile.entry_name arc true) ""])
  | None => raise OSError
  end.

(** [StreamingResponse(content, media_type=..., headers=...)]: the
    constructor encodes the headers and raises [UnicodeEncodeError] when one
    of them is not Latin-1 text. *)
Definition new_StreamingResponse (content : BytesIO) (media_type : string)
    (headers : list (string * string)) : M Reply :=
  if encodable_headers media_type headers
  then ret (StreamingResponse content media_type headers)
  else raise UnicodeEncodeError.

(** *** [server/main.py] *)

Definition DEMUCS_NOT_FOUND : exn :=
  HTTPException 500
    "Demucs CLI not found. Ensure it's installed in PATH or server/.venv (set DEMUCS_BIN to override).".

Definition FFMPEG_REQUIRED : exn :=
  HTTPException 500
    "FFmpeg is required to transcode this format (e.g., webm). Install ffmpeg or upload a wav/mp3 file.".

Definition OUTPUT_MISSING : exn := HTTPException 500 "Demucs output missing.".
Definition NO_STEMS : exn := HTTPException 500 "No stems produced by Demucs.".
Definition FILE_REQUIRED : exn := HTTPException 400 "File required.".

Definition resolve_demucs_bin : M string :=
  if Str.truthy DEMUCS_BIN then ret (default "" DEMUCS_BIN)
  else
    do path_bin <- shutil_which "demucs";
    if Str.truthy path_bin then ret (default "" path_bin)
    else
      let candidate_unix := here env // ".venv" // "bin" // "demucs" in
      let candidate_win := here env // ".venv" // "Scripts" // "demucs.exe" in
      do unix_exists <- path_exists candidate_unix;
      if unix_exists then ret (PurePath.str candidate_unix)
      else
        do win_exists <- path_exists candidate_win;
        if win_exists then ret (PurePath.str candidate_win)
        else raise DEMUCS_NOT_FOUND.

Definition resolve_ffmpeg_bin : M (option string) :=
  if Str.truthy FFMPEG_BIN then ret FFMPEG_BIN
  else
    do path_bin <- shutil_which "ffmpeg";
    if Str.truthy path_bin then ret path_bin
    else ret None.

Definition accepted_suffixes : list string := [".wav"; ".flac"; ".mp3"; ".m4a"; ".ogg"].

Definition accepted (suffix : string) : bool :=
  existsb (String.eqb (Str.lower suffix)) accepted_suffixes.

Definition maybe_transcode_to_wav (input_path workdir : Path) : M Path :=
  if accepted (PurePath.suffix input_path) then ret input_path
  else
    do ffmpeg_bin <- resolve_ffmpeg_bin;
    if negb (Str.truthy ffmpeg_bin) then raise FFMPEG_REQUIRED
    else
      let output_path := workdir // (PurePath.stem input_path ++ ".wav")%string in
      let cmd := [default "" ffmpeg_bin; "-y"; "-i"; PurePath.str input_path;
                  "-ar"; "44100"; "-ac"; "2"; PurePath.str output_path] in
      do proc <- run_subprocess cmd;
      let '(returncode, stdout, stderr) := proc in
      do output_exists <- path_exists output_path;
      if negb (Z.eqb returncode 0) || negb output_exists then
        do msg <- diagnostics stdout stderr;
        raise (HTTPException 500 ("FFmpeg failed to transcode input: " ++ msg)%string)
      else ret output_path.

Definition run_demucs (input_path output_root : Path) : M Path :=
  do demucs_bin <- resolve_demucs_bin;
  let cmd := [demucs_bin; "-n"; DEMUCS_MODEL; "-o"; PurePath.str output_root;
              PurePath.str input_path] in
  do proc <- run_subprocess cmd;
  let '(returncode, stdout, stderr) := proc in
  if negb (Z.eqb returncode 0) then
    do msg <- diagnostics stdout stderr;
    raise (HTTPException 500 ("Demucs failed: " ++ msg)%string)
  else
    let song_dir := output_root // DEMUCS_MODEL // PurePath.stem input_path in
    do song_dir_exists <- path_exists song_dir;
    if negb song_dir_exists then raise OUTPUT_MISSING
    else ret song_dir.

Definition stems : list string := ["drums"; "bass"; "vocals"; "other"].

(** The [for stem in stems] loop, with the archive and the flag it
    updates. *)
Fixpoint zip_loop (stem_dir : Path) (todo : list string) (zf : BytesIO) (found_any : bool)
  : M (BytesIO * bool) :=
  match todo with
  | [] => ret (zf, found_any)
  | stem :: rest =>
      let stem_path := stem_dir // (stem ++ ".wav")%string in
      do present <- path_exists stem_path;
      if present then
        do zf' <- zf_write zf stem_path (stem ++ ".wav")%string;
        zip_loop stem_dir rest zf' true
      else zip_loop stem_dir rest zf found_any
  end.

Definition zip_stems (stem_dir : Path) : M BytesIO :=
  do r <- zip_loop stem_dir stems [] false;
  let '(zf, found_any) := r in
  if negb found_any then raise NO_STEMS
  else ret zf.

Definition separate (request : Request) (file : option UploadFile) : M Reply :=
  if String.eqb (method request) "OPTIONS" then ret (JsonReply [("status", "ok")])
  else
    match file with
    | None => raise AttributeError
    | Some file =>
        if negb (Str.truthy (filename file)) then raise FILE_REQUIRED
        else
          with_TemporaryDirectory (fun tmpdir =>
            let tmp_path := PurePath.parse tmpdir in
            let input_path :=
              tmp_path // PurePath.name (PurePath.parse (default "" (filename file))) in
            let output_root := tmp_path // "separated" in
            let raw := content file in
            exec write_bytes input_path raw;
            do processed_input <- maybe_transcode_to_wav input_path tmp_path;
            do stem_dir <- run_demucs processed_input output_root;
            do zip_buffer <- zip_stems stem_dir;
            new_StreamingResponse zip_buffer "application/zip"
              [("X-Model", DEMUCS_MODEL);
               ("Content-Disposition",
                ("attachment; filename=" ++ Str.dquote
                   ++ PurePath.stem input_path ++ "_stems.zip" ++ Str.dquote)%string)])
    end.

End Server.

(** ** Vocabulary of the statements *)

(** A name that stands for an entry of a directory: not empty, without
    separator, and neither [.] nor [..]. *)
Definition plain_name (b : string) : bool :=
  negb (Str.contains "/" b) && PurePath.keep_part b && negb (String.eqb b "..").

(** Where [mkdtemp] puts the workspace: the components of the temporary
    directory from the root, and the name of the new entry. *)
Definition workspace_base (env : Env) : list string :=
  (if OsPath.isabs (tempdir env) then [] else parts (PurePath.parse (cwd env)))
  ++ parts (PurePath.parse (tempdir env)).

Definition workspace_name (host : Host) : string :=
  ("tmp" ++ random_name 8 (rand host))%string.

(** A computation extends the log, and only by events that satisfy [P]. *)
Definition adds_only (P : event -> Prop) {A} (m : M A) : Prop :=
  forall w r w', m w = (r, w') ->
    exists evs, log w' = log w ++ evs /\ Forall P evs.


(** Two characters that are the same letter, in whichever case, or the
    same character. *)
Definition same_letter (a b : ascii) : bool :=
  Ascii.eqb a b || Ascii.eqb (Str.upper_ascii a) b || Ascii.eqb a (Str.upper_ascii b).

(** Two strings that differ at most in the case of their letters. *)
Fixpoint differs_only_in_case (s t : string) : bool :=
  match s, t with
  | EmptyString, EmptyString => true
  | String a s', String b t' => same_letter a b && differs_only_in_case s' t'
  | _, _ => false
  end.

(** *** Resolution as the specification words it *)

Inductive BinaryKind := SeparationEngine | Transcoder.

Definition executable (kind : BinaryKind) : string :=
  match kind with SeparationEngine => "demucs" | Transcoder => "ffmpeg" end.

Definition override (env : Env) (kind : BinaryKind) : option string :=
  match kind with
  | SeparationEngine => DEMUCS_BIN env
  | Transcoder => FFMPEG_BIN env
  end.

(** [resolve(kind)]: the two resolvers of the source under one name. *)
Definition resolve (env : Env) (host : Host) (kind : BinaryKind) : M (option string) :=
  match kind with
  | SeparationEngine => do b <- resolve_demucs_bin env host; ret (Some b)
  | Transcoder => resolve_ffmpeg_bin env host
  end.

(** The local installation directories: the executable folders of the
    virtual environment next to the module, under both namings. *)
Definition local_candidates (env : Env) (kind : BinaryKind) : list Path :=
  [here env // ".venv" // "bin" // executable kind;
   here env // ".venv" // "Scripts" // (executable kind ++ ".exe")%string].

(** A candidate that counts only when it is a non-empty string. *)
Definition if_truthy (o : option string) : option string :=
  if Str.truthy o then o else None.

(** A candidate that counts only when something exists at the path. *)
Definition if_exists (env : Env) (f : FS) (p : Path) : option string :=
  if FileSystem.path_exists (cwd env) f p then Some (PurePath.str p) else None.

(** "Returns the first match." *)
Fixpoint first_match (candidates : list (option string)) : option string :=
  match candidates with
  | [] => None
  | Some b :: _ => Some b
  | None :: rest => first_match rest
  end.

(** What the specification says of local installations, for one kind of
    binary: with no
    override and nothing on the search path, an existing local candidate is
    what [resolve] returns. *)
Definition honours_local_install (env : Env) (host : Host) (w : World)
    (kind : BinaryKind) : Prop :=
  Str.truthy (override env kind) = false ->
  Str.truthy (which host (executable kind)) = false ->
  forall c, In c (local_candidates env kind) ->
    FileSystem.path_exists (cwd env) (fs w) c = true ->
    exists c', In c' (local_candidates env kind) /\
               FileSystem.path_exists (cwd env) (fs w) c' = true /\
               fst (resolve env host kind w) = Ok (Some (PurePath.str c')).

(** *** Sample data *)

Definition sample_env : Env :=
  mkEnv ∅ (mkPath "/" ["srv"]) "/" "/tmp".

(** An environment in which both overrides are set. *)
Definition env_with_overrides : Env :=
  mkEnv {[ "DEMUCS_BIN" := "/opt/demucs/bin/demucs"; "FFMPEG_BIN" := "/opt/ffmpeg" ]}
        (mkPath "/" ["srv"]) "/" "/tmp".

(** A host with nothing on the search path and no child that starts. *)
Definition bare_host : Host :=
  mkHost (fun _ => None) (fun _ _ => SpawnFailed) 7.

(** A virtual environment next to the module that holds an [ffmpeg]. *)
Definition venv_with_ffmpeg : World :=
  mkWorld
    {[ ["srv"] := Dir;
       ["srv"; ".venv"] := Dir;
       ["srv"; ".venv"; "bin"] := Dir;
       ["srv"; ".venv"; "bin"; "ffmpeg"] := File "ELF";
       ["tmp"] := Dir ]}
    [].

(** *** The archive as the specification words it *)

(** What the archive holds for one stem: nothing when nothing is at
    [<stem>.wav], the file under that flat name when it is a regular file,
    and a directory entry, named with a trailing separator, when it is a
    directory. *)
Definition stem_entry (env : Env) (f : FS) (stem_dir : Path) (stem : string)
  : list ZipEntry :=
  match FileSystem.stat (cwd env) f (stem_dir // (stem ++ ".wav")%string) with
  | Some (File data) => [mkEntry (stem ++ ".wav")%string data]
  | Some Dir => [mkEntry (stem ++ ".wav" ++ "/")%string ""]
  | None => []
  end.

Definition expected_archive (env : Env) (f : FS) (stem_dir : Path) : BytesIO :=
  flat_map (stem_entry env f stem_dir) stems.

(** The stems whose [<stem>.wav] is a regular file of the directory. *)
Definition stems_present_as_files (env : Env) (f : FS) (stem_dir : Path) : list string :=
  List.filter
    (fun stem => FileSystem.path_is_file (cwd env) f (stem_dir // (stem ++ ".wav")%string))
    stems.

(** What the specification says of the archive: its entries are the
    [<stem>.wav] that exist as files, under those names and in that order. *)
Definition archive_holds_the_files (env : Env) (w : World) (stem_dir : Path) : Prop :=
  forall zf w', zip_stems env stem_dir w = (Ok zf, w') ->
    List.map arcname zf
    = List.map (fun stem => (stem ++ ".wav")%string)
               (stems_present_as_files env (fs w) stem_dir).

(** A stem directory in which [drums.wav] is itself a directory. *)
Definition drums_is_a_directory : World :=
  mkWorld
    {[ ["out"] := Dir;
       ["out"; "drums.wav"] := Dir ]}
    [].

(** A stem directory with the two files [drums.wav] and [vocals.wav]. *)
Definition drums_and_vocals : World :=
  mkWorld
    {[ ["out"] := Dir;
       ["out"; "drums.wav"] := File "RIFFdrums";
       ["out"; "vocals.wav"] := File "RIFFvocals" ]}
    [].

(** A stem whose entry names [ZipInfo.from_file] leaves as they are. *)
Definition plain_arcname (stem : string) : Prop :=
  forall b, ZipFile.entry_name (stem ++ ".wav") b
            = (stem ++ ".wav" ++ (if b then "/" else ""))%string.

(** An entry that stands for one of the four stems. *)
Definition stem_entry_name (nm : string) : Prop :=
  exists stem, In stem stems /\
    (nm = (stem ++ ".wav")%string \/ nm = (stem ++ ".wav" ++ "/")%string).

(** *** The output check as it is stated *)

(** What the specification says of the output check: after a child that
    exits with
    status 0, [run_demucs] raises "output missing" exactly when no
    directory is at the expected place. *)
Definition output_missing_iff_no_directory (env : Env) (host : Host)
    (input_path output_root : Path) (w : World) : Prop :=
  forall demucs_bin w1 out err f',
    resolve_demucs_bin env host w = (Ok demucs_bin, w1) ->
    spawn host [demucs_bin; "-n"; DEMUCS_MODEL env; "-o";
                PurePath.str output_root; PurePath.str input_path] (fs w1)
    = Exited 0 out err f' ->
    (fst (run_demucs env host input_path output_root w) = Raise OUTPUT_MISSING
     <-> FileSystem.path_is_dir (cwd env) f'
           (output_root // DEMUCS_MODEL env // PurePath.stem input_path) = false).

Definition demucs_on_path (cmd : string) : option string :=
  if String.eqb cmd "demucs" then Some "/usr/bin/demucs" else None.

(** An engine that exits with status 0 and leaves a regular file where
    its output directory should be. *)
Definition engine_leaving_a_file : Host :=
  mkHost demucs_on_path
    (fun _ f =>
       Exited 0 (Some "") (Some "")
         (<[ ["w"; "separated"; "htdemucs"; "song"] := File "not a directory" ]>
         (<[ ["w"; "separated"; "htdemucs"] := Dir ]>
         (<[ ["w"; "separated"] := Dir ]> f))))
    7.

(** An engine whose process cannot be started. *)
Definition engine_not_starting : Host :=
  mkHost demucs_on_path (fun _ _ => SpawnFailed) 7.

(** An engine that exits with status 0 and writes nothing. *)
Definition engine_writing_nothing : Host :=
  mkHost demucs_on_path (fun _ f => Exited 0 (Some "") (Some "") f) 7.

(** An engine that follows the output convention and writes the stems
    [drums] and [other] of its input. *)
Definition engine_writing_two_stems : Host :=
  mkHost demucs_on_path
    (fun cmd f =>
       match cmd with
       | [_; _; model; _; out; inp] =>
           let o := parts (PurePath.parse out) in
           let song := PurePath.stem (PurePath.parse inp) in
           Exited 0 (Some "") (Some "")
             (<[ o ++ [model; song; "other.wav"] := File "RIFFother" ]>
             (<[ o ++ [model; song; "drums.wav"] := File "RIFFdrums" ]>
             (<[ o ++ [model; song] := Dir ]>
             (<[ o ++ [model] := Dir ]>
             (<[ o := Dir ]> f)))))
       | _ => SpawnFailed
       end)
    7.

(** A work directory that holds the song. *)
Definition song_in_w : World :=
  mkWorld {[ ["w"] := Dir; ["w"; "song.wav"] := File "RIFFsong" ]} [].

(** A machine with an empty temporary directory. *)
Definition empty_tmp : World :=
  mkWorld {[ ["tmp"] := Dir ]} [].

(** Unfolds the monad and the effect-free library calls. *)
Ltac unfold_M :=
  unfold bind, ret, raise, emit, get_fs, put_fs, path_exists, shutil_which in *.

(** ** The health endpoint *)

(** [health()]: the JSON object of [GET /api/health]. *)
Definition health (env : Env) : list (string * string) :=
  [("status", "ok"); ("model", DEMUCS_MODEL env)].

(** ** Further vocabulary *)

(** The argument vectors of the two children. *)
Definition ffmpeg_cmd (ffmpeg_bin : string) (input_path output_path : Path) : list string :=
  [ffmpeg_bin; "-y"; "-i"; PurePath.str input_path;
   "-ar"; "44100"; "-ac"; "2"; PurePath.str output_path].

Definition demucs_cmd (env : Env) (demucs_bin : string) (input_path output_root : Path)
  : list string :=
  [demucs_bin; "-n"; DEMUCS_MODEL env; "-o"; PurePath.str output_root;
   PurePath.str input_path].

(** The headers of a streamed reply for an upload named [fname]. *)
Definition stems_headers (env : Env) (fname : string) : list (string * string) :=
  [("X-Model", DEMUCS_MODEL env);
   ("Content-Disposition",
    ("attachment; filename=" ++ Str.dquote
       ++ PurePath.stem (PurePath.parse fname) ++ "_stems.zip" ++ Str.dquote)%string)].

(** The number of child processes a stretch of the log asks for. *)
Definition spawn_count (evs : list event) : nat :=
  length (List.filter is_spawn evs).

(** A computation extends the log by events that together satisfy [P]. *)
Definition extends_log (P : list event -> Prop) {A} (m : M A) : Prop :=
  forall w r w', m w = (r, w') -> exists evs, log w' = log w ++ evs /\ P evs.

(** A computation raises only exceptions that satisfy [P]. *)
Definition raises_only (P : exn -> Prop) {A} (m : M A) : Prop :=
  forall w e w', m w = (Raise e, w') -> P e.

(** An [HTTPException] of status 500, or an exception of another kind. *)
Definition server_error (e : exn) : Prop :=
  match e with
  | HTTPException status_code _ => status_code = 500
  | _ => True
  end.

(** The children of a host leave everything outside the tree at [K] as
    they find it. *)
Definition confined_to (K : list string) (host : Host) : Prop :=
  forall cmd f rc out err f',
    spawn host cmd f = Exited rc out err f' ->
    forall k, ~ K `prefix_of` k -> f' !! k = f !! k.

(** A computation leaves everything outside the tree at [K] as it finds
    it. *)
Definition keeps_outside (K : list string) {A} (m : M A) : Prop :=
  forall w r w', m w = (r, w') ->
    forall k, ~ K `prefix_of` k -> fs w' !! k = fs w !! k.

(** A stretch of the log made of searches of the path and of at most [n]
    child processes. *)
Definition asks_at_most (n : nat) (evs : list event) : Prop :=
  Forall (fun ev => is_which ev || is_spawn ev = true) evs /\ spawn_count evs <= n.

(** An event that is neither the creation nor the removal of a
    workspace. *)
Definition inside_event (ev : event) : Prop :=
  match ev with
  | EvMkdtemp _ | EvRmtree _ => False
  | _ => True
  end.

(** *** More sample data *)

Definition tools_on_path (cmd : string) : option string :=
  if String.eqb cmd "demucs" then Some "/usr/bin/demucs"
  else if String.eqb cmd "ffmpeg" then Some "/usr/bin/ffmpeg"
  else None.

(** A machine with both tools: [ffmpeg] writes its last argument, the
    engine writes the stems [drums] and [other] of its input under its
    output root. *)
Definition studio_host : Host :=
  mkHost tools_on_path
    (fun cmd f =>
       match cmd with
       | [_; "-y"; "-i"; _; "-ar"; _; "-ac"; _; out] =>
           Exited 0 (Some "") (Some "size= 1024kB")
             (<[ parts (PurePath.parse out) := File "RIFFtranscoded" ]> f)
       | [_; "-n"; model; "-o"; out; inp] =>
           let o := parts (PurePath.parse out) in
           let song := PurePath.stem (PurePath.parse inp) in
           Exited 0 (Some "") (Some "")
             (<[ o ++ [model; song; "other.wav"] := File "RIFFother" ]>
             (<[ o ++ [model; song; "drums.wav"] := File "RIFFdrums" ]>
             (<[ o ++ [model; song] := Dir ]>
             (<[ o ++ [model] := Dir ]>
             (<[ o := Dir ]> f)))))
       | _ => SpawnFailed
       end)
    7.

(** An engine that gives up with a message on its standard error. *)
Definition engine_out_of_memory : Host :=
  mkHost demucs_on_path
    (fun _ f => Exited 1 (Some "Separating track") (Some "CUDA out of memory") f)
    7.

(** An engine that writes one stem, always at the same place, inside the
    workspace named by the draw 7. *)
Definition engine_in_workspace : Host :=
  mkHost demucs_on_path
    (fun _ f =>
       Exited 0 (Some "") (Some "")
         (<[ ["tmp"; "tmphaaaaaaa"; "separated"; "htdemucs"; "song"; "vocals.wav"]
               := File "RIFFvocals" ]>
         (<[ ["tmp"; "tmphaaaaaaa"; "separated"; "htdemucs"; "song"] := Dir ]>
         (<[ ["tmp"; "tmphaaaaaaa"; "separated"; "htdemucs"] := Dir ]>
         (<[ ["tmp"; "tmphaaaaaaa"; "separated"] := Dir ]> f)))))
    7.

(** A machine with an empty temporary directory and a home directory. *)
Definition tmp_and_home : World :=
  mkWorld {[ ["tmp"] := Dir; ["home"] := Dir; ["home"; "notes.txt"] := File "keep" ]} [].

(** A work directory that holds a clip to be transcoded. *)
Definition clip_in_w : World :=
  mkWorld {[ ["w"] := Dir; ["w"; "clip.webm"] := File "EBML" ]} [].


(** * Properties *)

(** ** Strings and paths *)

Section StringFacts.

Lemma split_not_nil c s : Str.split c s <> [].
Proof.
  destruct s as [|a r]; simpl; [discriminate|].
  destruct (Ascii.eqb a c); [discriminate|].
  destruct (Str.split c r); discriminate.
Qed.

Lemma split_app_sep c a b :
  Str.split c (a ++ String c b)%string = Str.split c a ++ Str.split c b.
Proof.
  induction a as [|x a IH]; simpl.
  - now rewrite Ascii.eqb_refl.
  - destruct (Ascii.eqb x c); [now rewrite IH|].
    rewrite IH. pose proof (split_not_nil c a) as Hne.
    destruct (Str.split c a); [congruence|reflexivity].
Qed.

Lemma split_without_sep c s : Str.contains c s = false -> Str.split c s = [s].
Proof.
  induction s as [|a r IH]; simpl; [reflexivity|].
  intros H. apply orb_false_iff in H as [Ha Hr].
  rewrite Ha, (IH Hr). reflexivity.
Qed.

Lemma split_parts_without_sep c s :
  Forall (fun x => Str.contains c x = false) (Str.split c s).
Proof.
  induction s as [|a r IH]; simpl.
  - constructor; [reflexivity|constructor].
  - destruct (Ascii.eqb a c) eqn:Ha.
    + constructor; [reflexivity|exact IH].
    + pose proof (split_not_nil c r) as Hne.
      destruct (Str.split c r) as [|w ws]; [congruence|].
      inversion IH; subst. constructor; [|assumption].
      simpl. now rewrite Ha.
Qed.

End StringFacts.

Section PathFacts.

Lemma parts_parse s :
  parts (PurePath.parse s) = List.filter PurePath.keep_part (Str.split "/" s).
Proof.
  unfold PurePath.parse.
  destruct s as [|a s]; [reflexivity|].
  destruct (Ascii.eqb a "/") eqn:Ha.
  - apply Ascii.eqb_eq in Ha; subst a.
    destruct s as [|b s]; [reflexivity|].
    destruct (Ascii.eqb b "/") eqn:Hb.
    + apply Ascii.eqb_eq in Hb; subst b.
      destruct s as [|d s]; [reflexivity|].
      destruct (Ascii.eqb d "/") eqn:Hd.
      * apply Ascii.eqb_eq in Hd; subst d. reflexivity.
      * assert (Hs : PurePath.splitroot (String "/" (String "/" (String d s)))
                     = ("//", String d s)).
        { simpl. destruct d as [[] [] [] [] [] [] [] []]; try reflexivity.
          discriminate Hd. }
        rewrite Hs. cbn [parts]. simpl. rewrite Hd.
        destruct (Str.split "/" s); reflexivity.
    + assert (Hs : PurePath.splitroot (String "/" (String b s)) = ("/", String b s)).
      { simpl. destruct b as [[] [] [] [] [] [] [] []]; try reflexivity.
        discriminate Hb. }
      rewrite Hs. cbn [parts]. simpl. rewrite Hb.
      destruct (Str.split "/" s); reflexivity.
  - assert (Hs : PurePath.splitroot (String a s) = ("", String a s)).
    { simpl. destruct a as [[] [] [] [] [] [] [] []]; try reflexivity.
      discriminate Ha. }
    rewrite Hs. reflexivity.
Qed.

Lemma root_parse_isabs s : Str.nonempty (root (PurePath.parse s)) = OsPath.isabs s.
Proof.
  unfold PurePath.parse.
  destruct s as [|a s]; [reflexivity|].
  destruct a as [[] [] [] [] [] [] [] []]; try reflexivity.
  destruct s as [|b s]; [reflexivity|].
  destruct b as [[] [] [] [] [] [] [] []]; try reflexivity.
  destruct s as [|d s]; [reflexivity|].
  destruct d as [[] [] [] [] [] [] [] []]; reflexivity.
Qed.

End PathFacts.

Section NameFacts.

Lemma last_filter_split s :
  let b := List.last (List.filter PurePath.keep_part (Str.split "/" s)) "" in
  Str.contains "/" b = false /\ (b = "" \/ PurePath.keep_part b = true).
Proof.
  intros b. subst b.
  pose proof (split_parts_without_sep "/" s) as Hall.
  induction (Str.split "/" s) as [|x l IH]; simpl.
  - split; [reflexivity|now left].
  - inversion Hall as [|? ? Hx Hl]; subst.
    destruct (PurePath.keep_part x) eqn:Hk; [|now apply IH].
    destruct (List.filter PurePath.keep_part l) as [|y l'] eqn:Hf.
    + simpl. split; [assumption|now right].
    + change (List.last (x :: y :: l') "") with (List.last (y :: l') "").
      now apply IH.
Qed.

(** The base name of any client string has no separator in it. *)
Lemma name_parse s :
  let b := PurePath.name (PurePath.parse s) in
  Str.contains "/" b = false /\ (b = "" \/ PurePath.keep_part b = true).
Proof.
  unfold PurePath.name. rewrite parts_parse. apply last_filter_split.
Qed.

Lemma parse_single b :
  Str.contains "/" b = false -> PurePath.keep_part b = true ->
  PurePath.parse b = mkPath "" [b].
Proof.
  intros Hc Hk.
  assert (Hp : parts (PurePath.parse b) = [b]).
  { rewrite parts_parse, (split_without_sep _ _ Hc). simpl. now rewrite Hk. }
  assert (Hr : root (PurePath.parse b) = "").
  { pose proof (root_parse_isabs b) as H.
    destruct b as [|a r]; [reflexivity|].
    simpl in Hc. apply orb_false_iff in Hc as [Ha _].
    unfold OsPath.isabs in H.
    destruct a as [[] [] [] [] [] [] [] []]; try discriminate Ha;
      destruct (root (PurePath.parse _)); simpl in H; congruence. }
  destruct (PurePath.parse b) as [r p]. simpl in *. congruence.
Qed.

Lemma joinpath_single p b :
  Str.contains "/" b = false -> PurePath.keep_part b = true ->
  p // b = mkPath (root p) (parts p ++ [b]).
Proof.
  intros Hc Hk. unfold PurePath.joinpath. now rewrite (parse_single b Hc Hk).
Qed.

Lemma Path_eta p : mkPath (root p) (parts p) = p.
Proof. now destruct p. Qed.

Lemma joinpath_empty p : p // "" = p.
Proof.
  destruct p as [r ps]. unfold PurePath.joinpath. simpl. now rewrite app_nil_r.
Qed.

Lemma name_snoc r ps b : PurePath.name (mkPath r (ps ++ [b])) = b.
Proof. unfold PurePath.name. simpl. apply last_last. Qed.

Lemma plain_name_spec b :
  plain_name b = true ->
  Str.contains "/" b = false /\ PurePath.keep_part b = true /\ b <> ".." /\ b <> "." /\ b <> "".
Proof.
  unfold plain_name. intros H.
  apply andb_true_iff in H as [H Hdd].
  apply andb_true_iff in H as [Hc Hk].
  apply negb_true_iff in Hc.
  split; [assumption|]. split; [assumption|].
  unfold PurePath.keep_part in Hk.
  repeat split; intros ->; discriminate.
Qed.

End NameFacts.

(** ** Path resolution *)

Section WalkFacts.

Lemma step_plain cur b : plain_name b = true -> FileSystem.step cur b = cur ++ [b].
Proof.
  intros H. apply plain_name_spec in H as (_ & _ & H1 & H2 & H3).
  unfold FileSystem.step.
  destruct (String.eqb_spec b ".."); [congruence|].
  destruct (String.eqb_spec b "."); [congruence|].
  destruct (String.eqb_spec b ""); [congruence|]. reflexivity.
Qed.

(** Which key a walk reaches does not depend on the file system; whether
    it gets there does. *)
Lemma walk_key f cur cs k :
  FileSystem.walk f cur cs = Some k -> k = fold_left FileSystem.step cs cur.
Proof.
  revert cur. induction cs as [|c cs IH]; simpl; intros cur H.
  - congruence.
  - destruct (FileSystem.is_dir f cur); [|discriminate]. now apply IH.
Qed.

Lemma walk_snoc f cur cs b :
  FileSystem.walk f cur (cs ++ [b]) =
  match FileSystem.walk f cur cs with
  | Some k => if FileSystem.is_dir f k then Some (FileSystem.step k b) else None
  | None => None
  end.
Proof.
  revert cur. induction cs as [|c cs IH]; simpl; intros cur.
  - reflexivity.
  - destruct (FileSystem.is_dir f cur); [apply IH|reflexivity].
Qed.

Lemma walk_mono f f' cur cs k :
  (forall j, FileSystem.is_dir f j = true -> FileSystem.is_dir f' j = true) ->
  FileSystem.walk f cur cs = Some k -> FileSystem.walk f' cur cs = Some k.
Proof.
  intros Hm. revert cur. induction cs as [|c cs IH]; simpl; intros cur H.
  - assumption.
  - destruct (FileSystem.is_dir f cur) eqn:Hd; [|discriminate].
    rewrite (Hm _ Hd). now apply IH.
Qed.

Lemma is_dir_insert_fresh f k v j :
  f !! k = None -> FileSystem.is_dir f j = true ->
  FileSystem.is_dir (<[k := v]> f) j = true.
Proof.
  intros Hk. unfold FileSystem.is_dir. destruct j as [|x j]; [reflexivity|].
  destruct (decide (k = x :: j)) as [->|Hne].
  - now rewrite Hk.
  - now rewrite lookup_insert_ne.
Qed.

Lemma is_dir_insert_over_file f k v j :
  f !! k <> Some Dir -> FileSystem.is_dir f j = true ->
  FileSystem.is_dir (<[k := v]> f) j = true.
Proof.
  intros Hk. unfold FileSystem.is_dir. destruct j as [|x j]; [reflexivity|].
  destruct (decide (k = x :: j)) as [->|Hne].
  - destruct (f !! (x :: j)) as [[]|]; congruence.
  - now rewrite lookup_insert_ne.
Qed.

Lemma is_dir_insert_dir f k : FileSystem.is_dir (<[k := Dir]> f) k = true.
Proof.
  unfold FileSystem.is_dir. destruct k; [reflexivity|]. now rewrite lookup_insert_eq.
Qed.

End WalkFacts.

(** ** Temporary directories *)

Section TempFacts.

Lemma characters_without_sep i : nth i characters "a"%char <> "/"%char.
Proof.
  assert (H : Forall (fun c => c <> "/"%char) characters).
  { unfold characters. simpl. repeat constructor; discriminate. }
  destruct (Nat.lt_ge_cases i (length characters)) as [Hlt|Hge].
  - apply (proj1 (List.Forall_forall _ _) H). now apply nth_In.
  - rewrite nth_overflow by assumption. discriminate.
Qed.

Lemma random_name_without_sep n seed : Str.contains "/" (random_name n seed) = false.
Proof.
  revert seed. induction n as [|n IH]; intros seed; simpl; [reflexivity|].
  rewrite IH, orb_false_r. apply Ascii.eqb_neq, characters_without_sep.
Qed.

Lemma tmp_name_plain seed : plain_name ("tmp" ++ random_name 8 seed) = true.
Proof.
  unfold plain_name, PurePath.keep_part.
  change ("tmp" ++ random_name 8 seed)%string
    with (String "t" (String "m" (String "p" (random_name 8 seed)))).
  cbn [Str.contains Str.nonempty String.eqb Ascii.eqb Bool.eqb orb andb negb].
  now rewrite random_name_without_sep.
Qed.

Lemma ends_with_sep_inv d :
  OsPath.ends_with_sep d = true -> exists d0, d = (d0 ++ "/")%string.
Proof.
  induction d as [|a r IH]; simpl; [discriminate|].
  destruct r as [|b r].
  - intros H. apply Ascii.eqb_eq in H; subst a. now exists "".
  - intros H. destruct (IH H) as [d0 Hd0]. exists (String a d0).
    simpl. now rewrite <- Hd0.
Qed.

Lemma append_sep d n : ((d ++ "/") ++ n)%string = (d ++ String "/" n)%string.
Proof. induction d as [|a d IH]; simpl; [reflexivity|now rewrite IH]. Qed.

Lemma plain_not_abs n : plain_name n = true -> OsPath.isabs n = false.
Proof.
  intros H. apply plain_name_spec in H as (Hc & _).
  destruct n as [|a r]; [reflexivity|].
  simpl in Hc. apply orb_false_iff in Hc as [Ha _].
  unfold OsPath.isabs. destruct a as [[] [] [] [] [] [] [] []]; try reflexivity.
  discriminate Ha.
Qed.

Lemma filter_split_plain n :
  plain_name n = true -> List.filter PurePath.keep_part (Str.split "/" n) = [n].
Proof.
  intros H. apply plain_name_spec in H as (Hc & Hk & _).
  rewrite (split_without_sep _ _ Hc). simpl. now rewrite Hk.
Qed.

(** [os.path.join(d, n)] names the entry [n] of the directory [d]. *)
Lemma parts_join d n :
  plain_name n = true ->
  parts (PurePath.parse (OsPath.join d n)) = parts (PurePath.parse d) ++ [n].
Proof.
  intros Hn. rewrite !parts_parse. unfold OsPath.join.
  rewrite (plain_not_abs n Hn).
  destruct (Str.nonempty d) eqn:Hd; simpl.
  - destruct (OsPath.ends_with_sep d) eqn:He.
    + destruct (ends_with_sep_inv d He) as [d0 ->].
      rewrite append_sep, !split_app_sep, !List.filter_app.
      rewrite (filter_split_plain n Hn). simpl. now rewrite app_nil_r.
    + change (d ++ "/" ++ n)%string with (d ++ String "/" n)%string.
      rewrite split_app_sep, List.filter_app. now rewrite (filter_split_plain n Hn).
  - destruct d; [|discriminate]. simpl. now rewrite (filter_split_plain n Hn).
Qed.

Lemma isabs_join d n : plain_name n = true -> OsPath.isabs (OsPath.join d n) = OsPath.isabs d.
Proof.
  intros Hn. unfold OsPath.join. rewrite (plain_not_abs n Hn).
  destruct d as [|a d]; [now apply plain_not_abs|].
  cbn [Str.nonempty negb orb].
  destruct (OsPath.ends_with_sep (String a d)); reflexivity.
Qed.

End TempFacts.

Section WorkspaceFacts.

Variable env : Env.
Variable host : Host.

Lemma locate_entry f d n :
  plain_name n = true ->
  FileSystem.locate (cwd env) f (PurePath.parse (OsPath.join d n)) =
  match FileSystem.walk f []
          ((if OsPath.isabs d then [] else parts (PurePath.parse (cwd env)))
           ++ parts (PurePath.parse d)) with
  | Some k => if FileSystem.is_dir f k then Some (k ++ [n]) else None
  | None => None
  end.
Proof.
  intros Hn. unfold FileSystem.locate.
  rewrite root_parse_isabs, (isabs_join d n Hn), (parts_join d n Hn).
  destruct (OsPath.isabs d); simpl.
  - rewrite walk_snoc. destruct (FileSystem.walk f [] _) as [k|]; [|reflexivity].
    now rewrite (step_plain k n Hn).
  - rewrite app_assoc, walk_snoc.
    destruct (FileSystem.walk f [] _) as [k|]; [|reflexivity].
    now rewrite (step_plain k n Hn).
Qed.

(** What a successful [mkdtemp] has done. *)
Lemma mkdtemp_inv w tmpdir w1 :
  mkdtemp env host w = (Ok tmpdir, w1) ->
  exists k,
    tmpdir = OsPath.join (tempdir env) (workspace_name host) /\
    FileSystem.walk (fs w) [] (workspace_base env) = Some k /\
    FileSystem.is_dir (fs w) k = true /\
    fs w !! (k ++ [workspace_name host]) = None /\
    fs w1 = <[k ++ [workspace_name host] := Dir]> (fs w) /\
    log w1 = log w ++ [EvMkdtemp tmpdir].
Proof.
  unfold mkdtemp, mkdir. fold (workspace_name host). unfold_M.
  rewrite (locate_entry (fs w) (tempdir env) (workspace_name host) (tmp_name_plain _)).
  fold (workspace_base env).
  destruct (FileSystem.walk (fs w) [] (workspace_base env)) as [k|] eqn:Hw;
    [|discriminate].
  destruct (FileSystem.is_dir (fs w) k) eqn:Hd; [|discriminate].
  destruct (k ++ [workspace_name host]) as [|x l] eqn:Hk.
  { destruct k; discriminate. }
  destruct (fs w !! (x :: l)) eqn:Hl; [discriminate|].
  simpl. intros H. inversion H; subst. exists k.
  rewrite Hk. simpl. repeat split; try reflexivity; assumption.
Qed.

(** A failed [mkdtemp] leaves the world as it was. *)
Lemma mkdtemp_raise w e w1 : mkdtemp env host w = (Raise e, w1) -> w1 = w.
Proof.
  unfold mkdtemp, mkdir. unfold_M.
  destruct (FileSystem.locate _ _ _) as [[|x l]|]; simpl.
  - congruence.
  - destruct (fs w !! (x :: l)); simpl; [congruence|discriminate].
  - congruence.
Qed.

(** The workspace is a directory once [mkdtemp] has returned. *)
Lemma mkdtemp_creates w tmpdir w1 :
  mkdtemp env host w = (Ok tmpdir, w1) ->
  exists k,
    FileSystem.locate (cwd env) (fs w1) (PurePath.parse tmpdir)
      = Some (k ++ [workspace_name host]) /\
    fs w1 !! (k ++ [workspace_name host]) = Some Dir /\
    fs w !! (k ++ [workspace_name host]) = None /\
    fs w1 = <[k ++ [workspace_name host] := Dir]> (fs w) /\
    FileSystem.is_dir (fs w1) k = true.
Proof.
  intros H. destruct (mkdtemp_inv _ _ _ H) as (k & -> & Hw & Hd & Hn & Hf & _).
  exists k. rewrite Hf. repeat split; try assumption.
  - rewrite (locate_entry _ (tempdir env) (workspace_name host) (tmp_name_plain _)).
    fold (workspace_base env).
    rewrite (walk_mono (fs w) _ [] _ k (fun j => is_dir_insert_fresh _ _ Dir j Hn) Hw).
    now rewrite (is_dir_insert_fresh _ _ Dir k Hn Hd).
  - apply lookup_insert_eq.
  - now apply is_dir_insert_fresh.
Qed.

End WorkspaceFacts.

Section CleanupFacts.

Variable env : Env.
Variable host : Host.

Lemma fold_step_snoc cs cur n :
  plain_name n = true ->
  fold_left FileSystem.step (cs ++ [n]) cur = fold_left FileSystem.step cs cur ++ [n].
Proof. intros Hn. rewrite fold_left_app. simpl. now apply step_plain. Qed.

(** The key of a path whose last component is a plain name ends with
    that name, whatever the file system. *)
Lemma locate_key f p ps n k :
  parts p = ps ++ [n] -> plain_name n = true ->
  FileSystem.locate (cwd env) f p = Some k ->
  exists k0, k = k0 ++ [n] /\
             forall f' k', FileSystem.locate (cwd env) f' p = Some k' -> k' = k.
Proof.
  intros Hp Hn. unfold FileSystem.locate. rewrite Hp.
  destruct (Str.nonempty (root p)).
  - intros H. apply walk_key in H. rewrite (fold_step_snoc _ _ _ Hn) in H.
    eexists; split; [exact H|].
    intros f' k' H'. apply walk_key in H'.
    rewrite (fold_step_snoc _ _ _ Hn) in H'. congruence.
  - rewrite app_assoc. intros H. apply walk_key in H.
    rewrite (fold_step_snoc _ _ _ Hn) in H.
    eexists; split; [exact H|].
    intros f' k' H'. apply walk_key in H'.
    rewrite (fold_step_snoc _ _ _ Hn) in H'. congruence.
Qed.

Lemma remove_tree_lookup k f : FileSystem.remove_tree k f !! k = None.
Proof.
  unfold FileSystem.remove_tree. apply map_lookup_filter_None. right.
  intros x _ Hnot. apply Hnot. reflexivity.
Qed.

(** After the cleanup no directory is left at the path, however the
    cleanup itself ends. *)
Lemma cleanup_removes tmpdir ps n w r w' :
  parts (PurePath.parse tmpdir) = ps ++ [n] -> plain_name n = true ->
  cleanup env tmpdir w = (r, w') ->
  FileSystem.path_is_dir (cwd env) (fs w') (PurePath.parse tmpdir) = false.
Proof.
  intros Hp Hn. unfold cleanup. unfold_M. simpl.
  unfold FileSystem.path_is_dir, FileSystem.stat.
  destruct (FileSystem.locate (cwd env) (fs w) (PurePath.parse tmpdir)) as [k|] eqn:Hl.
  - destruct (locate_key _ _ _ _ _ Hp Hn Hl) as (k0 & -> & Hdet).
    destruct (k0 ++ [n]) as [|x l] eqn:Hk; [destruct k0; discriminate|].
    destruct (fs w !! (x :: l)) as [[d|]|] eqn:Hx; simpl; intros H; inversion H; subst;
      simpl.
    + rewrite Hl, Hx. reflexivity.
    + destruct (FileSystem.locate _ (FileSystem.remove_tree _ _) _) as [k'|] eqn:Hl';
        [|reflexivity].
      rewrite (Hdet _ _ Hl'). now rewrite remove_tree_lookup.
    + rewrite Hl, Hx. reflexivity.
  - simpl. intros H; inversion H; subst; simpl. now rewrite Hl.
Qed.

(** The bracket: whatever the body does and however it ends, no
    directory is left where [mkdtemp] made one. *)
Lemma with_TemporaryDirectory_cleans {A} (body : string -> M A) w tmpdir w1 r w' :
  mkdtemp env host w = (Ok tmpdir, w1) ->
  with_TemporaryDirectory env host body w = (r, w') ->
  FileSystem.path_is_dir (cwd env) (fs w') (PurePath.parse tmpdir) = false.
Proof.
  intros Hmk. unfold with_TemporaryDirectory. rewrite Hmk.
  destruct (mkdtemp_inv _ _ _ _ _ Hmk) as (k & Ht & _).
  destruct (body tmpdir w1) as [rb w2].
  destruct (cleanup env tmpdir w2) as [rc w3] eqn:Hc.
  assert (Hgone : FileSystem.path_is_dir (cwd env) (fs w3) (PurePath.parse tmpdir) = false).
  { eapply cleanup_removes; [|apply (tmp_name_plain (rand host))|exact Hc].
    rewrite Ht. apply parts_join, tmp_name_plain. }
  destruct rc; intros H; inversion H; subst; exact Hgone.
Qed.

(** Before [mkdtemp] runs there is nothing where it will make the
    workspace. *)
Lemma mkdtemp_fresh w tmpdir w1 :
  mkdtemp env host w = (Ok tmpdir, w1) ->
  FileSystem.path_exists (cwd env) (fs w) (PurePath.parse tmpdir) = false.
Proof.
  intros Hmk. destruct (mkdtemp_inv _ _ _ _ _ Hmk) as (k & -> & Hw & Hd & Hn & _).
  unfold FileSystem.path_exists, FileSystem.stat.
  rewrite (locate_entry env _ (tempdir env) (workspace_name host) (tmp_name_plain _)).
  fold (workspace_base env). rewrite Hw, Hd.
  destruct (k ++ [workspace_name host]) eqn:Hk; [destruct k; discriminate|].
  now rewrite Hn.
Qed.

End CleanupFacts.

Section BelowFacts.

Lemma walk_app f cur a b :
  FileSystem.walk f cur (a ++ b) =
  match FileSystem.walk f cur a with
  | Some k => FileSystem.walk f k b
  | None => None
  end.
Proof.
  revert cur. induction a as [|c a IH]; simpl; intros cur; [reflexivity|].
  destruct (FileSystem.is_dir f cur); [apply IH|reflexivity].
Qed.

(** Nothing can be reached through a path at which there is no
    directory. *)
Lemma nothing_below_a_missing_directory cwd f p c rest :
  FileSystem.path_is_dir cwd f p = false ->
  FileSystem.path_exists cwd f (mkPath (root p) (parts p ++ c :: rest)) = false.
Proof.
  unfold FileSystem.path_is_dir, FileSystem.path_exists, FileSystem.stat,
    FileSystem.locate. simpl.
  destruct (Str.nonempty (root p)).
  - rewrite walk_app. destruct (FileSystem.walk f [] (parts p)) as [k|]; [|reflexivity].
    simpl. unfold FileSystem.is_dir. destruct k as [|x k]; [discriminate|].
    destruct (f !! (x :: k)) as [[d|]|]; try reflexivity. discriminate.
  - rewrite app_assoc.
    rewrite (walk_app f [] (parts (PurePath.parse cwd) ++ parts p) (c :: rest)).
    destruct (FileSystem.walk f [] (parts (PurePath.parse cwd) ++ parts p)) as [k|];
      [|reflexivity].
    simpl. unfold FileSystem.is_dir. destruct k as [|x k]; [discriminate|].
    destruct (f !! (x :: k)) as [[d|]|]; try reflexivity. discriminate.
Qed.

End BelowFacts.

(** ** The workspace *)

(** C8. For every request, every state of the file system and every behaviour
    of the child processes, and however the handler ends (a reply, an
    [HTTPException], or any other exception), the directory that [mkdtemp]
    makes for the request is no longer a directory when the handler has
    returned, and nothing exists any more at any path below it. *)
Theorem workspace_deleted_on_every_exit env host request file w tmpdir w1 r w' :
  mkdtemp env host w = (Ok tmpdir, w1) ->
  separate env host request file w = (r, w') ->
  FileSystem.path_is_dir (cwd env) (fs w') (PurePath.parse tmpdir) = false
  /\ forall c rest,
       FileSystem.path_exists (cwd env) (fs w')
         (mkPath (root (PurePath.parse tmpdir))
                 (parts (PurePath.parse tmpdir) ++ c :: rest)) = false.
Proof.
  intros Hmk Hsep.
  cut (FileSystem.path_is_dir (cwd env) (fs w') (PurePath.parse tmpdir) = false).
  { intros Hgone. split; [exact Hgone|].
    intros c rest. now apply nothing_below_a_missing_directory. }
  assert (Hbefore : FileSystem.path_is_dir (cwd env) (fs w) (PurePath.parse tmpdir) = false).
  { pose proof (mkdtemp_fresh _ _ _ _ _ Hmk) as Hf.
    unfold FileSystem.path_exists in Hf. unfold FileSystem.path_is_dir.
    destruct (FileSystem.stat _ _ _); [discriminate|reflexivity]. }
  unfold separate in Hsep.
  destruct (String.eqb (method request) "OPTIONS").
  { inversion Hsep; subst. exact Hbefore. }
  destruct file as [file|]; [|inversion Hsep; subst; exact Hbefore].
  destruct (negb (Str.truthy (filename file))).
  { inversion Hsep; subst. exact Hbefore. }
  eapply with_TemporaryDirectory_cleans; eassumption.
Qed.

(** ** What the steps add to the log *)

Section LogFacts.

Variable env : Env.
Variable host : Host.
Variable P : event -> Prop.

Lemma adds_only_ret {A} (a : A) : adds_only P (ret a).
Proof.
  intros w r w' H. inversion H; subst. exists []. now rewrite app_nil_r.
Qed.

Lemma adds_only_raise {A} e : adds_only P (@raise A e).
Proof.
  intros w r w' H. inversion H; subst. exists []. now rewrite app_nil_r.
Qed.


Lemma adds_only_bind {A B} (m : M A) (k : A -> M B) :
  adds_only P m -> (forall a, adds_only P (k a)) -> adds_only P (bind m k).
Proof.
  intros Hm Hk w r w'. unfold bind.
  destruct (m w) as [[a|e] w1] eqn:Hmw; intros H.
  - destruct (Hm _ _ _ Hmw) as (evs1 & E1 & F1).
    destruct (Hk a _ _ _ H) as (evs2 & E2 & F2).
    exists (evs1 ++ evs2). split.
    + now rewrite E2, E1, app_assoc.
    + now apply Forall_app.
  - inversion H; subst. exact (Hm _ _ _ Hmw).
Qed.

Lemma adds_only_emit ev : P ev -> adds_only P (emit ev).
Proof.
  intros Hev w r w' H. inversion H; subst. exists [ev]. split; [reflexivity|].
  now constructor.
Qed.



Lemma adds_only_path_exists p : adds_only P (path_exists env p).
Proof.
  intros w r w' H. inversion H; subst. exists []. now rewrite app_nil_r.
Qed.






Hypothesis P_which : forall cmd, P (EvWhich cmd).
Hypothesis P_spawn : forall argv, P (EvSpawn argv).

Lemma adds_only_which cmd : adds_only P (shutil_which host cmd).
Proof.
  apply adds_only_bind; [apply adds_only_emit, P_which|]. intros _. apply adds_only_ret.
Qed.


Lemma adds_only_resolve_demucs_bin : adds_only P (resolve_demucs_bin env host).
Proof.
  unfold resolve_demucs_bin.
  destruct (Str.truthy (DEMUCS_BIN env)); [apply adds_only_ret|].
  apply adds_only_bind; [apply adds_only_which|]. intros path_bin.
  destruct (Str.truthy path_bin); [apply adds_only_ret|].
  apply adds_only_bind; [apply adds_only_path_exists|]. intros [|]; [apply adds_only_ret|].
  apply adds_only_bind; [apply adds_only_path_exists|].
  intros [|]; [apply adds_only_ret|apply adds_only_raise].
Qed.

Lemma adds_only_resolve_ffmpeg_bin : adds_only P (resolve_ffmpeg_bin env host).
Proof.
  unfold resolve_ffmpeg_bin.
  destruct (Str.truthy (FFMPEG_BIN env)); [apply adds_only_ret|].
  apply adds_only_bind; [apply adds_only_which|]. intros path_bin.
  destruct (Str.truthy path_bin); apply adds_only_ret.
Qed.



Hypothesis P_rmtree : forall d, P (EvRmtree d).


End LogFacts.

(** ** Writing the upload *)

Section WriteFacts.

Variable env : Env.
Variable host : Host.

Lemma locate_snoc f r ps b :
  FileSystem.locate (cwd env) f (mkPath r (ps ++ [b])) =
  match FileSystem.locate (cwd env) f (mkPath r ps) with
  | Some k => if FileSystem.is_dir f k then Some (FileSystem.step k b) else None
  | None => None
  end.
Proof.
  unfold FileSystem.locate. simpl. destruct (Str.nonempty r).
  - apply walk_snoc.
  - rewrite app_assoc. apply walk_snoc.
Qed.

Lemma locate_mono f f' p k :
  (forall j, FileSystem.is_dir f j = true -> FileSystem.is_dir f' j = true) ->
  FileSystem.locate (cwd env) f p = Some k -> FileSystem.locate (cwd env) f' p = Some k.
Proof.
  intros Hm. unfold FileSystem.locate.
  destruct (Str.nonempty (root p)); apply walk_mono; assumption.
Qed.

(** What a successful [write_bytes] has done. *)
Lemma write_bytes_inv p data w u w2 :
  write_bytes env p data w = (Ok u, w2) ->
  exists k,
    FileSystem.locate (cwd env) (fs w) p = Some k /\
    k <> [] /\
    fs w !! k <> Some Dir /\
    fs w2 = <[k := File data]> (fs w) /\
    log w2 = log w ++ [EvWriteBytes p].
Proof.
  unfold write_bytes. unfold_M.
  destruct (FileSystem.locate (cwd env) (fs w) p) as [[|x l]|]; try discriminate.
  destruct (fs w !! (x :: l)) as [[d|]|] eqn:Hl; try discriminate;
    simpl; intros H; inversion H; subst; exists (x :: l);
    repeat split; try reflexivity; try discriminate; congruence.
Qed.

Lemma write_bytes_raise p data w e w2 :
  write_bytes env p data w = (Raise e, w2) -> w2 = w.
Proof.
  unfold write_bytes. unfold_M.
  destruct (FileSystem.locate (cwd env) (fs w) p) as [[|x l]|]; try congruence.
  destruct (fs w !! (x :: l)) as [[d|]|]; simpl; congruence.
Qed.





End WriteFacts.


(** ** Transcoding *)

Section TranscodeFacts.

Variable env : Env.
Variable host : Host.

Lemma maybe_transcode_without_ffmpeg input_path workdir w :
  accepted (PurePath.suffix input_path) = false ->
  Str.truthy (FFMPEG_BIN env) = false ->
  Str.truthy (which host "ffmpeg") = false ->
  maybe_transcode_to_wav env host input_path workdir w
  = (Raise FFMPEG_REQUIRED, mkWorld (fs w) (log w ++ [EvWhich "ffmpeg"])).
Proof.
  intros Ha Ho Hp. unfold maybe_transcode_to_wav, resolve_ffmpeg_bin.
  rewrite Ha, Ho. unfold_M. simpl. rewrite Hp. reflexivity.
Qed.

Lemma cleanup_directory t f l K :
  FileSystem.locate (cwd env) f (PurePath.parse t) = Some K ->
  f !! K = Some Dir ->
  cleanup env t (mkWorld f l)
  = (Ok tt, mkWorld (FileSystem.remove_tree K f) (l ++ [EvRmtree t])).
Proof.
  intros Hl Hd. unfold cleanup. unfold_M. simpl. rewrite Hl.
  destruct K as [|x K]; [reflexivity|]. now rewrite Hd.
Qed.

End TranscodeFacts.

(** C7. With no transcoder to be found (no override, nothing on the search
    path), [maybe_transcode_to_wav] raises the "FFmpeg is required" error for
    every input path whose suffix is not accepted, having asked for no child
    process; and a request whose upload was written to such an input path ends
    with that error, the log of the whole run being the workspace creation, the
    write, the search for the transcoder and the cleanup: the separation engine
    is neither looked up nor started. *)
Theorem no_transcoder_no_separation env host :
  Str.truthy (FFMPEG_BIN env) = false ->
  Str.truthy (which host "ffmpeg") = false ->
  (forall input_path workdir w,
     accepted (PurePath.suffix input_path) = false ->
     maybe_transcode_to_wav env host input_path workdir w
     = (Raise FFMPEG_REQUIRED, mkWorld (fs w) (log w ++ [EvWhich "ffmpeg"])))
  /\
  (forall request file w tmpdir w1 w2,
     String.eqb (method request) "OPTIONS" = false ->
     Str.truthy (filename file) = true ->
     mkdtemp env host w = (Ok tmpdir, w1) ->
     let input_path :=
       PurePath.parse tmpdir // PurePath.name (PurePath.parse (default "" (filename file))) in
     write_bytes env input_path (content file) w1 = (Ok tt, w2) ->
     accepted (PurePath.suffix input_path) = false ->
     exists w',
       separate env host request (Some file) w = (Raise FFMPEG_REQUIRED, w') /\
       log w' = log w ++ [EvMkdtemp tmpdir; EvWriteBytes input_path;
                          EvWhich "ffmpeg"; EvRmtree tmpdir] /\
       Forall (fun ev => is_spawn ev = false)
              [EvMkdtemp tmpdir; EvWriteBytes input_path;
               EvWhich "ffmpeg"; EvRmtree tmpdir]).
Proof.
  intros Ho Hp. split.
  { intros. now apply maybe_transcode_without_ffmpeg. }
  intros request file w tmpdir w1 w2 Hm Hf Hmk input_path Hwr Ha.
  destruct (mkdtemp_creates _ _ _ _ _ Hmk) as (k & Hloc & Hdir & _ & _ & _).
  destruct (mkdtemp_inv _ _ _ _ _ Hmk) as (_ & _ & _ & _ & _ & _ & Hlog1).
  destruct (write_bytes_inv _ _ _ _ _ _ Hwr) as (kw & Hlw & Hne & Hnd & Hfs & Hlog2).
  set (K := k ++ [workspace_name host]) in *.
  assert (Hloc2 : FileSystem.locate (cwd env) (fs w2) (PurePath.parse tmpdir) = Some K).
  { eapply locate_mono; [|exact Hloc]. rewrite Hfs.
    intros j. now apply is_dir_insert_over_file. }
  assert (Hdir2 : fs w2 !! K = Some Dir).
  { rewrite Hfs, lookup_insert_ne; [assumption|]. intros ->. congruence. }
  eexists. split; [|split].
  - unfold separate. rewrite Hm, Hf. simpl.
    unfold with_TemporaryDirectory. rewrite Hmk.
    unfold bind at 1. fold input_path. rewrite Hwr.
    unfold bind at 1.
    rewrite (maybe_transcode_without_ffmpeg env host _ _ _ Ha Ho Hp).
    rewrite (cleanup_directory env tmpdir _ _ K Hloc2 Hdir2). reflexivity.
  - simpl. rewrite Hlog2, Hlog1, <- !app_assoc. reflexivity.
  - repeat constructor.
Qed.

(** C3. For every input path whose suffix is one of [.wav], [.flac], [.mp3],
    [.m4a], [.ogg], [maybe_transcode_to_wav] returns the input path itself and
    leaves the world as it was: the file system is untouched and nothing is
    added to the log, neither a search for the transcoder nor a child
    process. *)
Theorem accepted_input_returned_unchanged env host input_path workdir w :
  In (PurePath.suffix input_path) accepted_suffixes ->
  maybe_transcode_to_wav env host input_path workdir w = (Ok input_path, w).
Proof.
  intros H. unfold maybe_transcode_to_wav.
  assert (Ha : accepted (PurePath.suffix input_path) = true).
  { unfold accepted_suffixes in H. simpl in H.
    destruct H as [<-|[<-|[<-|[<-|[<-|[]]]]]]; reflexivity. }
  now rewrite Ha.
Qed.

Section CaseFacts.

Lemma lower_upper_ascii a : Str.lower_ascii (Str.upper_ascii a) = Str.lower_ascii a.
Proof. destruct a as [[] [] [] [] [] [] [] []]; reflexivity. Qed.

Lemma same_letter_lower a b :
  same_letter a b = true -> Str.lower_ascii a = Str.lower_ascii b.
Proof.
  unfold same_letter. intros H.
  apply orb_true_iff in H as [H|H]; [apply orb_true_iff in H as [H|H]|];
    apply Ascii.eqb_eq in H.
  - now subst.
  - rewrite <- H. symmetry. apply lower_upper_ascii.
  - rewrite H. apply lower_upper_ascii.
Qed.

Lemma differs_only_in_case_lower s t :
  differs_only_in_case s t = true -> Str.lower s = Str.lower t.
Proof.
  revert t. induction s as [|a s IH]; intros [|b t]; simpl; try discriminate.
  - reflexivity.
  - intros H. apply andb_true_iff in H as [Hab Hst].
    now rewrite (same_letter_lower _ _ Hab), (IH _ Hst).
Qed.

Lemma accepted_suffixes_lower m : In m accepted_suffixes -> Str.lower m = m.
Proof.
  unfold accepted_suffixes. simpl.
  intros [<-|[<-|[<-|[<-|[<-|[]]]]]]; reflexivity.
Qed.

Lemma accepted_member m : In m accepted_suffixes -> existsb (String.eqb m) accepted_suffixes = true.
Proof.
  intros H. apply existsb_exists. exists m. split; [assumption|apply String.eqb_refl].
Qed.

End CaseFacts.

(** C10. The test of the suffix ignores the case of its letters: for every
    input path whose suffix differs from one of [.wav], [.flac], [.mp3],
    [.m4a], [.ogg] at most in the case of letters (as [.WAV] or [.Mp3] do),
    [maybe_transcode_to_wav] returns the input path itself and leaves the world
    as it was, which is what it does for the lower-case suffix. *)
Theorem accepted_suffix_any_case env host input_path workdir w m :
  In m accepted_suffixes ->
  differs_only_in_case (PurePath.suffix input_path) m = true ->
  maybe_transcode_to_wav env host input_path workdir w = (Ok input_path, w).
Proof.
  intros Hm Hc. unfold maybe_transcode_to_wav, accepted.
  rewrite (differs_only_in_case_lower _ _ Hc), (accepted_suffixes_lower _ Hm).
  now rewrite (accepted_member _ Hm).
Qed.

(** ** The request without a file *)

(** The check of the file name rejects an upload whose name is missing or
    empty, before anything else is done. *)
Lemma separate_without_filename env host request file w :
  String.eqb (method request) "OPTIONS" = false ->
  Str.truthy (filename file) = false ->
  separate env host request (Some file) w = (Raise FILE_REQUIRED, w).
Proof. intros Hm Hf. unfold separate. now rewrite Hm, Hf. Qed.

(** C6 (the code departs from it). A POST request without the file
    field reaches [file.filename] with [file] being [None]: the handler ends
    with an [AttributeError], not with the [HTTPException] of status 400 that
    an upload with an empty file name gets. *)
Theorem separate_without_file_field env host w :
  separate env host (mkRequest "POST") None w = (Raise AttributeError, w)
  /\ AttributeError <> FILE_REQUIRED
  /\ separate env host (mkRequest "POST") (Some (mkUpload (Some "") "")) w
     = (Raise FILE_REQUIRED, w)
  /\ separate env host (mkRequest "POST") (Some (mkUpload None "")) w
     = (Raise FILE_REQUIRED, w).
Proof. repeat split; try reflexivity. discriminate. Qed.

(** ** Resolution of the binaries *)

(** The separation engine is looked up in the local installation when the
    override and the search path give nothing. *)
Lemma engine_honours_local_install env host w :
  honours_local_install env host w SeparationEngine.
Proof.
  intros Ho Hp c Hin Hex. unfold resolve, resolve_demucs_bin.
  simpl in Ho, Hp. rewrite Ho. unfold_M. simpl. rewrite Hp.
  unfold local_candidates in *. simpl executable in *. cbn [fs].
  destruct (FileSystem.path_exists (cwd env) (fs w)
              (here env // ".venv" // "bin" // "demucs")) eqn:Hu.
  - eexists. split; [left; reflexivity|]. split; [exact Hu|reflexivity].
  - destruct Hin as [<-|[<-|[]]]; [congruence|].
    change ("demucs" ++ ".exe")%string with "demucs.exe" in *.
    cbn [fs]. rewrite Hex. eexists. split; [right; left; reflexivity|].
    split; [exact Hex|reflexivity].
Qed.

(** C4 as stated fails for the transcoder: with no override and nothing on the
    search path, an [ffmpeg] in the virtual environment next to the module is
    not returned. *)
Lemma transcoder_ignores_local_install :
  ~ honours_local_install sample_env bare_host venv_with_ffmpeg Transcoder.
Proof.
  intros H.
  destruct (H eq_refl eq_refl (here sample_env // ".venv" // "bin" // "ffmpeg"))
    as (c' & _ & _ & Hres).
  - left. reflexivity.
  - vm_compute. reflexivity.
  - vm_compute in Hres. discriminate Hres.
Qed.

(** C4 (amended). [resolve_demucs_bin] returns the first match of: the override
    when it is a non-empty string, the search path, the Unix and then the
    Windows executable of the virtual environment next to the module, and
    raises when there is none; [resolve_ffmpeg_bin] returns the first match
    of: the override when it is a non-empty string, the search path, and
    [None] when there is none: it has no local installation to look into.
    So a non-empty override is returned whatever the search path holds, and
    for the separation engine an existing local candidate is returned when
    the override and the search path give nothing. *)
Theorem resolve_first_match env host w :
  fst (resolve_demucs_bin env host w)
  = match first_match
            [if_truthy (DEMUCS_BIN env);
             if_truthy (which host "demucs");
             if_exists env (fs w) (here env // ".venv" // "bin" // "demucs");
             if_exists env (fs w) (here env // ".venv" // "Scripts" // "demucs.exe")]
    with
    | Some b => Ok b
    | None => Raise DEMUCS_NOT_FOUND
    end
  /\ fst (resolve_ffmpeg_bin env host w)
     = Ok (first_match [if_truthy (FFMPEG_BIN env); if_truthy (which host "ffmpeg")])
  /\ (forall kind b,
        override env kind = Some b -> Str.nonempty b = true ->
        resolve env host kind w = (Ok (Some b), w))
  /\ honours_local_install env host w SeparationEngine
  /\ (Str.truthy (FFMPEG_BIN env) = false ->
      Str.truthy (which host "ffmpeg") = false ->
      fst (resolve_ffmpeg_bin env host w) = Ok None).
Proof.
  split; [|split; [|split; [|split]]].
  - unfold resolve_demucs_bin, if_truthy, if_exists.
    destruct (DEMUCS_BIN env) as [[|a b]|]; simpl; try reflexivity;
      unfold_M; simpl;
      (destruct (which host "demucs") as [[|a' b']|]; simpl; try reflexivity;
       destruct (FileSystem.path_exists _ _ (_ // "demucs")); simpl; try reflexivity;
       destruct (FileSystem.path_exists _ _ _); reflexivity).
  - unfold resolve_ffmpeg_bin, if_truthy.
    destruct (FFMPEG_BIN env) as [[|a b]|]; simpl; try reflexivity;
      unfold_M; simpl;
      destruct (which host "ffmpeg") as [[|a' b']|]; reflexivity.
  - intros [|] b Ho Hb; simpl in Ho; unfold resolve.
    + unfold resolve_demucs_bin, bind. rewrite Ho. simpl. now rewrite Hb.
    + unfold resolve_ffmpeg_bin. rewrite Ho. simpl. now rewrite Hb.
  - apply engine_honours_local_install.
  - intros Ho Hp. unfold resolve_ffmpeg_bin. rewrite Ho. unfold_M. simpl. now rewrite Hp.
Qed.

(** ** The archive *)

Section ArchiveFacts.

Variable env : Env.

Lemma stems_plain_arcname : Forall plain_arcname stems.
Proof. unfold stems. repeat constructor; intros []; reflexivity. Qed.

(** The loop adds the entry of each stem in turn and raises the flag as
    soon as it adds one. *)
Lemma zip_loop_spec stem_dir todo zf found w :
  Forall plain_arcname todo ->
  zip_loop env stem_dir todo zf found w
  = (Ok (zf ++ flat_map (stem_entry env (fs w) stem_dir) todo,
         found || match flat_map (stem_entry env (fs w) stem_dir) todo with
                  | [] => false
                  | _ => true
                  end),
     w).
Proof.
  intros Hall. revert zf found.
  induction todo as [|stem rest IH]; intros zf found; simpl.
  - now rewrite app_nil_r, orb_false_r.
  - inversion Hall as [|? ? Hstem Hrest]; subst.
    unfold_M. unfold zf_write, stem_entry, FileSystem.path_exists. unfold_M.
    destruct (FileSystem.stat (cwd env) (fs w) (stem_dir // (stem ++ ".wav")))
      as [[data|]|] eqn:Hst.
    + cbv beta. rewrite Hst, (IH Hrest), (Hstem false), <- !app_assoc.
      simpl. now rewrite orb_true_r.
    + cbv beta. rewrite Hst, (IH Hrest), (Hstem true), <- !app_assoc.
      simpl. now rewrite orb_true_r.
    + rewrite (IH Hrest). reflexivity.
Qed.

Lemma zip_stems_spec stem_dir w :
  zip_stems env stem_dir w
  = (match expected_archive env (fs w) stem_dir with
     | [] => Raise NO_STEMS
     | e :: zf => Ok (e :: zf)
     end, w).
Proof.
  unfold zip_stems. unfold bind at 1.
  rewrite (zip_loop_spec _ _ _ _ _ stems_plain_arcname).
  unfold expected_archive, stems. simpl app.
  destruct (flat_map _ _); reflexivity.
Qed.

Lemma zip_stems_ok stem_dir w zf w' :
  zip_stems env stem_dir w = (Ok zf, w') ->
  zf = expected_archive env (fs w) stem_dir /\ zf <> [].
Proof.
  rewrite zip_stems_spec.
  destruct (expected_archive env (fs w) stem_dir); intros H; inversion H; subst.
  split; [reflexivity|discriminate].
Qed.

Lemma archive_names_of_files stem_dir f todo :
  (forall stem, In stem todo ->
     FileSystem.path_is_dir (cwd env) f (stem_dir // (stem ++ ".wav")%string) = false) ->
  List.map arcname (flat_map (stem_entry env f stem_dir) todo)
  = List.map (fun stem => (stem ++ ".wav")%string)
      (List.filter
         (fun stem => FileSystem.path_is_file (cwd env) f (stem_dir // (stem ++ ".wav")%string))
         todo).
Proof.
  induction todo as [|stem rest IH]; intros Hnodir; [reflexivity|].
  simpl. rewrite List.map_app, IH by (intros; apply Hnodir; now right).
  specialize (Hnodir stem (or_introl eq_refl)).
  unfold stem_entry, FileSystem.path_is_file, FileSystem.path_is_dir in *.
  destruct (FileSystem.stat _ _ _) as [[data|]|]; [reflexivity|discriminate|reflexivity].
Qed.

End ArchiveFacts.

(** C1 as stated fails on a stem directory in which [drums.wav] is a
    directory: it exists, so the archive gets the entry [drums.wav/] for it,
    although no [<stem>.wav] exists as a file. *)
Lemma directory_stem_is_archived :
  ~ archive_holds_the_files sample_env drums_is_a_directory (mkPath "/" ["out"]).
Proof.
  intros H.
  specialize (H [mkEntry "drums.wav/" ""] drums_is_a_directory).
  assert (Hrun : zip_stems sample_env (mkPath "/" ["out"]) drums_is_a_directory
                 = (Ok [mkEntry "drums.wav/" ""], drums_is_a_directory)).
  { vm_compute. reflexivity. }
  specialize (H Hrun). vm_compute in H. discriminate H.
Qed.

(** C1 (amended). [zip_stems] goes through [drums], [bass], [vocals], [other]
    in that order and the archive holds, in that order, one entry for each
    [<stem>.wav] that exists in the directory: a regular file under the flat
    name [<stem>.wav] with its bytes, a directory as the directory entry
    [<stem>.wav/]; with none of them there it raises.  When none of the four
    is a directory, the entries are the [<stem>.wav] that exist as files; and
    over a directory that holds only the files [drums.wav] and [vocals.wav]
    the archive has exactly the two entries [drums.wav] and [vocals.wav]. *)
Theorem zip_stems_archive env stem_dir w :
  zip_stems env stem_dir w
  = (match expected_archive env (fs w) stem_dir with
     | [] => Raise NO_STEMS
     | e :: zf => Ok (e :: zf)
     end, w)
  /\ ((forall stem, In stem stems ->
         FileSystem.path_is_dir (cwd env) (fs w) (stem_dir // (stem ++ ".wav")%string) = false) ->
      List.map arcname (expected_archive env (fs w) stem_dir)
      = List.map (fun stem => (stem ++ ".wav")%string)
                 (stems_present_as_files env (fs w) stem_dir))
  /\ (forall d v,
        FileSystem.stat (cwd env) (fs w) (stem_dir // "drums.wav") = Some (File d) ->
        FileSystem.stat (cwd env) (fs w) (stem_dir // "bass.wav") = None ->
        FileSystem.stat (cwd env) (fs w) (stem_dir // "vocals.wav") = Some (File v) ->
        FileSystem.stat (cwd env) (fs w) (stem_dir // "other.wav") = None ->
        zip_stems env stem_dir w
        = (Ok [mkEntry "drums.wav" d; mkEntry "vocals.wav" v], w)).
Proof.
  split; [apply zip_stems_spec|]. split.
  - intros Hnodir. now apply archive_names_of_files.
  - intros d v Hd Hb Hv Ho. rewrite zip_stems_spec.
    unfold expected_archive, stems, stem_entry.
    cbn [flat_map].
    change ("drums" ++ ".wav")%string with "drums.wav".
    change ("bass" ++ ".wav")%string with "bass.wav".
    change ("vocals" ++ ".wav")%string with "vocals.wav".
    change ("other" ++ ".wav")%string with "other.wav".
    now rewrite Hd, Hb, Hv, Ho.
Qed.

(** ** No empty archive *)

Section ReplyFacts.

Variable env : Env.
Variable host : Host.

Lemma bind_ok_inv {A B} (m : M A) (k : A -> M B) w b w' :
  bind m k w = (Ok b, w') ->
  exists a w1, m w = (Ok a, w1) /\ k a w1 = (Ok b, w').
Proof.
  unfold bind. destruct (m w) as [[a|e] w1]; [eauto|discriminate].
Qed.

Lemma with_TemporaryDirectory_ok_inv {A} (body : string -> M A) w b w' :
  with_TemporaryDirectory env host body w = (Ok b, w') ->
  exists t w1 w2, body t w1 = (Ok b, w2).
Proof.
  unfold with_TemporaryDirectory.
  destruct (mkdtemp env host w) as [[t|e] w1]; [|discriminate].
  destruct (body t w1) as [rb w2] eqn:Hb.
  destruct (cleanup env t w2) as [[u|e] w3]; [|discriminate].
  intros H; inversion H; subst. eauto.
Qed.

Lemma new_StreamingResponse_ok_inv content media_type headers w r w' :
  new_StreamingResponse content media_type headers w = (Ok r, w') ->
  r = StreamingResponse content media_type headers
  /\ w' = w
  /\ encodable_headers media_type headers = true.
Proof.
  unfold new_StreamingResponse.
  destruct (encodable_headers _ _); intros H; inversion H; subst. auto.
Qed.

(** A streamed reply carries what [zip_stems] returned. *)
Lemma separate_streams_zip_stems request file w zf mt hd w' :
  separate env host request file w = (Ok (StreamingResponse zf mt hd), w') ->
  exists stem_dir wz wz', zip_stems env stem_dir wz = (Ok zf, wz').
Proof.
  unfold separate.
  destruct (String.eqb (method request) "OPTIONS"); [discriminate|].
  destruct file as [f|]; [|discriminate].
  destruct (negb (Str.truthy (filename f))); [discriminate|].
  intros H. apply with_TemporaryDirectory_ok_inv in H as (t & w1 & w2 & H).
  apply bind_ok_inv in H as (u & wa & _ & H).
  apply bind_ok_inv in H as (processed_input & wb & _ & H).
  apply bind_ok_inv in H as (stem_dir & wc & _ & H).
  apply bind_ok_inv in H as (zip_buffer & wd & Hz & H).
  apply new_StreamingResponse_ok_inv in H as (H & _ & _).
  inversion H; subst. eauto.
Qed.

Lemma expected_archive_names f stem_dir :
  Forall (fun e => stem_entry_name (arcname e)) (expected_archive env f stem_dir).
Proof.
  unfold expected_archive. apply List.Forall_flat_map.
  apply List.Forall_forall. intros stem Hin. unfold stem_entry.
  destruct (FileSystem.stat _ _ _) as [[data|]|]; repeat constructor;
    exists stem; simpl; auto.
Qed.

End ReplyFacts.

(** C5. The handler never returns an empty archive: over every stem directory
    in which none of [drums.wav], [bass.wav], [vocals.wav], [other.wav] exists,
    [zip_stems] raises the "No stems produced" error; and every streamed reply
    of [separate] carries an archive that is not empty and whose entries all
    stand for stems, so that a request ends either with such an archive or
    with an exception. *)
Theorem no_empty_archive env host :
  (forall stem_dir w,
     (forall stem, In stem stems ->
        FileSystem.path_exists (cwd env) (fs w) (stem_dir // (stem ++ ".wav")%string) = false) ->
     zip_stems env stem_dir w = (Raise NO_STEMS, w))
  /\
  (forall request file w zf mt hd w',
     separate env host request file w = (Ok (StreamingResponse zf mt hd), w') ->
     zf <> [] /\ Forall (fun e => stem_entry_name (arcname e)) zf).
Proof.
  split.
  - intros stem_dir w Hnone. rewrite zip_stems_spec.
    assert (He : expected_archive env (fs w) stem_dir = []).
    { unfold expected_archive. revert Hnone. generalize stems as todo.
      induction todo as [|stem rest IH]; intros Hnone; [reflexivity|].
      simpl. rewrite IH by (intros; apply Hnone; now right).
      specialize (Hnone stem (or_introl eq_refl)).
      unfold stem_entry, FileSystem.path_exists in *.
      destruct (FileSystem.stat _ _ _); [discriminate|reflexivity]. }
    now rewrite He.
  - intros request file w zf mt hd w' H.
    destruct (separate_streams_zip_stems _ _ _ _ _ _ _ _ _ H) as (sd & wz & wz' & Hz).
    destruct (zip_stems_ok _ _ _ _ _ Hz) as [-> Hne].
    split; [exact Hne|apply expected_archive_names].
Qed.

(** ** The output of the engine *)

(** C2 as stated fails when the engine leaves a regular file at the expected
    place: no directory exists there, and yet [run_demucs] returns the path. *)
Lemma file_in_place_of_output_directory :
  ~ output_missing_iff_no_directory sample_env engine_leaving_a_file
      (mkPath "/" ["w"; "song.wav"]) (mkPath "/" ["w"; "separated"]) song_in_w.
Proof.
  intros H.
  assert (Hres : resolve_demucs_bin sample_env engine_leaving_a_file song_in_w
                 = (Ok "/usr/bin/demucs",
                    snd (resolve_demucs_bin sample_env engine_leaving_a_file song_in_w))).
  { vm_compute. reflexivity. }
  destruct (H _ _ _ _ _ Hres eq_refl) as [_ Hback].
  assert (Hnodir : FileSystem.path_is_dir "/"
            (<[ ["w"; "separated"; "htdemucs"; "song"] := File "not a directory" ]>
             (<[ ["w"; "separated"; "htdemucs"] := Dir ]>
              (<[ ["w"; "separated"] := Dir ]>
                 (fs (snd (resolve_demucs_bin sample_env engine_leaving_a_file song_in_w))))))
            (mkPath "/" ["w"; "separated"] // DEMUCS_MODEL sample_env
               // PurePath.stem (mkPath "/" ["w"; "song.wav"])) = false).
  { vm_compute. reflexivity. }
  specialize (Hback Hnodir). vm_compute in Hback. discriminate Hback.
Qed.

(** C2 (amended). When the engine is found and its process exits with status
    0, [run_demucs] looks at [output_root / DEMUCS_MODEL / input_path.stem]
    and raises the "output missing" error if and only if nothing exists at
    that path, be it a directory or a file; otherwise it returns that path.
    An engine that exits with status 0 and has produced nothing there ends in
    the error, never in a result. *)
Theorem run_demucs_output_check env host input_path output_root w demucs_bin w1 out err f' :
  resolve_demucs_bin env host w = (Ok demucs_bin, w1) ->
  let cmd := [demucs_bin; "-n"; DEMUCS_MODEL env; "-o";
              PurePath.str output_root; PurePath.str input_path] in
  spawn host cmd (fs w1) = Exited 0 out err f' ->
  let song_dir := output_root // DEMUCS_MODEL env // PurePath.stem input_path in
  let w2 := mkWorld f' (log w1 ++ [EvSpawn cmd]) in
  run_demucs env host input_path output_root w
  = (if FileSystem.path_exists (cwd env) f' song_dir then Ok song_dir
     else Raise OUTPUT_MISSING, w2)
  /\ (fst (run_demucs env host input_path output_root w) = Raise OUTPUT_MISSING
      <-> FileSystem.path_exists (cwd env) f' song_dir = false).
Proof.
  intros Hres cmd Hsp song_dir w2.
  assert (Hrun : run_demucs env host input_path output_root w
                 = (if FileSystem.path_exists (cwd env) f' song_dir then Ok song_dir
                    else Raise OUTPUT_MISSING, w2)).
  { unfold run_demucs. unfold bind at 1. rewrite Hres.
    unfold run_subprocess. unfold_M. simpl. fold cmd. rewrite Hsp. simpl.
    fold song_dir. destruct (FileSystem.path_exists (cwd env) f' song_dir); reflexivity. }
  split; [exact Hrun|]. rewrite Hrun. simpl.
  destruct (FileSystem.path_exists (cwd env) f' song_dir); split;
    intros; try reflexivity; discriminate.
Qed.

(** ** The statements at work *)

Example parse_nested :
  PurePath.parse "a/./b//c.tar.gz" = mkPath "" ["a"; "b"; "c.tar.gz"].
Proof. reflexivity. Qed.

Example parse_rooted : PurePath.parse "/tmp/x/" = mkPath "/" ["tmp"; "x"].
Proof. reflexivity. Qed.

Example name_of_parent_reference : PurePath.name (PurePath.parse "a/..") = "..".
Proof. reflexivity. Qed.

Example suffix_of_hidden_file : PurePath.suffix (PurePath.parse ".wav") = "".
Proof. reflexivity. Qed.

Example suffix_after_trailing_dot : PurePath.suffix (PurePath.parse "song.") = "".
Proof. reflexivity. Qed.

Example stem_keeps_inner_dots : PurePath.stem (PurePath.parse "c.tar.gz") = "c.tar".
Proof. reflexivity. Qed.

Example join_with_absolute : mkPath "/" ["w"] // "/etc" = mkPath "/" ["etc"].
Proof. reflexivity. Qed.

Example normpath_collapses :
  OsPath.normpath "/home/u/../x/./y//z/.." = "/home/x/y".
Proof. reflexivity. Qed.

(** The whole pipeline on [song.wav] with an engine that writes [drums.wav]
    and [other.wav]: the reply streams exactly those two entries and suggests
    [song_stems.zip]. *)
Example separate_song :
  fst (separate sample_env engine_writing_two_stems (mkRequest "POST")
         (Some (mkUpload (Some "uploads/song.wav") "RIFFsong")) empty_tmp)
  = Ok (StreamingResponse
          [mkEntry "drums.wav" "RIFFdrums"; mkEntry "other.wav" "RIFFother"]
          "application/zip"
          [("X-Model", "htdemucs");
           ("Content-Disposition",
            ("attachment; filename=" ++ Str.dquote ++ "song_stems.zip" ++ Str.dquote)%string)]).
Proof. vm_compute. reflexivity. Qed.

Example separate_song_log :
  log (snd (separate sample_env engine_writing_two_stems (mkRequest "POST")
              (Some (mkUpload (Some "uploads/song.wav") "RIFFsong")) empty_tmp))
  = [EvMkdtemp "/tmp/tmphaaaaaaa";
     EvWriteBytes (mkPath "/" ["tmp"; "tmphaaaaaaa"; "song.wav"]);
     EvWhich "demucs";
     EvSpawn ["/usr/bin/demucs"; "-n"; "htdemucs"; "-o";
              "/tmp/tmphaaaaaaa/separated"; "/tmp/tmphaaaaaaa/song.wav"];
     EvRmtree "/tmp/tmphaaaaaaa"].
Proof. vm_compute. reflexivity. Qed.

(** A file name that is only a reference to the parent directory is not
    written anywhere: the write fails. *)
Example separate_parent_reference :
  fst (separate sample_env engine_writing_two_stems (mkRequest "POST")
         (Some (mkUpload (Some "..") "RIFFsong")) empty_tmp)
  = Raise OSError.
Proof. vm_compute. reflexivity. Qed.

(** An engine that is nowhere to be found: the handler ends with the
    exception and the machine is left as it was found. *)
Example separate_engine_not_found :
  fst (separate sample_env bare_host (mkRequest "POST")
         (Some (mkUpload (Some "song.wav") "RIFFsong")) empty_tmp)
  = Raise DEMUCS_NOT_FOUND
  /\ fs (snd (separate sample_env bare_host (mkRequest "POST")
                (Some (mkUpload (Some "song.wav") "RIFFsong")) empty_tmp))
     = fs empty_tmp.
Proof. split; vm_compute; reflexivity. Qed.

(** An engine that cannot be started: the same. *)
Example separate_spawn_failure :
  fst (separate sample_env engine_not_starting (mkRequest "POST")
         (Some (mkUpload (Some "song.wav") "RIFFsong")) empty_tmp)
  = Raise OSError
  /\ fs (snd (separate sample_env engine_not_starting (mkRequest "POST")
                (Some (mkUpload (Some "song.wav") "RIFFsong")) empty_tmp))
     = fs empty_tmp.
Proof. split; vm_compute; reflexivity. Qed.

Lemma workspace_deleted_witness :
  mkdtemp sample_env engine_writing_two_stems empty_tmp
  = (Ok "/tmp/tmphaaaaaaa", snd (mkdtemp sample_env engine_writing_two_stems empty_tmp))
  /\ FileSystem.path_is_dir "/"
       (fs (snd (mkdtemp sample_env engine_writing_two_stems empty_tmp)))
       (PurePath.parse "/tmp/tmphaaaaaaa") = true
  /\ FileSystem.path_is_dir "/"
       (fs (snd (separate sample_env engine_writing_two_stems (mkRequest "POST")
                   (Some (mkUpload (Some "song.wav") "RIFFsong")) empty_tmp)))
       (PurePath.parse "/tmp/tmphaaaaaaa") = false
  /\ FileSystem.path_exists "/"
       (fs (snd (separate sample_env engine_writing_two_stems (mkRequest "POST")
                   (Some (mkUpload (Some "song.wav") "RIFFsong")) empty_tmp)))
       (mkPath "/" ["tmp"; "tmphaaaaaaa"; "song.wav"]) = false.
Proof.
  assert (Hmk : mkdtemp sample_env engine_writing_two_stems empty_tmp
                = (Ok "/tmp/tmphaaaaaaa",
                   snd (mkdtemp sample_env engine_writing_two_stems empty_tmp))).
  { vm_compute. reflexivity. }
  split; [exact Hmk|]. split; [vm_compute; reflexivity|].
  destruct (workspace_deleted_on_every_exit sample_env engine_writing_two_stems
              (mkRequest "POST") (Some (mkUpload (Some "song.wav") "RIFFsong")) empty_tmp
              "/tmp/tmphaaaaaaa" _ _ _ Hmk (surjective_pairing _)) as [Hgone Hbelow].
  split; [exact Hgone|]. exact (Hbelow "song.wav" []).
Defined.


Lemma no_transcoder_witness :
  Str.truthy (FFMPEG_BIN sample_env) = false
  /\ Str.truthy (which bare_host "ffmpeg") = false
  /\ fst (separate sample_env bare_host (mkRequest "POST")
            (Some (mkUpload (Some "clip.webm") "EBML")) empty_tmp)
     = Raise FFMPEG_REQUIRED
  /\ List.filter is_spawn
       (log (snd (separate sample_env bare_host (mkRequest "POST")
                    (Some (mkUpload (Some "clip.webm") "EBML")) empty_tmp)))
     = [].
Proof.
  split; [reflexivity|]. split; [reflexivity|].
  destruct (no_transcoder_no_separation sample_env bare_host eq_refl eq_refl) as [_ H].
  assert (Hmk : mkdtemp sample_env bare_host empty_tmp
                = (Ok "/tmp/tmphaaaaaaa", snd (mkdtemp sample_env bare_host empty_tmp))).
  { vm_compute. reflexivity. }
  destruct (H (mkRequest "POST") (mkUpload (Some "clip.webm") "EBML") empty_tmp
              "/tmp/tmphaaaaaaa" _
              (snd (write_bytes sample_env
                      (mkPath "/" ["tmp"; "tmphaaaaaaa"; "clip.webm"]) "EBML"
                      (snd (mkdtemp sample_env bare_host empty_tmp))))
              eq_refl eq_refl Hmk)
    as (w' & Hsep & Hlog & _).
  - vm_compute. reflexivity.
  - vm_compute. reflexivity.
  - rewrite Hsep. simpl. rewrite Hlog. split; reflexivity.
Defined.

Lemma accepted_input_witness :
  In (PurePath.suffix (mkPath "/" ["w"; "song.wav"])) accepted_suffixes
  /\ maybe_transcode_to_wav sample_env bare_host
       (mkPath "/" ["w"; "song.wav"]) (mkPath "/" ["w"]) song_in_w
     = (Ok (mkPath "/" ["w"; "song.wav"]), song_in_w).
Proof.
  assert (Hin : In (PurePath.suffix (mkPath "/" ["w"; "song.wav"])) accepted_suffixes).
  { left. reflexivity. }
  split; [exact Hin|].
  exact (accepted_input_returned_unchanged sample_env bare_host
           (mkPath "/" ["w"; "song.wav"]) (mkPath "/" ["w"]) song_in_w Hin).
Defined.

Lemma accepted_suffix_any_case_witness :
  differs_only_in_case (PurePath.suffix (mkPath "/" ["w"; "SONG.Mp3"])) ".mp3" = true
  /\ maybe_transcode_to_wav sample_env bare_host
       (mkPath "/" ["w"; "SONG.Mp3"]) (mkPath "/" ["w"]) song_in_w
     = (Ok (mkPath "/" ["w"; "SONG.Mp3"]), song_in_w).
Proof.
  split; [reflexivity|].
  apply (accepted_suffix_any_case sample_env bare_host
           (mkPath "/" ["w"; "SONG.Mp3"]) (mkPath "/" ["w"]) song_in_w ".mp3").
  - right. right. left. reflexivity.
  - reflexivity.
Defined.

Lemma resolve_first_match_witness :
  which engine_writing_two_stems "demucs" = Some "/usr/bin/demucs"
  /\ resolve env_with_overrides engine_writing_two_stems SeparationEngine empty_tmp
     = (Ok (Some "/opt/demucs/bin/demucs"), empty_tmp)
  /\ resolve env_with_overrides engine_writing_two_stems Transcoder empty_tmp
     = (Ok (Some "/opt/ffmpeg"), empty_tmp).
Proof.
  destruct (resolve_first_match env_with_overrides engine_writing_two_stems empty_tmp)
    as (_ & _ & Hover & _).
  split; [reflexivity|].
  split; apply Hover; reflexivity.
Defined.

Lemma zip_stems_archive_witness :
  zip_stems sample_env (mkPath "/" ["out"]) drums_and_vocals
  = (Ok [mkEntry "drums.wav" "RIFFdrums"; mkEntry "vocals.wav" "RIFFvocals"],
     drums_and_vocals).
Proof.
  apply (proj2 (proj2 (zip_stems_archive sample_env (mkPath "/" ["out"]) drums_and_vocals)));
    vm_compute; reflexivity.
Defined.

Lemma no_empty_archive_witness :
  zip_stems sample_env (mkPath "/" ["w"]) song_in_w = (Raise NO_STEMS, song_in_w).
Proof.
  apply (proj1 (no_empty_archive sample_env bare_host)).
  intros stem Hin. unfold stems in Hin. simpl in Hin.
  destruct Hin as [<-|[<-|[<-|[<-|[]]]]]; vm_compute; reflexivity.
Defined.

Lemma run_demucs_output_witness :
  fst (run_demucs sample_env engine_writing_nothing
         (mkPath "/" ["w"; "song.wav"]) (mkPath "/" ["w"; "separated"]) song_in_w)
  = Raise OUTPUT_MISSING.
Proof.
  assert (Hres : resolve_demucs_bin sample_env engine_writing_nothing song_in_w
                 = (Ok "/usr/bin/demucs",
                    snd (resolve_demucs_bin sample_env engine_writing_nothing song_in_w))).
  { vm_compute. reflexivity. }
  destruct (run_demucs_output_check sample_env engine_writing_nothing
              (mkPath "/" ["w"; "song.wav"]) (mkPath "/" ["w"; "separated"]) song_in_w
              _ _ (Some "") (Some "") _ Hres eq_refl) as [_ Hiff].
  apply Hiff. vm_compute. reflexivity.
Defined.

(** * Further properties of the handler *)

(** ** Stems and suffixes *)

Section StemFacts.

Lemma substring_all s : String.substring 0 (String.length s) s = s.
Proof. induction s as [|a s IH]; simpl; [reflexivity|now rewrite IH]. Qed.

Lemma substring_split i s :
  i <= String.length s ->
  (String.substring 0 i s ++ String.substring i (String.length s - i) s)%string = s.
Proof.
  revert i. induction s as [|a s IH]; intros [|i] Hi; simpl in *; try reflexivity; try lia.
  - now rewrite substring_all.
  - rewrite IH by lia. reflexivity.
Qed.

Lemma rfind_lt c s i : Str.rfind c s = Some i -> i < String.length s.
Proof.
  revert i. induction s as [|a s IH]; simpl; intros i H; [discriminate|].
  destruct (Str.rfind c s) as [j|].
  - inversion H; subst. specialize (IH j eq_refl). lia.
  - destruct (Ascii.eqb a c); inversion H; subst. lia.
Qed.

Lemma rfind_absent c s : Str.contains c s = false -> Str.rfind c s = None.
Proof.
  induction s as [|a s IH]; simpl; [reflexivity|].
  intros H. apply orb_false_iff in H as [Ha Hs]. now rewrite (IH Hs), Ha.
Qed.

Lemma rfind_last_sep c s t :
  Str.contains c t = false ->
  Str.rfind c (s ++ String c t)%string = Some (String.length s).
Proof.
  intros Ht. induction s as [|a s IH]; simpl.
  - now rewrite (rfind_absent _ _ Ht), Ascii.eqb_refl.
  - now rewrite IH.
Qed.

Lemma length_append s t :
  String.length (s ++ t)%string = String.length s + String.length t.
Proof. induction s as [|a s IH]; simpl; [reflexivity|now rewrite IH]. Qed.

Lemma substring_append_right s t :
  String.substring (String.length s) (String.length t) (s ++ t)%string = t.
Proof.
  induction s as [|a s IH]; simpl; [apply substring_all|exact IH].
Qed.

Lemma substring_append_left s t :
  String.substring 0 (String.length s) (s ++ t)%string = s.
Proof.
  induction s as [|a s IH]; simpl.
  - destruct t; reflexivity.
  - now rewrite IH.
Qed.

Lemma contains_append c s t :
  Str.contains c (s ++ t)%string = Str.contains c s || Str.contains c t.
Proof.
  induction s as [|a s IH]; simpl; [reflexivity|]. now rewrite IH, orb_assoc.
Qed.

Lemma contains_substring c i n s :
  Str.contains c s = false -> Str.contains c (String.substring i n s) = false.
Proof.
  revert i n. induction s as [|a s IH]; intros i n H; simpl in *.
  - destruct i, n; reflexivity.
  - apply orb_false_iff in H as [Ha Hs].
    destruct i; [destruct n; simpl; [reflexivity|now rewrite Ha, IH]|now apply IH].
Qed.

(** A name is its stem followed by its suffix. *)
Lemma stem_suffix p : (PurePath.stem p ++ PurePath.suffix p)%string = PurePath.name p.
Proof.
  unfold PurePath.stem, PurePath.suffix, PurePath.suffix_index.
  destruct (Str.rfind "." (PurePath.name p)) as [i|] eqn:Hr.
  - destruct ((0 <? i)%nat && (i <? String.length (PurePath.name p) - 1)%nat).
    + apply substring_split. apply rfind_lt in Hr. lia.
    + clear. induction (PurePath.name p) as [|a s IH]; simpl; [reflexivity|now rewrite IH].
  - clear. induction (PurePath.name p) as [|a s IH]; simpl; [reflexivity|now rewrite IH].
Qed.

Lemma stem_nonempty p : Str.nonempty (PurePath.name p) = true -> Str.nonempty (PurePath.stem p) = true.
Proof.
  unfold PurePath.stem, PurePath.suffix_index. intros Hn.
  destruct (Str.rfind "." (PurePath.name p)) as [i|] eqn:Hr; [|exact Hn].
  destruct ((0 <? i)%nat && (i <? String.length (PurePath.name p) - 1)%nat) eqn:Hc;
    [|exact Hn].
  apply andb_true_iff in Hc as [Hi _]. apply Nat.ltb_lt in Hi.
  destruct i; [lia|]. destruct (PurePath.name p); [discriminate|reflexivity].
Qed.

Lemma stem_without_sep p :
  Str.contains "/" (PurePath.name p) = false -> Str.contains "/" (PurePath.stem p) = false.
Proof.
  unfold PurePath.stem. intros H.
  destruct (PurePath.suffix_index _); [now apply contains_substring|exact H].
Qed.

(** The name [<stem>.wav] is a plain name with the suffix [.wav]. *)
Lemma wav_name_plain st :
  Str.contains "/" st = false -> plain_name (st ++ ".wav") = true.
Proof.
  intros H. unfold plain_name, PurePath.keep_part.
  rewrite contains_append, H. simpl.
  destruct st as [|a [|b [|c st]]]; try reflexivity.
  - destruct a as [[] [] [] [] [] [] [] []]; reflexivity.
  - destruct a as [[] [] [] [] [] [] [] []]; try reflexivity;
      destruct b as [[] [] [] [] [] [] [] []]; reflexivity.
  - simpl. destruct (Ascii.eqb a "."); [|reflexivity].
    destruct (Ascii.eqb a "."); destruct (Ascii.eqb b "."); reflexivity.
Qed.

End StemFacts.

Section WavFacts.

Lemma suffix_index_wav st :
  Str.nonempty st = true ->
  PurePath.suffix_index (st ++ ".wav") = Some (String.length st).
Proof.
  intros Hn. unfold PurePath.suffix_index.
  change (st ++ ".wav")%string with (st ++ String "." "wav")%string.
  rewrite (rfind_last_sep "." st "wav" eq_refl), length_append. simpl.
  assert (H0 : (0 <? String.length st)%nat = true).
  { destruct st; [discriminate|reflexivity]. }
  assert (H1 : (String.length st <? String.length st + 4 - 1)%nat = true).
  { apply Nat.ltb_lt. lia. }
  now rewrite H0, H1.
Qed.

(** The path [workdir / "<stem>.wav"]: its name, suffix and stem. *)
Lemma wav_path workdir st :
  Str.contains "/" st = false -> Str.nonempty st = true ->
  let output_path := workdir // (st ++ ".wav")%string in
  output_path = mkPath (root workdir) (parts workdir ++ [(st ++ ".wav")%string])
  /\ PurePath.name output_path = (st ++ ".wav")%string
  /\ PurePath.suffix output_path = ".wav"
  /\ PurePath.stem output_path = st.
Proof.
  intros Hs Hn output_path.
  destruct (plain_name_spec _ (wav_name_plain st Hs)) as (Hc & Hk & _).
  assert (Hp : output_path = mkPath (root workdir) (parts workdir ++ [(st ++ ".wav")%string])).
  { apply joinpath_single; assumption. }
  assert (Hname : PurePath.name output_path = (st ++ ".wav")%string).
  { rewrite Hp. apply name_snoc. }
  split; [exact Hp|]. split; [exact Hname|].
  unfold PurePath.suffix, PurePath.stem. rewrite Hname, (suffix_index_wav st Hn).
  split.
  - rewrite length_append. replace (String.length st + String.length ".wav" - String.length st)
      with (String.length ".wav") by lia.
    apply substring_append_right.
  - apply substring_append_left.
Qed.

End WavFacts.

(** ** Transcoding, when there is a transcoder *)

(** X1. The path a transcoding writes to, [workdir / "<stem>.wav"], keeps the
    stem of the input, has the suffix [.wav] and so is itself accepted:
    [maybe_transcode_to_wav] returns it unchanged and starts nothing; and it
    is never the input path when the input had to be transcoded. *)
Theorem transcoded_path_is_accepted env host input_path workdir workdir' w :
  Str.contains "/" (PurePath.name input_path) = false ->
  Str.nonempty (PurePath.name input_path) = true ->
  let output_path := workdir // (PurePath.stem input_path ++ ".wav")%string in
  PurePath.suffix output_path = ".wav"
  /\ PurePath.stem output_path = PurePath.stem input_path
  /\ maybe_transcode_to_wav env host output_path workdir' w = (Ok output_path, w)
  /\ (accepted (PurePath.suffix input_path) = false -> output_path <> input_path).
Proof.
  intros Hs Hn output_path.
  destruct (wav_path workdir (PurePath.stem input_path)
              (stem_without_sep _ Hs) (stem_nonempty _ Hn)) as (_ & _ & Hsuf & Hstem).
  fold output_path in Hsuf, Hstem.
  split; [exact Hsuf|]. split; [exact Hstem|]. split.
  - unfold maybe_transcode_to_wav. now rewrite Hsuf.
  - intros Ha Heq. rewrite <- Heq, Hsuf in Ha. discriminate Ha.
Qed.

Section ResolveFacts.

Variable env : Env.
Variable host : Host.

(** A transcoder that is found is a non-empty string. *)
Lemma resolve_ffmpeg_bin_some w b w1 :
  resolve_ffmpeg_bin env host w = (Ok (Some b), w1) -> Str.nonempty b = true.
Proof.
  unfold resolve_ffmpeg_bin.
  destruct (Str.truthy (FFMPEG_BIN env)) eqn:Ho.
  - intros H. inversion H as [[Hb Hw]]. now rewrite Hb in Ho.
  - unfold_M. simpl. destruct (Str.truthy (which host "ffmpeg")) eqn:Hp.
    + intros H. inversion H as [[Hb Hw]]. now rewrite Hb in Hp.
    + discriminate.
Qed.

End ResolveFacts.

(** What [maybe_transcode_to_wav] does once a transcoder is found. *)
Lemma maybe_transcode_with_transcoder env host input_path workdir w ffmpeg_bin w1 rc out err f' :
  accepted (PurePath.suffix input_path) = false ->
  resolve_ffmpeg_bin env host w = (Ok (Some ffmpeg_bin), w1) ->
  let output_path := workdir // (PurePath.stem input_path ++ ".wav")%string in
  let cmd := ffmpeg_cmd ffmpeg_bin input_path output_path in
  spawn host cmd (fs w1) = Exited rc (Some out) (Some err) f' ->
  maybe_transcode_to_wav env host input_path workdir w
  = (if Z.eqb rc 0 && FileSystem.path_exists (cwd env) f' output_path
     then Ok output_path
     else Raise (HTTPException 500
                   ("FFmpeg failed to transcode input: " ++ Str.or_else err out)%string),
     mkWorld f' (log w1 ++ [EvSpawn cmd])).
Proof.
  intros Ha Hres output_path cmd Hsp.
  pose proof (resolve_ffmpeg_bin_some _ _ _ _ _ Hres) as Hb.
  unfold maybe_transcode_to_wav. rewrite Ha. unfold bind at 1. rewrite Hres.
  cbv beta iota. unfold Str.truthy. rewrite Hb. cbn [negb default from_option]. unfold id.
  subst cmd. unfold ffmpeg_cmd in *. fold output_path.
  unfold run_subprocess. unfold_M. cbn [fs log]. rewrite Hsp. cbn [fs log].
  destruct (Z.eqb rc 0); simpl;
    [destruct (FileSystem.path_exists (cwd env) f' output_path); simpl|];
    try reflexivity; unfold diagnostics, decode; unfold_M; simpl;
    unfold Str.or_else; destruct (Str.nonempty err); reflexivity.
Qed.

(** X2. When a transcoder is found for an input whose suffix is not accepted,
    [maybe_transcode_to_wav] starts exactly one child, [ffmpeg -y -i <input>
    -ar 44100 -ac 2 <workdir>/<stem>.wav], and returns that output path only
    if the child exits with status 0 and the output exists afterwards; in
    every other case it raises a 500 whose detail is the child's standard
    error, or its standard output when the standard error is empty. *)
Theorem transcode_outcome env host input_path workdir w ffmpeg_bin w1 rc out err f' :
  accepted (PurePath.suffix input_path) = false ->
  resolve_ffmpeg_bin env host w = (Ok (Some ffmpeg_bin), w1) ->
  let output_path := workdir // (PurePath.stem input_path ++ ".wav")%string in
  let cmd := ffmpeg_cmd ffmpeg_bin input_path output_path in
  spawn host cmd (fs w1) = Exited rc (Some out) (Some err) f' ->
  maybe_transcode_to_wav env host input_path workdir w
  = (if Z.eqb rc 0 && FileSystem.path_exists (cwd env) f' output_path
     then Ok output_path
     else Raise (HTTPException 500
                   ("FFmpeg failed to transcode input: " ++ Str.or_else err out)%string),
     mkWorld f' (log w1 ++ [EvSpawn cmd])).
Proof.
  intros Ha Hres output_path cmd Hsp.
  now apply maybe_transcode_with_transcoder.
Qed.

(** ** The engine, when it fails *)

(** What [run_demucs] does when the engine exits with another status
    than 0. *)
Lemma run_demucs_nonzero_exit env host input_path output_root w demucs_bin w1 rc out err f' :
  resolve_demucs_bin env host w = (Ok demucs_bin, w1) ->
  let cmd := demucs_cmd env demucs_bin input_path output_root in
  spawn host cmd (fs w1) = Exited rc out err f' ->
  rc <> 0%Z ->
  run_demucs env host input_path output_root w
  = (match err, out with
     | None, _ => Raise UnicodeDecodeError
     | Some e, Some o =>
         Raise (HTTPException 500 ("Demucs failed: " ++ Str.or_else e o)%string)
     | Some e, None =>
         if Str.nonempty e
         then Raise (HTTPException 500 ("Demucs failed: " ++ e)%string)
         else Raise UnicodeDecodeError
     end,
     mkWorld f' (log w1 ++ [EvSpawn cmd])).
Proof.
  intros Hres cmd Hsp Hrc.
  unfold run_demucs. unfold bind at 1. rewrite Hres.
  subst cmd. unfold demucs_cmd in *.
  unfold run_subprocess. unfold_M. cbn [fs log]. rewrite Hsp. cbn [fs log].
  apply Z.eqb_neq in Hrc. rewrite Hrc. cbn [negb].
  unfold diagnostics, decode, Str.or_else. unfold_M.
  destruct err as [e|]; simpl; [|reflexivity].
  destruct (Str.nonempty e); simpl; [destruct out; reflexivity|].
  destruct out; reflexivity.
Qed.

(** X3. When the engine is found and its process exits with a status other
    than 0, [run_demucs] raises a 500 whose detail is "Demucs failed: "
    followed by the child's standard error, or by its standard output when
    the standard error is empty, whether or not an output directory exists;
    when the standard error is not valid UTF-8, the handler ends with a
    [UnicodeDecodeError] instead. *)
Theorem engine_failure_reported env host input_path output_root w demucs_bin w1 rc out err f' :
  resolve_demucs_bin env host w = (Ok demucs_bin, w1) ->
  let cmd := demucs_cmd env demucs_bin input_path output_root in
  spawn host cmd (fs w1) = Exited rc out err f' ->
  rc <> 0%Z ->
  run_demucs env host input_path output_root w
  = (match err, out with
     | None, _ => Raise UnicodeDecodeError
     | Some e, Some o =>
         Raise (HTTPException 500 ("Demucs failed: " ++ Str.or_else e o)%string)
     | Some e, None =>
         if Str.nonempty e
         then Raise (HTTPException 500 ("Demucs failed: " ++ e)%string)
         else Raise UnicodeDecodeError
     end,
     mkWorld f' (log w1 ++ [EvSpawn cmd])).
Proof.
  intros Hres cmd Hsp Hrc.
  now apply (run_demucs_nonzero_exit env host input_path output_root w demucs_bin w1 rc).
Qed.

(** X4. When the engine is nowhere to be found (no override, nothing on the
    search path, neither executable of the local virtual environment),
    [run_demucs] raises the "Demucs CLI not found" error of status 500 after
    the one search of the path: no child is started and the file system is
    not touched. *)
Theorem engine_not_found_no_spawn env host input_path output_root w :
  Str.truthy (DEMUCS_BIN env) = false ->
  Str.truthy (which host "demucs") = false ->
  FileSystem.path_exists (cwd env) (fs w) (here env // ".venv" // "bin" // "demucs") = false ->
  FileSystem.path_exists (cwd env) (fs w) (here env // ".venv" // "Scripts" // "demucs.exe")
    = false ->
  run_demucs env host input_path output_root w
  = (Raise DEMUCS_NOT_FOUND, mkWorld (fs w) (log w ++ [EvWhich "demucs"])).
Proof.
  intros Ho Hp Hu Hw. unfold run_demucs, resolve_demucs_bin.
  rewrite Ho. unfold_M. simpl. rewrite Hp. cbn [fs]. rewrite Hu. cbn [fs].
  now rewrite Hw.
Qed.

(** ** The upload in its workspace *)

Section UploadFacts.

Variable env : Env.
Variable host : Host.

Lemma locate_det f f' p k k' :
  FileSystem.locate (cwd env) f p = Some k ->
  FileSystem.locate (cwd env) f' p = Some k' -> k = k'.
Proof.
  unfold FileSystem.locate. destruct (Str.nonempty (root p)); intros H H';
    apply walk_key in H; apply walk_key in H'; congruence.
Qed.

(** What the creation of the workspace followed by a successful write of
    the upload has done. *)
Lemma write_in_workspace fname raw w tmpdir w1 u w2 :
  mkdtemp env host w = (Ok tmpdir, w1) ->
  write_bytes env (PurePath.parse tmpdir // PurePath.name (PurePath.parse fname)) raw w1
  = (Ok u, w2) ->
  exists K,
    FileSystem.locate (cwd env) (fs w1) (PurePath.parse tmpdir) = Some K /\
    K <> [] /\
    fs w !! K = None /\
    fs w1 = <[K := Dir]> (fs w) /\
    plain_name (PurePath.name (PurePath.parse fname)) = true /\
    PurePath.parse tmpdir // PurePath.name (PurePath.parse fname)
    = mkPath (root (PurePath.parse tmpdir))
             (parts (PurePath.parse tmpdir) ++ [PurePath.name (PurePath.parse fname)]) /\
    fs w2 = <[K ++ [PurePath.name (PurePath.parse fname)] := File raw]> (fs w1) /\
    log w2 = log w ++ [EvMkdtemp tmpdir;
                       EvWriteBytes (PurePath.parse tmpdir
                                     // PurePath.name (PurePath.parse fname))] /\
    FileSystem.locate (cwd env) (fs w2) (PurePath.parse tmpdir) = Some K /\
    fs w2 !! K = Some Dir.
Proof.
  intros Hmk Hwr.
  set (tmp_path := PurePath.parse tmpdir) in *.
  set (base := PurePath.name (PurePath.parse fname)) in *.
  destruct (name_parse fname) as [Hsep Hbase]. fold base in Hsep, Hbase.
  destruct (mkdtemp_creates _ _ _ _ _ Hmk) as (k & Hloc & Hdir & Hfresh & Hfs1 & Hparent).
  destruct (mkdtemp_inv _ _ _ _ _ Hmk) as (_ & _ & _ & _ & _ & _ & Hlog1).
  fold tmp_path in Hloc.
  set (K := k ++ [workspace_name host]) in *.
  destruct (write_bytes_inv _ _ _ _ _ _ Hwr) as (kw & Hlw & Hne & Hnd & Hfs2 & Hlog2).
  assert (HK : FileSystem.is_dir (fs w1) K = true).
  { unfold FileSystem.is_dir. destruct K; [reflexivity|]. now rewrite Hdir. }
  assert (Hshape : plain_name base = true
                   /\ tmp_path // base = mkPath (root tmp_path) (parts tmp_path ++ [base])
                   /\ kw = K ++ [base]).
  { destruct Hbase as [E|Hk].
    - exfalso. rewrite E, joinpath_empty, Hloc in Hlw. congruence.
    - pose proof (joinpath_single tmp_path base Hsep Hk) as Hj.
      rewrite Hj, locate_snoc, Path_eta, Hloc, HK in Hlw.
      destruct (String.eqb base "..") eqn:Hdd.
      + exfalso. apply String.eqb_eq in Hdd. rewrite Hdd in Hlw.
        unfold FileSystem.step in Hlw. simpl in Hlw.
        unfold K in Hlw. rewrite removelast_last in Hlw.
        inversion Hlw; subst kw.
        unfold FileSystem.is_dir in Hparent.
        destruct k as [|x l]; [congruence|].
        destruct (fs w1 !! (x :: l)) as [[d|]|]; congruence.
      + assert (Hp : plain_name base = true).
        { unfold plain_name. now rewrite Hsep, Hk, Hdd. }
        rewrite (step_plain _ _ Hp) in Hlw. repeat split; congruence. }
  destruct Hshape as (Hp & Hj & ->).
  exists K. repeat split; try assumption.
  - unfold K. destruct k; discriminate.
  - rewrite Hlog2, Hlog1, <- app_assoc. reflexivity.
  - eapply locate_mono; [|exact Hloc]. rewrite Hfs2.
    intros j. now apply is_dir_insert_over_file.
  - rewrite Hfs2, lookup_insert_ne; [assumption|].
    intros E. apply (f_equal (@length string)) in E.
    rewrite length_app in E. simpl in E. lia.
Qed.

(** The stem of a path depends on its name only. *)
Lemma stem_of_name p q : PurePath.name p = PurePath.name q -> PurePath.stem p = PurePath.stem q.
Proof. unfold PurePath.stem. now intros ->. Qed.

Lemma suffix_of_name p q :
  PurePath.name p = PurePath.name q -> PurePath.suffix p = PurePath.suffix q.
Proof. unfold PurePath.suffix. now intros ->. Qed.

(** The name of the client's string is that of its last component. *)
Lemma name_of_base fname r ps :
  PurePath.name (mkPath r (ps ++ [PurePath.name (PurePath.parse fname)]))
  = PurePath.name (PurePath.parse fname).
Proof. apply name_snoc. Qed.

(** Something that exists below a path goes through a directory there. *)
Lemma parent_exists f p b :
  plain_name b = true ->
  FileSystem.path_exists (cwd env) f (p // b) = true ->
  FileSystem.path_is_dir (cwd env) f p = true.
Proof.
  intros Hb. destruct (plain_name_spec _ Hb) as (Hc & Hk & _).
  rewrite (joinpath_single p b Hc Hk).
  unfold FileSystem.path_exists, FileSystem.path_is_dir, FileSystem.stat.
  rewrite locate_snoc, Path_eta.
  destruct (FileSystem.locate (cwd env) f p) as [k|]; [|discriminate].
  destruct (FileSystem.is_dir f k) eqn:Hd; [|discriminate].
  intros _. unfold FileSystem.is_dir in Hd. destruct k as [|x k]; [reflexivity|].
  destruct (f !! (x :: k)) as [[d|]|]; congruence.
Qed.

End UploadFacts.

(** ** A request from end to end *)

Section PipelineFacts.

Variable env : Env.
Variable host : Host.

Lemma maybe_transcode_accepted input_path workdir w :
  accepted (PurePath.suffix input_path) = true ->
  maybe_transcode_to_wav env host input_path workdir w = (Ok input_path, w).
Proof. intros Ha. unfold maybe_transcode_to_wav. now rewrite Ha. Qed.

Lemma run_demucs_exit_zero input_path output_root w demucs_bin w1 out err f' :
  resolve_demucs_bin env host w = (Ok demucs_bin, w1) ->
  spawn host (demucs_cmd env demucs_bin input_path output_root) (fs w1)
  = Exited 0 out err f' ->
  run_demucs env host input_path output_root w
  = (if FileSystem.path_exists (cwd env) f'
          (output_root // DEMUCS_MODEL env // PurePath.stem input_path)
     then Ok (output_root // DEMUCS_MODEL env // PurePath.stem input_path)
     else Raise OUTPUT_MISSING,
     mkWorld f' (log w1 ++ [EvSpawn (demucs_cmd env demucs_bin input_path output_root)])).
Proof.
  intros Hres Hsp. unfold run_demucs. unfold bind at 1. rewrite Hres.
  unfold demucs_cmd in *. unfold run_subprocess. unfold_M. cbn [fs log].
  rewrite Hsp. cbn [fs log negb Z.eqb].
  destruct (FileSystem.path_exists _ _ _); reflexivity.
Qed.

Lemma resolve_demucs_bin_fs w r w' :
  resolve_demucs_bin env host w = (r, w') -> fs w' = fs w.
Proof.
  unfold resolve_demucs_bin.
  destruct (Str.truthy (DEMUCS_BIN env)); [intros H; now inversion H|].
  unfold_M. simpl. destruct (Str.truthy (which host "demucs")); [intros H; now inversion H|].
  cbn [fs]. destruct (FileSystem.path_exists _ _ _); [intros H; now inversion H|].
  cbn [fs]. destruct (FileSystem.path_exists _ _ _); intros H; now inversion H.
Qed.

Lemma resolve_ffmpeg_bin_fs w r w' :
  resolve_ffmpeg_bin env host w = (r, w') -> fs w' = fs w.
Proof.
  unfold resolve_ffmpeg_bin.
  destruct (Str.truthy (FFMPEG_BIN env)); [intros H; now inversion H|].
  unfold_M. simpl. destruct (Str.truthy (which host "ffmpeg")); intros H; now inversion H.
Qed.

(** The cleanup of a workspace that is still a directory succeeds. *)
Lemma cleanup_of_directory t f l :
  FileSystem.path_is_dir (cwd env) f (PurePath.parse t) = true ->
  exists f2, cleanup env t (mkWorld f l) = (Ok tt, mkWorld f2 (l ++ [EvRmtree t])).
Proof.
  unfold FileSystem.path_is_dir, FileSystem.stat, cleanup. unfold_M. simpl.
  destruct (FileSystem.locate (cwd env) f (PurePath.parse t)) as [[|x k]|];
    [eauto| |discriminate].
  destruct (f !! (x :: k)) as [[d|]|]; try discriminate. eauto.
Qed.

Lemma expected_archive_inhabited f stem_dir e zf :
  expected_archive env f stem_dir = e :: zf ->
  FileSystem.path_exists (cwd env) f stem_dir = true.
Proof.
  intros H.
  assert (Hex : exists stem, In stem stems /\
            FileSystem.path_exists (cwd env) f (stem_dir // (stem ++ ".wav")%string) = true).
  { unfold expected_archive in H. revert H. generalize stems as todo.
    induction todo as [|stem rest IH]; simpl; [discriminate|].
    intros H. unfold stem_entry at 1 in H. unfold FileSystem.path_exists.
    destruct (FileSystem.stat (cwd env) f (stem_dir // (stem ++ ".wav"))) as [n|] eqn:Hs.
    - exists stem. split; [now left|]. now rewrite Hs.
    - destruct (IH H) as (s & Hin & Hp). exists s. split; [now right|exact Hp]. }
  destruct Hex as (stem & Hin & Hp).
  assert (Hplain : plain_name (stem ++ ".wav") = true).
  { unfold stems in Hin. simpl in Hin.
    destruct Hin as [<-|[<-|[<-|[<-|[]]]]]; reflexivity. }
  pose proof (parent_exists env f stem_dir _ Hplain Hp) as Hd.
  unfold FileSystem.path_is_dir in Hd. unfold FileSystem.path_exists.
  destruct (FileSystem.stat _ _ _); [reflexivity|discriminate].
Qed.

Lemma filter_spawn_quiet (evs : list event) :
  Forall (fun ev => is_spawn ev = false) evs -> List.filter is_spawn evs = [].
Proof.
  induction 1 as [|ev evs Hev _ IH]; simpl; [reflexivity|]. now rewrite Hev.
Qed.

End PipelineFacts.

(** ** The headers of the reply *)

Section EncodingFacts.

Lemma latin1_cons c r :
  Str.latin1 (String c r)
  = if Str.is_ascii c then Str.latin1 r
    else if Str.is_latin1_lead c then
      match r with
      | String d r' => Str.is_continuation d && Str.latin1 r'
      | EmptyString => false
      end
    else false.
Proof. reflexivity. Qed.

(** Text that ends in ASCII characters is Latin-1 exactly when what comes
    before them is. *)
Lemma latin1_app_ascii c t :
  Str.is_ascii c = true -> Str.latin1 (String c t) = true ->
  forall s, Str.latin1 (s ++ String c t)%string = Str.latin1 s.
Proof.
  intros Hc Ht.
  assert (Hnc : Str.is_continuation c = false).
  { unfold Str.is_ascii in Hc. unfold Str.is_continuation.
    apply Nat.ltb_lt in Hc. apply andb_false_iff. left. apply Nat.leb_gt. lia. }
  assert (H : forall s,
            Str.latin1 (s ++ String c t)%string = Str.latin1 s
            /\ forall d, Str.latin1 (String d s ++ String c t)%string
                         = Str.latin1 (String d s)).
  { induction s as [|e s [IH1 IH2]].
    - split; [exact Ht|]. intros d.
      change (String d "" ++ String c t)%string with (String d (String c t)).
      rewrite (latin1_cons d (String c t)), (latin1_cons d ""), Ht, Hnc.
      now destruct (Str.is_ascii d), (Str.is_latin1_lead d).
    - split; [apply IH2|]. intros d.
      change (String d (String e s) ++ String c t)%string
        with (String d (String e (s ++ String c t))).
      rewrite (latin1_cons d (String e (s ++ String c t))), (latin1_cons d (String e s)).
      destruct (Str.is_ascii d); [apply (IH2 e)|].
      destruct (Str.is_latin1_lead d); [|reflexivity].
      now rewrite IH1. }
  intros s. apply H.
Qed.

(** The headers of a streamed reply can be encoded exactly when the name of
    the model and the stem of the upload are Latin-1 text. *)
Lemma stems_headers_encodable env fname :
  encodable_headers "application/zip" (stems_headers env fname)
  = Str.latin1 (DEMUCS_MODEL env) && Str.latin1 (PurePath.stem (PurePath.parse fname)).
Proof.
  unfold encodable_headers, stems_headers.
  cbn [forallb fst snd].
  change (Str.latin1 (Str.lower "X-Model")) with true.
  change (Str.latin1 (Str.lower "Content-Disposition")) with true.
  change (Str.latin1 "application/zip") with true.
  cbn [andb]. rewrite !andb_true_r.
  f_equal.
  change ("attachment; filename=" ++ Str.dquote
          ++ PurePath.stem (PurePath.parse fname) ++ "_stems.zip" ++ Str.dquote)%string
    with ("attachment; filename=" ++ Str.dquote
          ++ (PurePath.stem (PurePath.parse fname) ++ "_stems.zip" ++ Str.dquote))%string.
  generalize (PurePath.stem (PurePath.parse fname)) as stem. intros stem.
  transitivity (Str.latin1 (stem ++ "_stems.zip" ++ Str.dquote)%string).
  - reflexivity.
  - apply latin1_app_ascii; reflexivity.
Qed.

End EncodingFacts.

(** X5. A request from end to end, for an upload whose suffix is accepted:
    once the upload is written, the engine is the only child started, on the
    uploaded file itself and with [<workspace>/separated] as its output root;
    if it exits with status 0, leaves the workspace in place and at least one
    of the four stems under [<workspace>/separated/<model>/<stem of the
    upload>], the request ends in one of two ways.  When the name of the
    model and the stem of the upload are Latin-1 text, the reply streams
    exactly the archive of these stems as [application/zip], labelled with
    the model and with the suggested name [<stem of the upload>_stems.zip];
    when one of them holds a character from U+0100 on, the headers cannot be
    encoded and the request ends with a [UnicodeEncodeError] instead. *)
Theorem accepted_upload_end_to_end
    env host request fname raw w tmpdir w1 w2 demucs_bin w3 out err f' e zf :
  String.eqb (method request) "OPTIONS" = false ->
  Str.nonempty fname = true ->
  mkdtemp env host w = (Ok tmpdir, w1) ->
  let tmp_path := PurePath.parse tmpdir in
  let input_path := tmp_path // PurePath.name (PurePath.parse fname) in
  let output_root := tmp_path // "separated" in
  write_bytes env input_path raw w1 = (Ok tt, w2) ->
  accepted (PurePath.suffix (PurePath.parse fname)) = true ->
  resolve_demucs_bin env host w2 = (Ok demucs_bin, w3) ->
  let cmd := demucs_cmd env demucs_bin input_path output_root in
  spawn host cmd (fs w3) = Exited 0 out err f' ->
  let song_dir := output_root // DEMUCS_MODEL env // PurePath.stem (PurePath.parse fname) in
  expected_archive env f' song_dir = e :: zf ->
  FileSystem.path_is_dir (cwd env) f' tmp_path = true ->
  exists w',
    separate env host request (Some (mkUpload (Some fname) raw)) w
    = (if Str.latin1 (DEMUCS_MODEL env)
          && Str.latin1 (PurePath.stem (PurePath.parse fname))
       then Ok (StreamingResponse (e :: zf) "application/zip" (stems_headers env fname))
       else Raise UnicodeEncodeError,
       w')
    /\ List.filter is_spawn (log w') = List.filter is_spawn (log w) ++ [EvSpawn cmd].
Proof.
  intros Hm Hf Hmk tmp_path input_path output_root Hwr Ha Hres cmd Hsp song_dir Harch Hdir.
  destruct (write_in_workspace env host fname raw w tmpdir w1 tt w2 Hmk Hwr)
    as (K & _ & _ & _ & _ & Hplain & Hshape & _ & Hlog2 & _ & _).
  fold tmp_path in Hshape. fold input_path in Hshape, Hlog2.
  assert (Hname : PurePath.name input_path = PurePath.name (PurePath.parse fname)).
  { rewrite Hshape. apply name_snoc. }
  assert (Hsuf : accepted (PurePath.suffix input_path) = true).
  { now rewrite (suffix_of_name _ _ Hname). }
  assert (Hstem : PurePath.stem input_path = PurePath.stem (PurePath.parse fname)).
  { now apply stem_of_name. }
  assert (Hlog3 : exists evs, log w3 = log w2 ++ evs
                              /\ Forall (fun ev => is_spawn ev = false) evs).
  { apply (adds_only_resolve_demucs_bin env host (fun ev => is_spawn ev = false)
             (fun _ => eq_refl) _ _ _ Hres). }
  destruct Hlog3 as (evs & Hlog3 & Hquiet).
  destruct (cleanup_of_directory env tmpdir f' (log w3 ++ [EvSpawn cmd]) Hdir)
    as (f2 & Hclean).
  exists (mkWorld f2 ((log w3 ++ [EvSpawn cmd]) ++ [EvRmtree tmpdir])). split.
  - unfold separate. rewrite Hm. cbn [filename Str.truthy]. rewrite Hf. cbn [negb].
    unfold with_TemporaryDirectory. rewrite Hmk.
    cbn [default from_option content]. unfold id. fold tmp_path. fold input_path.
    unfold bind at 1. rewrite Hwr.
    unfold bind at 1. rewrite (maybe_transcode_accepted env host _ _ _ Hsuf).
    unfold bind at 1. fold output_root.
    rewrite (run_demucs_exit_zero env host _ _ _ _ _ _ _ _ Hres Hsp).
    rewrite Hstem. fold song_dir.
    rewrite (expected_archive_inhabited env _ _ _ _ Harch).
    unfold bind at 1. rewrite zip_stems_spec. cbn [fs]. rewrite Harch.
    fold (stems_headers env fname). unfold new_StreamingResponse.
    rewrite stems_headers_encodable.
    destruct (Str.latin1 (DEMUCS_MODEL env)
              && Str.latin1 (PurePath.stem (PurePath.parse fname)));
      unfold ret, raise; fold cmd; rewrite Hclean; reflexivity.
  - cbn [log]. rewrite Hlog3, Hlog2, !List.filter_app. simpl.
    rewrite (filter_spawn_quiet evs Hquiet). now rewrite !app_nil_r.
Qed.

Section TranscodePipelineFacts.

Variable env : Env.
Variable host : Host.

Lemma maybe_transcode_exit_zero input_path workdir w ffmpeg_bin w1 out err f' :
  accepted (PurePath.suffix input_path) = false ->
  resolve_ffmpeg_bin env host w = (Ok (Some ffmpeg_bin), w1) ->
  spawn host (ffmpeg_cmd ffmpeg_bin input_path
                (workdir // (PurePath.stem input_path ++ ".wav")%string)) (fs w1)
  = Exited 0 out err f' ->
  FileSystem.path_exists (cwd env) f'
    (workdir // (PurePath.stem input_path ++ ".wav")%string) = true ->
  maybe_transcode_to_wav env host input_path workdir w
  = (Ok (workdir // (PurePath.stem input_path ++ ".wav")%string),
     mkWorld f'
       (log w1 ++ [EvSpawn (ffmpeg_cmd ffmpeg_bin input_path
                              (workdir // (PurePath.stem input_path ++ ".wav")%string))])).
Proof.
  intros Ha Hres Hsp Hex.
  pose proof (resolve_ffmpeg_bin_some _ _ _ _ _ Hres) as Hb.
  unfold maybe_transcode_to_wav. rewrite Ha. unfold bind at 1. rewrite Hres.
  cbv beta iota. unfold Str.truthy. rewrite Hb. cbn [negb default from_option]. unfold id.
  unfold ffmpeg_cmd in *. unfold run_subprocess. unfold_M. cbn [fs log].
  rewrite Hsp. cbn [fs log negb Z.eqb orb]. now rewrite Hex.
Qed.

End TranscodePipelineFacts.

(** X6. A request from end to end, for an upload that has to be transcoded:
    once the upload is written and a transcoder found, [ffmpeg] is run first,
    from the upload to [<workspace>/<stem of the upload>.wav]; if it exits
    with status 0 and that file exists, the engine is run next, on the
    transcoded file; and if the engine exits with status 0, leaves the
    workspace in place and at least one stem under
    [<workspace>/separated/<model>/<stem of the upload>], the request ends
    in one of two ways.  When the name of the model and the stem of the
    upload are Latin-1 text, the reply streams the archive of these stems,
    still named after the stem of the upload; when one of them holds a
    character from U+0100 on, the headers cannot be encoded and the request
    ends with a [UnicodeEncodeError] instead.  In both cases these two are
    the only children of the request, in that order. *)
Theorem transcoded_upload_end_to_end
    env host request fname raw w tmpdir w1 w2 ffmpeg_bin w3 out1 err1 f1
    demucs_bin w5 out2 err2 f2 e zf :
  String.eqb (method request) "OPTIONS" = false ->
  Str.nonempty fname = true ->
  mkdtemp env host w = (Ok tmpdir, w1) ->
  let tmp_path := PurePath.parse tmpdir in
  let input_path := tmp_path // PurePath.name (PurePath.parse fname) in
  let output_root := tmp_path // "separated" in
  let output_path := tmp_path // (PurePath.stem (PurePath.parse fname) ++ ".wav")%string in
  write_bytes env input_path raw w1 = (Ok tt, w2) ->
  accepted (PurePath.suffix (PurePath.parse fname)) = false ->
  resolve_ffmpeg_bin env host w2 = (Ok (Some ffmpeg_bin), w3) ->
  let cmd1 := ffmpeg_cmd ffmpeg_bin input_path output_path in
  spawn host cmd1 (fs w3) = Exited 0 out1 err1 f1 ->
  FileSystem.path_exists (cwd env) f1 output_path = true ->
  resolve_demucs_bin env host (mkWorld f1 (log w3 ++ [EvSpawn cmd1])) = (Ok demucs_bin, w5) ->
  let cmd2 := demucs_cmd env demucs_bin output_path output_root in
  spawn host cmd2 (fs w5) = Exited 0 out2 err2 f2 ->
  let song_dir := output_root // DEMUCS_MODEL env // PurePath.stem (PurePath.parse fname) in
  expected_archive env f2 song_dir = e :: zf ->
  FileSystem.path_is_dir (cwd env) f2 tmp_path = true ->
  exists w',
    separate env host request (Some (mkUpload (Some fname) raw)) w
    = (if Str.latin1 (DEMUCS_MODEL env)
          && Str.latin1 (PurePath.stem (PurePath.parse fname))
       then Ok (StreamingResponse (e :: zf) "application/zip" (stems_headers env fname))
       else Raise UnicodeEncodeError,
       w')
    /\ List.filter is_spawn (log w')
       = List.filter is_spawn (log w) ++ [EvSpawn cmd1; EvSpawn cmd2].
Proof.
  intros Hm Hf Hmk tmp_path input_path output_root output_path Hwr Ha Hres1 cmd1 Hsp1 Hex
         Hres2 cmd2 Hsp2 song_dir Harch Hdir.
  destruct (write_in_workspace env host fname raw w tmpdir w1 tt w2 Hmk Hwr)
    as (K & _ & _ & _ & _ & Hplain & Hshape & _ & Hlog2 & _ & _).
  fold tmp_path in Hshape. fold input_path in Hshape, Hlog2.
  destruct (plain_name_spec _ Hplain) as (Hsep & Hkeep & _).
  assert (Hnonempty : Str.nonempty (PurePath.name (PurePath.parse fname)) = true).
  { unfold PurePath.keep_part in Hkeep. now apply andb_true_iff in Hkeep as [? _]. }
  assert (Hname : PurePath.name input_path = PurePath.name (PurePath.parse fname)).
  { rewrite Hshape. apply name_snoc. }
  assert (Hsuf : accepted (PurePath.suffix input_path) = false).
  { now rewrite (suffix_of_name _ _ Hname). }
  assert (Hstem : PurePath.stem input_path = PurePath.stem (PurePath.parse fname)).
  { now apply stem_of_name. }
  assert (Hstem' : PurePath.stem output_path = PurePath.stem (PurePath.parse fname)).
  { apply (wav_path tmp_path (PurePath.stem (PurePath.parse fname))
             (stem_without_sep _ Hsep) (stem_nonempty _ Hnonempty)). }
  assert (Hq3 : exists evs, log w3 = log w2 ++ evs
                            /\ Forall (fun ev => is_spawn ev = false) evs).
  { apply (adds_only_resolve_ffmpeg_bin env host (fun ev => is_spawn ev = false)
             (fun _ => eq_refl) _ _ _ Hres1). }
  destruct Hq3 as (evs3 & Hlog3 & Hquiet3).
  assert (Hq5 : exists evs, log w5 = (log w3 ++ [EvSpawn cmd1]) ++ evs
                            /\ Forall (fun ev => is_spawn ev = false) evs).
  { apply (adds_only_resolve_demucs_bin env host (fun ev => is_spawn ev = false)
             (fun _ => eq_refl) _ _ _ Hres2). }
  destruct Hq5 as (evs5 & Hlog5 & Hquiet5).
  destruct (cleanup_of_directory env tmpdir f2 (log w5 ++ [EvSpawn cmd2]) Hdir)
    as (f3 & Hclean).
  exists (mkWorld f3 ((log w5 ++ [EvSpawn cmd2]) ++ [EvRmtree tmpdir])). split.
  - unfold separate. rewrite Hm. cbn [filename Str.truthy]. rewrite Hf. cbn [negb].
    unfold with_TemporaryDirectory. rewrite Hmk.
    cbn [default from_option content]. unfold id. fold tmp_path. fold input_path.
    unfold bind at 1. rewrite Hwr.
    unfold bind at 1.
    assert (Hout : tmp_path // (PurePath.stem input_path ++ ".wav")%string = output_path).
    { now rewrite Hstem. }
    rewrite (maybe_transcode_exit_zero env host input_path tmp_path w2 ffmpeg_bin w3
               out1 err1 f1 Hsuf Hres1);
      rewrite ?Hout; try assumption.
    fold cmd1. unfold bind at 1. fold output_root.
    rewrite (run_demucs_exit_zero env host _ _ _ _ _ _ _ _ Hres2 Hsp2).
    rewrite Hstem'. fold song_dir.
    rewrite (expected_archive_inhabited env _ _ _ _ Harch).
    unfold bind at 1. rewrite zip_stems_spec. cbn [fs]. rewrite Harch.
    rewrite Hstem. fold (stems_headers env fname). unfold new_StreamingResponse.
    rewrite stems_headers_encodable.
    destruct (Str.latin1 (DEMUCS_MODEL env)
              && Str.latin1 (PurePath.stem (PurePath.parse fname)));
      unfold ret, raise; fold cmd2; rewrite Hclean; reflexivity.
  - cbn [log]. rewrite Hlog5, Hlog3, Hlog2, !List.filter_app. simpl.
    rewrite (filter_spawn_quiet evs3 Hquiet3), (filter_spawn_quiet evs5 Hquiet5).
    rewrite !app_nil_r, <- !app_assoc. reflexivity.
Qed.

(** ** What the steps raise *)

Section RaiseFacts.

Variable env : Env.
Variable host : Host.
Variable P : exn -> Prop.

Lemma raises_only_ret {A} (a : A) : raises_only P (ret a).
Proof. intros w e w' H. discriminate H. Qed.

Lemma raises_only_raise {A} e : P e -> raises_only P (@raise A e).
Proof. intros He w e' w' H. inversion H; subst. exact He. Qed.

Lemma raises_only_new_StreamingResponse content media_type headers :
  P UnicodeEncodeError ->
  raises_only P (new_StreamingResponse content media_type headers).
Proof.
  intros HP. unfold new_StreamingResponse.
  destruct (encodable_headers _ _); [apply raises_only_ret|now apply raises_only_raise].
Qed.

Lemma raises_only_bind {A B} (m : M A) (k : A -> M B) :
  raises_only P m -> (forall a, raises_only P (k a)) -> raises_only P (bind m k).
Proof.
  intros Hm Hk w e w'. unfold bind.
  destruct (m w) as [[a|e0] w1] eqn:Hmw; intros H.
  - exact (Hk a _ _ _ H).
  - inversion H; subst. exact (Hm _ _ _ Hmw).
Qed.

Lemma raises_only_emit ev : raises_only P (emit ev).
Proof. intros w e w' H. discriminate H. Qed.

Lemma raises_only_get_fs : raises_only P get_fs.
Proof. intros w e w' H. discriminate H. Qed.

Lemma raises_only_put_fs f : raises_only P (put_fs f).
Proof. intros w e w' H. discriminate H. Qed.

Lemma raises_only_path_exists p : raises_only P (path_exists env p).
Proof. intros w e w' H. discriminate H. Qed.

Lemma raises_only_which cmd : raises_only P (shutil_which host cmd).
Proof.
  apply raises_only_bind; [apply raises_only_emit|]. intros _. apply raises_only_ret.
Qed.

Lemma raises_only_resolve_ffmpeg_bin : raises_only P (resolve_ffmpeg_bin env host).
Proof.
  unfold resolve_ffmpeg_bin.
  destruct (Str.truthy (FFMPEG_BIN env)); [apply raises_only_ret|].
  apply raises_only_bind; [apply raises_only_which|]. intros path_bin.
  destruct (Str.truthy path_bin); apply raises_only_ret.
Qed.

Hypothesis P_os : P OSError.
Hypothesis P_decode : P UnicodeDecodeError.
Hypothesis P_500 : forall detail, P (HTTPException 500 detail).

Lemma raises_only_write_bytes p data : raises_only P (write_bytes env p data).
Proof.
  unfold write_bytes.
  apply raises_only_bind; [apply raises_only_get_fs|]. intros f.
  destruct (FileSystem.locate _ _ _) as [[|x l]|]; try now apply raises_only_raise.
  destruct (f !! (x :: l)) as [[d|]|]; try now apply raises_only_raise.
  - apply raises_only_bind; [apply raises_only_put_fs|]. intros _. apply raises_only_emit.
  - apply raises_only_bind; [apply raises_only_put_fs|]. intros _. apply raises_only_emit.
Qed.

Lemma raises_only_mkdtemp : raises_only P (mkdtemp env host).
Proof.
  unfold mkdtemp, mkdir.
  apply raises_only_bind.
  - apply raises_only_bind; [apply raises_only_get_fs|]. intros f.
    destruct (FileSystem.locate _ _ _) as [[|x l]|]; try now apply raises_only_raise.
    destruct (f !! (x :: l)); [now apply raises_only_raise|apply raises_only_put_fs].
  - intros _. apply raises_only_bind; [apply raises_only_emit|]. intros _.
    apply raises_only_ret.
Qed.

Lemma raises_only_cleanup name : raises_only P (cleanup env name).
Proof.
  unfold cleanup.
  apply raises_only_bind; [apply raises_only_emit|]. intros _.
  apply raises_only_bind; [apply raises_only_get_fs|]. intros f.
  destruct (FileSystem.locate _ _ _) as [k|]; [|apply raises_only_ret].
  destruct k as [|x l]; [apply raises_only_put_fs|].
  destruct (f !! (x :: l)) as [[d|]|];
    [now apply raises_only_raise|apply raises_only_put_fs|apply raises_only_ret].
Qed.

Lemma raises_only_run_subprocess cmd : raises_only P (run_subprocess host cmd).
Proof.
  unfold run_subprocess.
  apply raises_only_bind; [apply raises_only_emit|]. intros _.
  apply raises_only_bind; [apply raises_only_get_fs|]. intros f.
  destruct (spawn host cmd f); [now apply raises_only_raise|].
  apply raises_only_bind; [apply raises_only_put_fs|]. intros _. apply raises_only_ret.
Qed.

Lemma raises_only_decode b : raises_only P (decode b).
Proof. destruct b; [apply raises_only_ret|now apply raises_only_raise]. Qed.

Lemma raises_only_diagnostics out err : raises_only P (diagnostics out err).
Proof.
  apply raises_only_bind; [apply raises_only_decode|]. intros e.
  destruct (Str.nonempty e); [apply raises_only_ret|apply raises_only_decode].
Qed.

Lemma raises_only_resolve_demucs_bin : raises_only P (resolve_demucs_bin env host).
Proof.
  unfold resolve_demucs_bin.
  destruct (Str.truthy (DEMUCS_BIN env)); [apply raises_only_ret|].
  apply raises_only_bind; [apply raises_only_which|]. intros path_bin.
  destruct (Str.truthy path_bin); [apply raises_only_ret|].
  apply raises_only_bind; [apply raises_only_path_exists|]. intros [|]; [apply raises_only_ret|].
  apply raises_only_bind; [apply raises_only_path_exists|].
  intros [|]; [apply raises_only_ret|apply raises_only_raise, P_500].
Qed.

Lemma raises_only_maybe_transcode input_path workdir :
  raises_only P (maybe_transcode_to_wav env host input_path workdir).
Proof.
  unfold maybe_transcode_to_wav.
  destruct (accepted _); [apply raises_only_ret|].
  apply raises_only_bind; [apply raises_only_resolve_ffmpeg_bin|]. intros ffmpeg_bin.
  destruct (negb (Str.truthy ffmpeg_bin)); [apply raises_only_raise, P_500|].
  apply raises_only_bind; [apply raises_only_run_subprocess|]. intros [[rc out] err].
  apply raises_only_bind; [apply raises_only_path_exists|]. intros output_exists.
  destruct (negb (Z.eqb rc 0) || negb output_exists); [|apply raises_only_ret].
  apply raises_only_bind; [apply raises_only_diagnostics|]. intros msg.
  apply raises_only_raise, P_500.
Qed.

Lemma raises_only_run_demucs input_path output_root :
  raises_only P (run_demucs env host input_path output_root).
Proof.
  unfold run_demucs.
  apply raises_only_bind; [apply raises_only_resolve_demucs_bin|]. intros demucs_bin.
  apply raises_only_bind; [apply raises_only_run_subprocess|]. intros [[rc out] err].
  destruct (negb (Z.eqb rc 0)).
  - apply raises_only_bind; [apply raises_only_diagnostics|]. intros msg.
    apply raises_only_raise, P_500.
  - apply raises_only_bind; [apply raises_only_path_exists|].
    intros [|]; [apply raises_only_ret|apply raises_only_raise, P_500].
Qed.

Lemma raises_only_zip_stems stem_dir : raises_only P (zip_stems env stem_dir).
Proof.
  intros w e w'. rewrite zip_stems_spec.
  destruct (expected_archive env (fs w) stem_dir); intros H; inversion H; subst.
  apply P_500.
Qed.

Lemma raises_only_with_TemporaryDirectory {A} (body : string -> M A) :
  (forall t, raises_only P (body t)) ->
  raises_only P (with_TemporaryDirectory env host body).
Proof.
  intros Hb w e w'. unfold with_TemporaryDirectory.
  destruct (mkdtemp env host w) as [[t|e0] w1] eqn:Hmk.
  - destruct (body t w1) as [rb w2] eqn:Hbody.
    destruct (cleanup env t w2) as [[u|e1] w3] eqn:Hc; intros H; inversion H; subst.
    + exact (Hb _ _ _ _ Hbody).
    + exact (raises_only_cleanup _ _ _ _ Hc).
  - intros H; inversion H; subst. exact (raises_only_mkdtemp _ _ _ Hmk).
Qed.

End RaiseFacts.

(** X7. The status codes of the handler: an [HTTPException] that [separate]
    raises has status 500, unless it is the "File required." exception of
    status 400, which is raised for an upload without a file name and before
    anything is done (the world is as it was). *)
Theorem status_is_400_or_500 env host request file w status_code detail w' :
  separate env host request file w = (Raise (HTTPException status_code detail), w') ->
  status_code = 500
  \/ (status_code = 400 /\ detail = "File required." /\ w' = w
      /\ exists f, file = Some f /\ Str.truthy (filename f) = false).
Proof.
  unfold separate.
  destruct (String.eqb (method request) "OPTIONS"); [discriminate|].
  destruct file as [f|]; [|discriminate].
  destruct (Str.truthy (filename f)) eqn:Hf; simpl.
  - intros H. left.
    apply (raises_only_with_TemporaryDirectory env host server_error I) in H;
      [exact H|].
    intros t.
    apply raises_only_bind; [now apply raises_only_write_bytes|]. intros _.
    apply raises_only_bind; [apply raises_only_maybe_transcode; simpl; auto|].
    intros processed_input.
    apply raises_only_bind; [apply raises_only_run_demucs; simpl; auto|]. intros stem_dir.
    apply raises_only_bind; [apply raises_only_zip_stems; simpl; auto|]. intros zip_buffer.
    now apply raises_only_new_StreamingResponse.
  - intros H. inversion H; subst. right. repeat split; eauto.
Qed.

(** ** What the steps leave alone *)

Section FrameFacts.

Variable env : Env.
Variable host : Host.
Variable K : list string.

Lemma keeps_outside_ret {A} (a : A) : keeps_outside K (ret a).
Proof. intros w r w' H k _. now inversion H. Qed.

Lemma keeps_outside_raise {A} e : keeps_outside K (@raise A e).
Proof. intros w r w' H k _. now inversion H. Qed.

Lemma keeps_outside_new_StreamingResponse content media_type headers :
  keeps_outside K (new_StreamingResponse content media_type headers).
Proof.
  unfold new_StreamingResponse.
  destruct (encodable_headers _ _); [apply keeps_outside_ret|apply keeps_outside_raise].
Qed.

Lemma keeps_outside_bind {A B} (m : M A) (k : A -> M B) :
  keeps_outside K m -> (forall a, keeps_outside K (k a)) -> keeps_outside K (bind m k).
Proof.
  intros Hm Hk w r w'. unfold bind.
  destruct (m w) as [[a|e] w1] eqn:Hmw; intros H j Hj.
  - rewrite (Hk a _ _ _ H j Hj). exact (Hm _ _ _ Hmw j Hj).
  - inversion H; subst. exact (Hm _ _ _ Hmw j Hj).
Qed.

Lemma keeps_outside_emit ev : keeps_outside K (emit ev).
Proof. intros w r w' H k _. now inversion H. Qed.

Lemma keeps_outside_get_fs : keeps_outside K get_fs.
Proof. intros w r w' H k _. now inversion H. Qed.

Lemma keeps_outside_path_exists p : keeps_outside K (path_exists env p).
Proof. intros w r w' H k _. now inversion H. Qed.

Lemma keeps_outside_decode b : keeps_outside K (decode b).
Proof. destruct b; [apply keeps_outside_ret|apply keeps_outside_raise]. Qed.

Lemma keeps_outside_diagnostics out err : keeps_outside K (diagnostics out err).
Proof.
  apply keeps_outside_bind; [apply keeps_outside_decode|]. intros e.
  destruct (Str.nonempty e); [apply keeps_outside_ret|apply keeps_outside_decode].
Qed.

Lemma keeps_outside_resolve_demucs_bin : keeps_outside K (resolve_demucs_bin env host).
Proof. intros w r w' H k _. now rewrite (resolve_demucs_bin_fs _ _ _ _ _ H). Qed.

Lemma keeps_outside_resolve_ffmpeg_bin : keeps_outside K (resolve_ffmpeg_bin env host).
Proof. intros w r w' H k _. now rewrite (resolve_ffmpeg_bin_fs _ _ _ _ _ H). Qed.

Lemma keeps_outside_zip_stems stem_dir : keeps_outside K (zip_stems env stem_dir).
Proof. intros w r w' H k _. rewrite zip_stems_spec in H. now inversion H. Qed.

Lemma remove_tree_outside f k : ~ K `prefix_of` k -> FileSystem.remove_tree K f !! k = f !! k.
Proof.
  intros Hk. unfold FileSystem.remove_tree.
  destruct (f !! k) as [n|] eqn:Hf.
  - apply map_lookup_filter_Some. split; [assumption|exact Hk].
  - apply map_lookup_filter_None. now left.
Qed.

(** The cleanup removes nothing outside the tree it is asked to remove. *)
Lemma keeps_outside_cleanup t :
  (forall f k, FileSystem.locate (cwd env) f (PurePath.parse t) = Some k -> k = K) ->
  keeps_outside K (cleanup env t).
Proof.
  intros Hdet w r w' H j Hj. unfold cleanup in H. unfold_M. simpl in H.
  destruct (FileSystem.locate (cwd env) (fs w) (PurePath.parse t)) as [k|] eqn:Hl;
    [|now inversion H].
  pose proof (Hdet _ _ Hl) as HK.
  destruct k as [|x l].
  - exfalso. apply Hj. rewrite <- HK. apply prefix_nil.
  - destruct (fs w !! (x :: l)) as [[d|]|]; injection H as _ Hw; rewrite <- Hw; simpl;
      try reflexivity.
    rewrite HK. now apply remove_tree_outside.
Qed.

Hypothesis Hconf : confined_to K host.

Lemma keeps_outside_run_subprocess cmd : keeps_outside K (run_subprocess host cmd).
Proof.
  intros w r w'. unfold run_subprocess. unfold_M. simpl.
  destruct (spawn host cmd (fs w)) as [|rc out err f'] eqn:Hsp; intros H j Hj;
    inversion H; subst; simpl; [reflexivity|].
  exact (Hconf _ _ _ _ _ _ Hsp j Hj).
Qed.

Lemma keeps_outside_maybe_transcode input_path workdir :
  keeps_outside K (maybe_transcode_to_wav env host input_path workdir).
Proof.
  unfold maybe_transcode_to_wav.
  destruct (accepted _); [apply keeps_outside_ret|].
  apply keeps_outside_bind; [apply keeps_outside_resolve_ffmpeg_bin|]. intros ffmpeg_bin.
  destruct (negb (Str.truthy ffmpeg_bin)); [apply keeps_outside_raise|].
  apply keeps_outside_bind; [apply keeps_outside_run_subprocess|]. intros [[rc out] err].
  apply keeps_outside_bind; [apply keeps_outside_path_exists|]. intros output_exists.
  destruct (negb (Z.eqb rc 0) || negb output_exists); [|apply keeps_outside_ret].
  apply keeps_outside_bind; [apply keeps_outside_diagnostics|]. intros msg.
  apply keeps_outside_raise.
Qed.

Lemma keeps_outside_run_demucs input_path output_root :
  keeps_outside K (run_demucs env host input_path output_root).
Proof.
  unfold run_demucs.
  apply keeps_outside_bind; [apply keeps_outside_resolve_demucs_bin|]. intros demucs_bin.
  apply keeps_outside_bind; [apply keeps_outside_run_subprocess|]. intros [[rc out] err].
  destruct (negb (Z.eqb rc 0)).
  - apply keeps_outside_bind; [apply keeps_outside_diagnostics|]. intros msg.
    apply keeps_outside_raise.
  - apply keeps_outside_bind; [apply keeps_outside_path_exists|].
    intros [|]; [apply keeps_outside_ret|apply keeps_outside_raise].
Qed.

End FrameFacts.

(** X8. A request leaves no trace outside its workspace: whenever the child
    processes write nowhere but in the tree of the workspace, the file system
    after [separate], at every place outside that tree, is what it was before,
    however the request ends. *)
Theorem request_keeps_the_rest env host request file w tmpdir w1 K r w' :
  mkdtemp env host w = (Ok tmpdir, w1) ->
  FileSystem.locate (cwd env) (fs w1) (PurePath.parse tmpdir) = Some K ->
  confined_to K host ->
  separate env host request file w = (r, w') ->
  forall k, ~ K `prefix_of` k -> fs w' !! k = fs w !! k.
Proof.
  intros Hmk HK Hconf Hsep k Hk. unfold separate in Hsep.
  destruct (String.eqb (method request) "OPTIONS"); [now inversion Hsep|].
  destruct file as [f|]; [|now inversion Hsep].
  destruct (negb (Str.truthy (filename f))); [now inversion Hsep|].
  unfold with_TemporaryDirectory in Hsep. rewrite Hmk in Hsep.
  destruct (mkdtemp_creates _ _ _ _ _ Hmk) as (k0 & Hloc & _ & _ & Hfs1 & _).
  assert (EK : K = k0 ++ [workspace_name host]) by congruence.
  assert (H1 : fs w1 !! k = fs w !! k).
  { rewrite Hfs1, lookup_insert_ne; [reflexivity|].
    intros E. apply Hk. rewrite EK, E. reflexivity. }
  match type of Hsep with
  | context [bind ?m ?rest w1] => destruct (bind m rest w1) as [rb w2] eqn:Hbody
  end.
  assert (H2 : fs w2 !! k = fs w1 !! k).
  { unfold bind at 1 in Hbody.
    destruct (write_bytes env _ (content f) w1) as [[u|e] wa] eqn:Hwr.
    - destruct (write_in_workspace env host (default "" (filename f)) (content f)
                  w tmpdir w1 u wa Hmk Hwr)
        as (K' & HK' & _ & _ & _ & _ & _ & Hfsa & _).
      assert (K' = K) by congruence. subst K'.
      assert (Ha : fs wa !! k = fs w1 !! k).
      { rewrite Hfsa, lookup_insert_ne; [reflexivity|].
        intros E. apply Hk. rewrite <- E. now apply prefix_app_r. }
      rewrite <- Ha.
      match type of Hbody with
      | ?rest wa = _ => assert (Hrest : keeps_outside K rest)
      end.
      { apply keeps_outside_bind; [now apply keeps_outside_maybe_transcode|].
        intros processed_input.
        apply keeps_outside_bind; [now apply keeps_outside_run_demucs|]. intros stem_dir.
        apply keeps_outside_bind; [apply keeps_outside_zip_stems|]. intros zip_buffer.
        apply keeps_outside_new_StreamingResponse. }
      exact (Hrest _ _ _ Hbody k Hk).
    - apply write_bytes_raise in Hwr. subst wa. now inversion Hbody. }
  destruct (cleanup env tmpdir w2) as [rc w3] eqn:Hc.
  assert (H3 : fs w3 !! k = fs w2 !! k).
  { apply (keeps_outside_cleanup env K tmpdir) with (w := w2) (r := rc); try assumption.
    intros f0 k' Hl. symmetry. exact (locate_det env _ _ _ _ _ HK Hl). }
  destruct rc; inversion Hsep; subst; congruence.
Qed.

(** ** The shape of the log *)

Section ShapeFacts.

Variable env : Env.
Variable host : Host.

Lemma spawn_count_app a b : spawn_count (a ++ b) = spawn_count a + spawn_count b.
Proof. unfold spawn_count. now rewrite List.filter_app, length_app. Qed.

Lemma asks_at_most_nil n : asks_at_most n [].
Proof. split; [constructor|unfold spawn_count; simpl; lia]. Qed.

Lemma asks_at_most_app n1 n2 a b :
  asks_at_most n1 a -> asks_at_most n2 b -> asks_at_most (n1 + n2) (a ++ b).
Proof.
  intros [Fa Ca] [Fb Cb]. split; [now apply Forall_app|].
  rewrite spawn_count_app. lia.
Qed.

Lemma asks_at_most_le n n' a : n <= n' -> asks_at_most n a -> asks_at_most n' a.
Proof. intros Hle [F C]. split; [assumption|lia]. Qed.

Lemma extends_log_pure {A} (m : M A) n :
  (forall w r w', m w = (r, w') -> log w' = log w) -> extends_log (asks_at_most n) m.
Proof.
  intros Hm w r w' H. exists []. rewrite app_nil_r. split; [eauto|apply asks_at_most_nil].
Qed.

Lemma extends_log_bind {A B} (m : M A) (k : A -> M B) n1 n2 :
  extends_log (asks_at_most n1) m -> (forall a, extends_log (asks_at_most n2) (k a)) ->
  extends_log (asks_at_most (n1 + n2)) (bind m k).
Proof.
  intros Hm Hk w r w'. unfold bind.
  destruct (m w) as [[a|e] w1] eqn:Hmw; intros H.
  - destruct (Hm _ _ _ Hmw) as (e1 & E1 & A1).
    destruct (Hk a _ _ _ H) as (e2 & E2 & A2).
    exists (e1 ++ e2). split; [now rewrite E2, E1, app_assoc|].
    now apply asks_at_most_app.
  - inversion H; subst. destruct (Hm _ _ _ Hmw) as (e1 & E1 & A1).
    exists e1. split; [assumption|]. eapply asks_at_most_le; [|exact A1]. lia.
Qed.

Lemma extends_log_ret {A} (a : A) n : extends_log (asks_at_most n) (ret a).
Proof. apply extends_log_pure. intros w r w' H. now inversion H. Qed.

Lemma extends_log_raise {A} e n : extends_log (asks_at_most n) (@raise A e).
Proof. apply extends_log_pure. intros w r w' H. now inversion H. Qed.

Lemma extends_log_new_StreamingResponse content media_type headers n :
  extends_log (asks_at_most n) (new_StreamingResponse content media_type headers).
Proof.
  unfold new_StreamingResponse.
  destruct (encodable_headers _ _); [apply extends_log_ret|apply extends_log_raise].
Qed.

Lemma extends_log_path_exists p n : extends_log (asks_at_most n) (path_exists env p).
Proof. apply extends_log_pure. intros w r w' H. now inversion H. Qed.

Lemma extends_log_decode b n : extends_log (asks_at_most n) (decode b).
Proof. destruct b; [apply extends_log_ret|apply extends_log_raise]. Qed.

Lemma extends_log_diagnostics out err : extends_log (asks_at_most 0) (diagnostics out err).
Proof.
  apply (extends_log_bind _ _ 0 0); [apply extends_log_decode|]. intros e.
  destruct (Str.nonempty e); [apply extends_log_ret|apply extends_log_decode].
Qed.

Lemma extends_log_which cmd : extends_log (asks_at_most 0) (shutil_which host cmd).
Proof.
  intros w r w' H. inversion H; subst. exists [EvWhich cmd]. split; [reflexivity|].
  split; [repeat constructor|unfold spawn_count; simpl; lia].
Qed.

Lemma extends_log_run_subprocess cmd : extends_log (asks_at_most 1) (run_subprocess host cmd).
Proof.
  intros w r w'. unfold run_subprocess. unfold_M. simpl.
  destruct (spawn host cmd (fs w)); intros H; inversion H; subst; simpl;
    exists [EvSpawn cmd]; (split; [reflexivity|]);
    (split; [repeat constructor|unfold spawn_count; simpl; lia]).
Qed.

Lemma extends_log_resolve_ffmpeg_bin : extends_log (asks_at_most 0) (resolve_ffmpeg_bin env host).
Proof.
  unfold resolve_ffmpeg_bin.
  destruct (Str.truthy (FFMPEG_BIN env)); [apply extends_log_ret|].
  apply (extends_log_bind _ _ 0 0); [apply extends_log_which|]. intros path_bin.
  destruct (Str.truthy path_bin); apply extends_log_ret.
Qed.

Lemma extends_log_resolve_demucs_bin : extends_log (asks_at_most 0) (resolve_demucs_bin env host).
Proof.
  unfold resolve_demucs_bin.
  destruct (Str.truthy (DEMUCS_BIN env)); [apply extends_log_ret|].
  apply (extends_log_bind _ _ 0 0); [apply extends_log_which|]. intros path_bin.
  destruct (Str.truthy path_bin); [apply extends_log_ret|].
  apply (extends_log_bind _ _ 0 0); [apply extends_log_path_exists|].
  intros [|]; [apply extends_log_ret|].
  apply (extends_log_bind _ _ 0 0); [apply extends_log_path_exists|].
  intros [|]; [apply extends_log_ret|apply extends_log_raise].
Qed.

Lemma extends_log_maybe_transcode input_path workdir :
  extends_log (asks_at_most 1) (maybe_transcode_to_wav env host input_path workdir).
Proof.
  unfold maybe_transcode_to_wav.
  destruct (accepted _); [apply extends_log_ret|].
  apply (extends_log_bind _ _ 0 1); [apply extends_log_resolve_ffmpeg_bin|].
  intros ffmpeg_bin.
  destruct (negb (Str.truthy ffmpeg_bin)); [apply extends_log_raise|].
  apply (extends_log_bind _ _ 1 0); [apply extends_log_run_subprocess|].
  intros [[rc out] err].
  apply (extends_log_bind _ _ 0 0); [apply extends_log_path_exists|]. intros output_exists.
  destruct (negb (Z.eqb rc 0) || negb output_exists); [|apply extends_log_ret].
  apply (extends_log_bind _ _ 0 0); [apply extends_log_diagnostics|]. intros msg.
  apply extends_log_raise.
Qed.

Lemma extends_log_run_demucs input_path output_root :
  extends_log (asks_at_most 1) (run_demucs env host input_path output_root).
Proof.
  unfold run_demucs.
  apply (extends_log_bind _ _ 0 1); [apply extends_log_resolve_demucs_bin|].
  intros demucs_bin.
  apply (extends_log_bind _ _ 1 0); [apply extends_log_run_subprocess|].
  intros [[rc out] err].
  destruct (negb (Z.eqb rc 0)).
  - apply (extends_log_bind _ _ 0 0); [apply extends_log_diagnostics|]. intros msg.
    apply extends_log_raise.
  - apply (extends_log_bind _ _ 0 0); [apply extends_log_path_exists|].
    intros [|]; [apply extends_log_ret|apply extends_log_raise].
Qed.

Lemma extends_log_zip_stems stem_dir : extends_log (asks_at_most 0) (zip_stems env stem_dir).
Proof.
  apply extends_log_pure. intros w r w' H. rewrite zip_stems_spec in H. now inversion H.
Qed.

Lemma cleanup_log t w r w' : cleanup env t w = (r, w') -> log w' = log w ++ [EvRmtree t].
Proof.
  unfold cleanup. unfold_M. simpl.
  destruct (FileSystem.locate _ _ _) as [[|x l]|]; try (intros H; now inversion H).
  destruct (fs w !! (x :: l)) as [[d|]|]; intros H; now inversion H.
Qed.

(** The log of a request that gets its workspace: the creation, then
    either nothing (the write failed) or the write of the upload followed
    by searches and at most two children, then the removal. *)
Lemma separate_log_shape request f w tmpdir w1 r w' :
  String.eqb (method request) "OPTIONS" = false ->
  Str.truthy (filename f) = true ->
  mkdtemp env host w = (Ok tmpdir, w1) ->
  separate env host request (Some f) w = (r, w') ->
  exists mid,
    log w' = log w ++ EvMkdtemp tmpdir :: mid ++ [EvRmtree tmpdir]
    /\ (mid = []
        \/ exists tail,
             mid = EvWriteBytes
                     (PurePath.parse tmpdir
                      // PurePath.name (PurePath.parse (default "" (filename f))))
                   :: tail
             /\ asks_at_most 2 tail).
Proof.
  intros Hm Hf Hmk Hsep. unfold separate in Hsep. rewrite Hm, Hf in Hsep.
  cbn [negb] in Hsep. unfold with_TemporaryDirectory in Hsep. rewrite Hmk in Hsep.
  destruct (mkdtemp_inv _ _ _ _ _ Hmk) as (_ & _ & _ & _ & _ & _ & Hlog1).
  match type of Hsep with
  | context [bind ?m ?rest w1] => destruct (bind m rest w1) as [rb w2] eqn:Hbody
  end.
  assert (Hmid : exists mid, log w2 = log w1 ++ mid
            /\ (mid = []
                \/ exists tail,
                     mid = EvWriteBytes
                             (PurePath.parse tmpdir
                              // PurePath.name (PurePath.parse (default "" (filename f))))
                           :: tail
                     /\ asks_at_most 2 tail)).
  { unfold bind at 1 in Hbody.
    destruct (write_bytes env _ (content f) w1) as [[u|e] wa] eqn:Hwr.
    - destruct (write_bytes_inv _ _ _ _ _ _ Hwr) as (_ & _ & _ & _ & _ & Hloga).
      match type of Hbody with
      | ?rest wa = _ => assert (Hrest : extends_log (asks_at_most 2) rest)
      end.
      { apply (extends_log_bind _ _ 1 1); [apply extends_log_maybe_transcode|].
        intros processed_input.
        apply (extends_log_bind _ _ 1 0); [apply extends_log_run_demucs|]. intros stem_dir.
        apply (extends_log_bind _ _ 0 0); [apply extends_log_zip_stems|]. intros zip_buffer.
        apply extends_log_new_StreamingResponse. }
      destruct (Hrest _ _ _ Hbody) as (tail & Etail & Atail).
      eexists. split; [rewrite Etail, Hloga, <- app_assoc; reflexivity|].
      right. eexists. split; [reflexivity|exact Atail].
    - apply write_bytes_raise in Hwr. subst wa. inversion Hbody; subst.
      exists []. split; [now rewrite app_nil_r|now left]. }
  destruct Hmid as (mid & Emid & Hshape).
  destruct (cleanup env tmpdir w2) as [rc w3] eqn:Hc.
  pose proof (cleanup_log _ _ _ _ Hc) as Hlog3.
  exists mid. split; [|exact Hshape].
  assert (E : log w3 = log w ++ EvMkdtemp tmpdir :: mid ++ [EvRmtree tmpdir]).
  { rewrite Hlog3, Emid, Hlog1, <- !app_assoc. reflexivity. }
  destruct rc; inversion Hsep; subst; exact E.
Qed.

End ShapeFacts.

(** X9. Everything the handler does for a request happens inside the life of
    its workspace: when [mkdtemp] has made the workspace, the log of the
    request begins with that creation, ends with the removal of the same
    directory, and holds no other creation or removal in between, however the
    request ends. *)
Theorem effects_inside_the_workspace env host request f w tmpdir w1 r w' :
  String.eqb (method request) "OPTIONS" = false ->
  Str.truthy (filename f) = true ->
  mkdtemp env host w = (Ok tmpdir, w1) ->
  separate env host request (Some f) w = (r, w') ->
  exists mid,
    log w' = log w ++ EvMkdtemp tmpdir :: mid ++ [EvRmtree tmpdir]
    /\ Forall inside_event mid.
Proof.
  intros Hm Hf Hmk Hsep.
  destruct (separate_log_shape env host _ _ _ _ _ _ _ Hm Hf Hmk Hsep)
    as (mid & E & [->|(tail & -> & Ftail & _)]).
  - exists []. split; [exact E|constructor].
  - eexists. split; [exact E|]. constructor; [exact I|].
    eapply Forall_impl; [exact Ftail|]. intros [] Hev; try exact I; discriminate Hev.
Qed.

(** X10. A request starts at most two child processes, and none before the
    upload has been written into the workspace. *)
Theorem at_most_two_children env host request file w :
  exists evs,
    log (snd (separate env host request file w)) = log w ++ evs
    /\ spawn_count evs <= 2
    /\ forall pre argv post,
         evs = pre ++ EvSpawn argv :: post -> exists p, In (EvWriteBytes p) pre.
Proof.
  assert (Hquiet : forall w0 : World, exists evs : list event,
             log w0 = log w0 ++ evs /\ spawn_count evs <= 2
             /\ forall pre argv post,
                  evs = pre ++ EvSpawn argv :: post -> exists p, In (EvWriteBytes p) pre).
  { intros w0. exists []. rewrite app_nil_r. split; [reflexivity|].
    split; [unfold spawn_count; simpl; lia|].
    intros pre argv post E. destruct pre; discriminate E. }
  destruct (String.eqb (method request) "OPTIONS") eqn:Hm.
  { unfold separate. rewrite Hm. apply Hquiet. }
  destruct file as [f|]; [|unfold separate; rewrite Hm; apply Hquiet].
  destruct (Str.truthy (filename f)) eqn:Hf;
    [|unfold separate; rewrite Hm, Hf; apply Hquiet].
  destruct (mkdtemp env host w) as [[tmpdir|e] w1] eqn:Hmk.
  - destruct (separate_log_shape env host request f w tmpdir w1 _ _ Hm Hf Hmk
                (surjective_pairing _)) as (mid & E & Hshape).
    eexists. split; [exact E|].
    destruct Hshape as [->|(tail & -> & Ftail & Ctail)].
    + split; [unfold spawn_count; simpl; lia|].
      intros pre argv post Eq. exfalso.
      destruct pre as [|a [|b pre]]; try discriminate Eq.
      inversion Eq. destruct pre; discriminate.
    + split.
      * change (EvMkdtemp tmpdir :: (EvWriteBytes _ :: tail) ++ [EvRmtree tmpdir])
          with ([EvMkdtemp tmpdir; EvWriteBytes
                   (PurePath.parse tmpdir
                    // PurePath.name (PurePath.parse (default "" (filename f))))]
                ++ tail ++ [EvRmtree tmpdir]).
        rewrite !spawn_count_app. unfold spawn_count at 1 3. simpl. lia.
      * intros pre argv post Eq.
        destruct pre as [|a [|b pre]]; try discriminate Eq.
        inversion Eq; subst. eexists. right. left. reflexivity.
  - unfold separate. rewrite Hm, Hf. cbn [negb]. unfold with_TemporaryDirectory.
    rewrite Hmk. pose proof (mkdtemp_raise _ _ _ _ _ Hmk) as ->. apply Hquiet.
Qed.

(** ** The replies *)

Section ReplyShapeFacts.

Variable env : Env.
Variable host : Host.

Lemma with_TemporaryDirectory_ok_body {A} (body : string -> M A) w b w' :
  with_TemporaryDirectory env host body w = (Ok b, w') ->
  exists t w1 w2, mkdtemp env host w = (Ok t, w1) /\ body t w1 = (Ok b, w2).
Proof.
  unfold with_TemporaryDirectory.
  destruct (mkdtemp env host w) as [[t|e] w1]; [|discriminate].
  destruct (body t w1) as [rb w2] eqn:Hb.
  destruct (cleanup env t w2) as [[u|e] w3]; [|discriminate].
  intros H; inversion H; subst. eauto 6.
Qed.

End ReplyShapeFacts.

(** X11. The replies of the handler: a reply to [OPTIONS] is the JSON object
    [{"status": "ok"}], whatever the upload, and nothing has been done for it;
    any other reply streams a non-empty archive as [application/zip] for an
    upload whose file name is not empty, with the header
    [Content-Disposition: attachment; filename="<stem of the file name>_stems.zip"]
    and with the header [X-Model] carrying the model that [/api/health]
    reports. *)
Theorem reply_shape env host request file w reply w' :
  separate env host request file w = (Ok reply, w') ->
  (method request = "OPTIONS" /\ reply = JsonReply [("status", "ok")] /\ w' = w)
  \/ (method request <> "OPTIONS"
      /\ exists fname raw zf,
           file = Some (mkUpload (Some fname) raw)
           /\ Str.nonempty fname = true
           /\ zf <> []
           /\ reply = StreamingResponse zf "application/zip" (stems_headers env fname)
           /\ forall v, In ("X-Model", v) (stems_headers env fname) ->
                        In ("model", v) (health env)).
Proof.
  unfold separate.
  destruct (String.eqb_spec (method request) "OPTIONS") as [Hm|Hm].
  { intros H. inversion H; subst. now left. }
  destruct file as [[[fname|] raw]|]; try discriminate.
  cbn [filename Str.truthy]. destruct (Str.nonempty fname) eqn:Hf; [|discriminate].
  cbn [negb default from_option content]. unfold id.
  intros H. right. split; [exact Hm|].
  apply with_TemporaryDirectory_ok_body in H as (t & w1 & w2 & Hmk & H).
  apply bind_ok_inv in H as (u & wa & Hwr & H).
  apply bind_ok_inv in H as (processed_input & wb & _ & H).
  apply bind_ok_inv in H as (stem_dir & wc & _ & H).
  apply bind_ok_inv in H as (zip_buffer & wd & Hz & H).
  apply new_StreamingResponse_ok_inv in H as (-> & _ & _).
  destruct (write_in_workspace env host fname raw w t w1 u wa Hmk Hwr)
    as (K & _ & _ & _ & _ & _ & Hshape & _).
  assert (Hstem : PurePath.stem (PurePath.parse t // PurePath.name (PurePath.parse fname))
                  = PurePath.stem (PurePath.parse fname)).
  { apply stem_of_name. rewrite Hshape. apply name_snoc. }
  exists fname, raw, zip_buffer. repeat split; try assumption.
  - exact (proj2 (zip_stems_ok _ _ _ _ _ Hz)).
  - unfold stems_headers. now rewrite Hstem.
  - intros v [E|[E|[]]]; inversion E; subst. right. left. reflexivity.
Qed.

(** X12. An archive that [zip_stems] returns has between one and four
    entries, no two of them under the same name, and building it has changed
    nothing. *)
Theorem archive_entries_distinct env stem_dir w zf w' :
  zip_stems env stem_dir w = (Ok zf, w') ->
  1 <= length zf <= 4 /\ NoDup (List.map arcname zf) /\ w' = w.
Proof.
  rewrite zip_stems_spec. unfold expected_archive, stems, stem_entry. cbn [flat_map].
  destruct (FileSystem.stat _ _ (stem_dir // ("drums" ++ ".wav")%string)) as [[d1|]|];
    destruct (FileSystem.stat _ _ (stem_dir // ("bass" ++ ".wav")%string)) as [[d2|]|];
    destruct (FileSystem.stat _ _ (stem_dir // ("vocals" ++ ".wav")%string)) as [[d3|]|];
    destruct (FileSystem.stat _ _ (stem_dir // ("other" ++ ".wav")%string)) as [[d4|]|];
    simpl; intros H; inversion H; subst; simpl;
    (split; [lia|split; [|reflexivity]]);
    repeat (apply NoDup_cons_2;
            [rewrite ?elem_of_cons, ?elem_of_nil; intuition discriminate|]);
    apply NoDup_nil_2.
Qed.

(** X13. Only the base name of the client's file name matters: two uploads
    with the same bytes whose non-empty file names end in the same component
    are handled in exactly the same way, with the same reply or exception and
    the same effects, whatever directories the client put in front. *)
Theorem only_the_base_name_matters env host request raw w fname1 fname2 :
  Str.nonempty fname1 = true ->
  Str.nonempty fname2 = true ->
  PurePath.name (PurePath.parse fname1) = PurePath.name (PurePath.parse fname2) ->
  separate env host request (Some (mkUpload (Some fname1) raw)) w
  = separate env host request (Some (mkUpload (Some fname2) raw)) w.
Proof.
  intros H1 H2 Hn. unfold separate.
  destruct (String.eqb (method request) "OPTIONS"); [reflexivity|].
  cbn [filename Str.truthy default from_option content]. unfold id.
  now rewrite H1, H2, Hn.
Qed.

(** ** The further statements at work *)

Lemma transcoded_path_witness :
  PurePath.suffix (mkPath "/" ["w"; "clip.wav"]) = ".wav"
  /\ PurePath.stem (mkPath "/" ["w"; "clip.wav"]) = "clip"
  /\ maybe_transcode_to_wav sample_env bare_host (mkPath "/" ["w"; "clip.wav"])
       (mkPath "/" ["w"]) clip_in_w
     = (Ok (mkPath "/" ["w"; "clip.wav"]), clip_in_w)
  /\ mkPath "/" ["w"; "clip.wav"] <> mkPath "/" ["w"; "clip.webm"].
Proof.
  destruct (transcoded_path_is_accepted sample_env bare_host
              (mkPath "/" ["w"; "clip.webm"]) (mkPath "/" ["w"]) (mkPath "/" ["w"]) clip_in_w
              eq_refl eq_refl) as (H1 & H2 & H3 & H4).
  split; [exact H1|]. split; [exact H2|]. split; [exact H3|]. exact (H4 eq_refl).
Defined.

Lemma transcode_outcome_witness :
  fst (maybe_transcode_to_wav sample_env studio_host (mkPath "/" ["w"; "clip.webm"])
         (mkPath "/" ["w"]) clip_in_w)
  = Ok (mkPath "/" ["w"; "clip.wav"]).
Proof.
  assert (Hres : resolve_ffmpeg_bin sample_env studio_host clip_in_w
                 = (Ok (Some "/usr/bin/ffmpeg"),
                    snd (resolve_ffmpeg_bin sample_env studio_host clip_in_w))).
  { vm_compute. reflexivity. }
  rewrite (transcode_outcome sample_env studio_host (mkPath "/" ["w"; "clip.webm"])
             (mkPath "/" ["w"]) clip_in_w _ _ 0%Z "" "size= 1024kB" _ eq_refl Hres eq_refl).
  vm_compute. reflexivity.
Defined.

Lemma engine_failure_witness :
  fst (run_demucs sample_env engine_out_of_memory (mkPath "/" ["w"; "song.wav"])
         (mkPath "/" ["w"; "separated"]) song_in_w)
  = Raise (HTTPException 500 "Demucs failed: CUDA out of memory").
Proof.
  assert (Hres : resolve_demucs_bin sample_env engine_out_of_memory song_in_w
                 = (Ok "/usr/bin/demucs",
                    snd (resolve_demucs_bin sample_env engine_out_of_memory song_in_w))).
  { vm_compute. reflexivity. }
  rewrite (engine_failure_reported sample_env engine_out_of_memory
             (mkPath "/" ["w"; "song.wav"]) (mkPath "/" ["w"; "separated"]) song_in_w
             _ _ 1%Z (Some "Separating track") (Some "CUDA out of memory") _
             Hres eq_refl ltac:(discriminate)).
  reflexivity.
Defined.

Lemma engine_not_found_witness :
  run_demucs sample_env bare_host (mkPath "/" ["w"; "song.wav"])
    (mkPath "/" ["w"; "separated"]) song_in_w
  = (Raise DEMUCS_NOT_FOUND, mkWorld (fs song_in_w) [EvWhich "demucs"]).
Proof.
  exact (engine_not_found_no_spawn sample_env bare_host (mkPath "/" ["w"; "song.wav"])
           (mkPath "/" ["w"; "separated"]) song_in_w eq_refl eq_refl eq_refl eq_refl).
Defined.

Lemma accepted_upload_witness :
  fst (separate sample_env engine_writing_two_stems (mkRequest "POST")
         (Some (mkUpload (Some "uploads/song.wav") "RIFFsong")) empty_tmp)
  = Ok (StreamingResponse
          [mkEntry "drums.wav" "RIFFdrums"; mkEntry "other.wav" "RIFFother"]
          "application/zip" (stems_headers sample_env "uploads/song.wav"))
  /\ fst (separate sample_env engine_writing_two_stems (mkRequest "POST")
            (Some (mkUpload (Some "€.wav") "RIFFsong")) empty_tmp)
     = Raise UnicodeEncodeError.
Proof.
  assert (Hmk : mkdtemp sample_env engine_writing_two_stems empty_tmp
                = (Ok "/tmp/tmphaaaaaaa",
                   snd (mkdtemp sample_env engine_writing_two_stems empty_tmp))).
  { vm_compute. reflexivity. }
  pose (wA := snd (mkdtemp sample_env engine_writing_two_stems empty_tmp)).
  split.
  - pose (wB := snd (write_bytes sample_env
                       (mkPath "/" ["tmp"; "tmphaaaaaaa"; "song.wav"]) "RIFFsong" wA)).
    pose (wC := snd (resolve_demucs_bin sample_env engine_writing_two_stems wB)).
    pose (wD := snd (run_subprocess engine_writing_two_stems
                       (demucs_cmd sample_env "/usr/bin/demucs"
                          (mkPath "/" ["tmp"; "tmphaaaaaaa"; "song.wav"])
                          (mkPath "/" ["tmp"; "tmphaaaaaaa"; "separated"])) wC)).
    destruct (accepted_upload_end_to_end sample_env engine_writing_two_stems
                (mkRequest "POST") "uploads/song.wav" "RIFFsong" empty_tmp
                "/tmp/tmphaaaaaaa" wA wB "/usr/bin/demucs" wC (Some "") (Some "") (fs wD)
                (mkEntry "drums.wav" "RIFFdrums") [mkEntry "other.wav" "RIFFother"]
                eq_refl eq_refl Hmk) as (w' & Hsep & _);
      [vm_compute; reflexivity .. | now rewrite Hsep].
  - pose (wB := snd (write_bytes sample_env
                       (mkPath "/" ["tmp"; "tmphaaaaaaa"; "€.wav"]) "RIFFsong" wA)).
    pose (wC := snd (resolve_demucs_bin sample_env engine_writing_two_stems wB)).
    pose (wD := snd (run_subprocess engine_writing_two_stems
                       (demucs_cmd sample_env "/usr/bin/demucs"
                          (mkPath "/" ["tmp"; "tmphaaaaaaa"; "€.wav"])
                          (mkPath "/" ["tmp"; "tmphaaaaaaa"; "separated"])) wC)).
    destruct (accepted_upload_end_to_end sample_env engine_writing_two_stems
                (mkRequest "POST") "€.wav" "RIFFsong" empty_tmp
                "/tmp/tmphaaaaaaa" wA wB "/usr/bin/demucs" wC (Some "") (Some "") (fs wD)
                (mkEntry "drums.wav" "RIFFdrums") [mkEntry "other.wav" "RIFFother"]
                eq_refl eq_refl Hmk) as (w' & Hsep & _);
      [vm_compute; reflexivity .. | now rewrite Hsep].
Defined.

Lemma transcoded_upload_witness :
  fst (separate sample_env studio_host (mkRequest "POST")
         (Some (mkUpload (Some "clip.webm") "EBML")) empty_tmp)
  = Ok (StreamingResponse
          [mkEntry "drums.wav" "RIFFdrums"; mkEntry "other.wav" "RIFFother"]
          "application/zip" (stems_headers sample_env "clip.webm")).
Proof.
  assert (Hmk : mkdtemp sample_env studio_host empty_tmp
                = (Ok "/tmp/tmphaaaaaaa", snd (mkdtemp sample_env studio_host empty_tmp))).
  { vm_compute. reflexivity. }
  pose (wA := snd (mkdtemp sample_env studio_host empty_tmp)).
  pose (wB := snd (write_bytes sample_env (mkPath "/" ["tmp"; "tmphaaaaaaa"; "clip.webm"])
                     "EBML" wA)).
  pose (wC := snd (resolve_ffmpeg_bin sample_env studio_host wB)).
  pose (cmd1 := ffmpeg_cmd "/usr/bin/ffmpeg"
                  (mkPath "/" ["tmp"; "tmphaaaaaaa"; "clip.webm"])
                  (mkPath "/" ["tmp"; "tmphaaaaaaa"; "clip.wav"])).
  pose (wD := snd (run_subprocess studio_host cmd1 wC)).
  pose (wE := snd (resolve_demucs_bin sample_env studio_host wD)).
  pose (wF := snd (run_subprocess studio_host
                     (demucs_cmd sample_env "/usr/bin/demucs"
                        (mkPath "/" ["tmp"; "tmphaaaaaaa"; "clip.wav"])
                        (mkPath "/" ["tmp"; "tmphaaaaaaa"; "separated"])) wE)).
  destruct (transcoded_upload_end_to_end sample_env studio_host
              (mkRequest "POST") "clip.webm" "EBML" empty_tmp
              "/tmp/tmphaaaaaaa" wA wB "/usr/bin/ffmpeg" wC (Some "") (Some "size= 1024kB")
              (fs wD) "/usr/bin/demucs" wE (Some "") (Some "") (fs wF)
              (mkEntry "drums.wav" "RIFFdrums") [mkEntry "other.wav" "RIFFother"]
              eq_refl eq_refl Hmk) as (w' & Hsep & _);
    [vm_compute; reflexivity .. | now rewrite Hsep].
Defined.

Lemma status_witness :
  separate sample_env bare_host (mkRequest "POST")
    (Some (mkUpload (Some "song.wav") "RIFFsong")) empty_tmp
  = (Raise DEMUCS_NOT_FOUND,
     snd (separate sample_env bare_host (mkRequest "POST")
            (Some (mkUpload (Some "song.wav") "RIFFsong")) empty_tmp))
  /\ (500 = 500
      \/ (500 = 400
          /\ "Demucs CLI not found. Ensure it's installed in PATH or server/.venv (set DEMUCS_BIN to override)."
             = "File required."
          /\ snd (separate sample_env bare_host (mkRequest "POST")
                    (Some (mkUpload (Some "song.wav") "RIFFsong")) empty_tmp)
             = empty_tmp
          /\ exists f, Some (mkUpload (Some "song.wav") "RIFFsong") = Some f
                       /\ Str.truthy (filename f) = false)).
Proof.
  assert (Hsep : separate sample_env bare_host (mkRequest "POST")
                   (Some (mkUpload (Some "song.wav") "RIFFsong")) empty_tmp
                 = (Raise DEMUCS_NOT_FOUND,
                    snd (separate sample_env bare_host (mkRequest "POST")
                           (Some (mkUpload (Some "song.wav") "RIFFsong")) empty_tmp))).
  { vm_compute. reflexivity. }
  split; [exact Hsep|].
  exact (status_is_400_or_500 sample_env bare_host _ _ _ _ _ _ Hsep).
Defined.

Lemma engine_in_workspace_confined :
  confined_to ["tmp"; "tmphaaaaaaa"] engine_in_workspace.
Proof.
  intros cmd f rc out err f' H k Hk. simpl in H. inversion H; subst.
  rewrite !lookup_insert_ne; [reflexivity| | | |];
    intros E; apply Hk; rewrite <- E; eexists; reflexivity.
Qed.

Lemma request_keeps_the_rest_witness :
  fs (snd (separate sample_env engine_in_workspace (mkRequest "POST")
             (Some (mkUpload (Some "song.wav") "RIFFsong")) tmp_and_home))
    !! ["home"; "notes.txt"]
  = Some (File "keep").
Proof.
  assert (Hmk : mkdtemp sample_env engine_in_workspace tmp_and_home
                = (Ok "/tmp/tmphaaaaaaa",
                   snd (mkdtemp sample_env engine_in_workspace tmp_and_home))).
  { vm_compute. reflexivity. }
  rewrite (request_keeps_the_rest sample_env engine_in_workspace (mkRequest "POST")
             (Some (mkUpload (Some "song.wav") "RIFFsong")) tmp_and_home
             "/tmp/tmphaaaaaaa" _ ["tmp"; "tmphaaaaaaa"] _ _ Hmk
             ltac:(vm_compute; reflexivity) engine_in_workspace_confined
             (surjective_pairing _) ["home"; "notes.txt"]).
  - vm_compute. reflexivity.
  - intros [k' E]. discriminate E.
Defined.

Lemma effects_inside_witness :
  exists mid,
    log (snd (separate sample_env engine_writing_two_stems (mkRequest "POST")
                (Some (mkUpload (Some "song.wav") "RIFFsong")) empty_tmp))
    = log empty_tmp ++ EvMkdtemp "/tmp/tmphaaaaaaa" :: mid ++ [EvRmtree "/tmp/tmphaaaaaaa"]
    /\ Forall inside_event mid.
Proof.
  assert (Hmk : mkdtemp sample_env engine_writing_two_stems empty_tmp
                = (Ok "/tmp/tmphaaaaaaa",
                   snd (mkdtemp sample_env engine_writing_two_stems empty_tmp))).
  { vm_compute. reflexivity. }
  exact (effects_inside_the_workspace sample_env engine_writing_two_stems
           (mkRequest "POST") (mkUpload (Some "song.wav") "RIFFsong") empty_tmp
           "/tmp/tmphaaaaaaa" _ _ _ eq_refl eq_refl Hmk (surjective_pairing _)).
Defined.

Lemma reply_shape_witness :
  separate sample_env bare_host (mkRequest "OPTIONS") None empty_tmp
  = (Ok (JsonReply [("status", "ok")]), empty_tmp)
  /\ ((method (mkRequest "OPTIONS") = "OPTIONS"
       /\ JsonReply [("status", "ok")] = JsonReply [("status", "ok")]
       /\ empty_tmp = empty_tmp)
      \/ (method (mkRequest "OPTIONS") <> "OPTIONS"
          /\ exists fname raw zf,
               None = Some (mkUpload (Some fname) raw)
               /\ Str.nonempty fname = true
               /\ zf <> []
               /\ JsonReply [("status", "ok")]
                  = StreamingResponse zf "application/zip" (stems_headers sample_env fname)
               /\ forall v, In ("X-Model", v) (stems_headers sample_env fname) ->
                            In ("model", v) (health sample_env))).
Proof.
  split; [reflexivity|].
  exact (reply_shape sample_env bare_host (mkRequest "OPTIONS") None empty_tmp
           (JsonReply [("status", "ok")]) empty_tmp eq_refl).
Defined.

Lemma archive_entries_witness :
  1 <= length [mkEntry "drums.wav" "RIFFdrums"; mkEntry "vocals.wav" "RIFFvocals"] <= 4
  /\ NoDup ["drums.wav"; "vocals.wav"]
  /\ drums_and_vocals = drums_and_vocals.
Proof.
  apply (archive_entries_distinct sample_env (mkPath "/" ["out"]) drums_and_vocals
           [mkEntry "drums.wav" "RIFFdrums"; mkEntry "vocals.wav" "RIFFvocals"]
           drums_and_vocals).
  vm_compute. reflexivity.
Defined.

Lemma only_the_base_name_witness :
  separate sample_env engine_writing_two_stems (mkRequest "POST")
    (Some (mkUpload (Some "../../etc/song.wav") "RIFFsong")) empty_tmp
  = separate sample_env engine_writing_two_stems (mkRequest "POST")
      (Some (mkUpload (Some "song.wav") "RIFFsong")) empty_tmp.
Proof.
  exact (only_the_base_name_matters sample_env engine_writing_two_stems (mkRequest "POST")
           "RIFFsong" empty_tmp "../../etc/song.wav" "song.wav" eq_refl eq_refl eq_refl).
Defined.

(** ** Failures from end to end *)

(** X14. A failing engine reaches the client with its diagnostics: for an
    upload with an accepted suffix, once written, when the engine is found
    and exits with a status other than 0, leaving the workspace in place, the
    request ends with the 500 "Demucs failed: ..." that carries the engine's
    standard error (its standard output when that is empty), the engine
    having been the only child. *)
Theorem engine_failure_end_to_end
    env host request fname raw w tmpdir w1 w2 demucs_bin w3 rc out err f' :
  String.eqb (method request) "OPTIONS" = false ->
  Str.nonempty fname = true ->
  mkdtemp env host w = (Ok tmpdir, w1) ->
  let tmp_path := PurePath.parse tmpdir in
  let input_path := tmp_path // PurePath.name (PurePath.parse fname) in
  let output_root := tmp_path // "separated" in
  write_bytes env input_path raw w1 = (Ok tt, w2) ->
  accepted (PurePath.suffix (PurePath.parse fname)) = true ->
  resolve_demucs_bin env host w2 = (Ok demucs_bin, w3) ->
  let cmd := demucs_cmd env demucs_bin input_path output_root in
  spawn host cmd (fs w3) = Exited rc (Some out) (Some err) f' ->
  rc <> 0%Z ->
  FileSystem.path_is_dir (cwd env) f' tmp_path = true ->
  exists w',
    separate env host request (Some (mkUpload (Some fname) raw)) w
    = (Raise (HTTPException 500 ("Demucs failed: " ++ Str.or_else err out)%string), w')
    /\ List.filter is_spawn (log w') = List.filter is_spawn (log w) ++ [EvSpawn cmd].
Proof.
  intros Hm Hf Hmk tmp_path input_path output_root Hwr Ha Hres cmd Hsp Hrc Hdir.
  destruct (write_in_workspace env host fname raw w tmpdir w1 tt w2 Hmk Hwr)
    as (K & _ & _ & _ & _ & Hplain & Hshape & _ & Hlog2 & _ & _).
  fold tmp_path in Hshape. fold input_path in Hshape, Hlog2.
  assert (Hname : PurePath.name input_path = PurePath.name (PurePath.parse fname)).
  { rewrite Hshape. apply name_snoc. }
  assert (Hsuf : accepted (PurePath.suffix input_path) = true).
  { now rewrite (suffix_of_name _ _ Hname). }
  destruct (adds_only_resolve_demucs_bin env host (fun ev => is_spawn ev = false)
              (fun _ => eq_refl) _ _ _ Hres) as (evs & Hlog3 & Hquiet).
  destruct (cleanup_of_directory env tmpdir f' (log w3 ++ [EvSpawn cmd]) Hdir)
    as (f2 & Hclean).
  exists (mkWorld f2 ((log w3 ++ [EvSpawn cmd]) ++ [EvRmtree tmpdir])). split.
  - unfold separate. rewrite Hm. cbn [filename Str.truthy]. rewrite Hf. cbn [negb].
    unfold with_TemporaryDirectory. rewrite Hmk.
    cbn [default from_option content]. unfold id. fold tmp_path. fold input_path.
    unfold bind at 1. rewrite Hwr.
    unfold bind at 1. rewrite (maybe_transcode_accepted env host _ _ _ Hsuf).
    unfold bind at 1. fold output_root.
    rewrite (run_demucs_nonzero_exit env host input_path output_root w2 demucs_bin w3 rc
               (Some out) (Some err) f' Hres Hsp Hrc).
    fold cmd. rewrite Hclean. reflexivity.
  - cbn [log]. rewrite Hlog3, Hlog2, !List.filter_app. simpl.
    rewrite (filter_spawn_quiet evs Hquiet). now rewrite !app_nil_r.
Qed.


(** X16. The engine starts on the upload as it was written: between the write
    of the upload and the start of the engine the file system is not touched,
    so that, once the engine has been looked up, the input path still holds
    exactly the uploaded bytes and the workspace is still a directory. *)
Theorem upload_intact_for_engine env host fname raw w tmpdir w1 w2 r w3 :
  mkdtemp env host w = (Ok tmpdir, w1) ->
  let tmp_path := PurePath.parse tmpdir in
  let input_path := tmp_path // PurePath.name (PurePath.parse fname) in
  write_bytes env input_path raw w1 = (Ok tt, w2) ->
  resolve_demucs_bin env host w2 = (r, w3) ->
  fs w3 = fs w2
  /\ FileSystem.stat (cwd env) (fs w3) input_path = Some (File raw)
  /\ FileSystem.path_is_dir (cwd env) (fs w3) tmp_path = true.
Proof.
  intros Hmk tmp_path input_path Hwr Hres.
  destruct (write_in_workspace env host fname raw w tmpdir w1 tt w2 Hmk Hwr)
    as (K & _ & HKne & _ & _ & Hplain & Hshape & Hfs2 & _ & Hloc2 & Hdir2).
  fold tmp_path in Hshape, Hloc2. fold input_path in Hshape.
  rewrite (resolve_demucs_bin_fs env host _ _ _ Hres).
  split; [reflexivity|]. split.
  - unfold FileSystem.stat. rewrite Hshape, locate_snoc, Path_eta, Hloc2.
    assert (Hd : FileSystem.is_dir (fs w2) K = true).
    { unfold FileSystem.is_dir. destruct K; [reflexivity|]. now rewrite Hdir2. }
    rewrite Hd, (step_plain _ _ Hplain).
    destruct (K ++ [PurePath.name (PurePath.parse fname)]) eqn:E;
      [destruct K; discriminate|].
    rewrite Hfs2. apply lookup_insert_eq.
  - unfold FileSystem.path_is_dir, FileSystem.stat. rewrite Hloc2.
    destruct K; [congruence|]. now rewrite Hdir2.
Qed.

Lemma engine_failure_end_to_end_witness :
  fst (separate sample_env engine_out_of_memory (mkRequest "POST")
         (Some (mkUpload (Some "song.wav") "RIFFsong")) empty_tmp)
  = Raise (HTTPException 500 "Demucs failed: CUDA out of memory").
Proof.
  assert (Hmk : mkdtemp sample_env engine_out_of_memory empty_tmp
                = (Ok "/tmp/tmphaaaaaaa",
                   snd (mkdtemp sample_env engine_out_of_memory empty_tmp))).
  { vm_compute. reflexivity. }
  pose (wA := snd (mkdtemp sample_env engine_out_of_memory empty_tmp)).
  pose (wB := snd (write_bytes sample_env (mkPath "/" ["tmp"; "tmphaaaaaaa"; "song.wav"])
                     "RIFFsong" wA)).
  pose (wC := snd (resolve_demucs_bin sample_env engine_out_of_memory wB)).
  destruct (engine_failure_end_to_end sample_env engine_out_of_memory
              (mkRequest "POST") "song.wav" "RIFFsong" empty_tmp
              "/tmp/tmphaaaaaaa" wA wB "/usr/bin/demucs" wC 1%Z
              "Separating track" "CUDA out of memory" (fs wC)
              eq_refl eq_refl Hmk) as (w' & Hsep & _);
    [vm_compute; reflexivity .. | discriminate | vm_compute; reflexivity | now rewrite Hsep].
Defined.


Lemma upload_intact_witness :
  FileSystem.stat "/"
    (fs (snd (resolve_demucs_bin sample_env engine_writing_two_stems
                (snd (write_bytes sample_env
                        (mkPath "/" ["tmp"; "tmphaaaaaaa"; "song.wav"]) "RIFFsong"
                        (snd (mkdtemp sample_env engine_writing_two_stems empty_tmp)))))))
    (mkPath "/" ["tmp"; "tmphaaaaaaa"; "song.wav"])
  = Some (File "RIFFsong").
Proof.
  assert (Hmk : mkdtemp sample_env engine_writing_two_stems empty_tmp
                = (Ok "/tmp/tmphaaaaaaa",
                   snd (mkdtemp sample_env engine_writing_two_stems empty_tmp))).
  { vm_compute. reflexivity. }
  pose (wA := snd (mkdtemp sample_env engine_writing_two_stems empty_tmp)).
  pose (wB := snd (write_bytes sample_env (mkPath "/" ["tmp"; "tmphaaaaaaa"; "song.wav"])
                     "RIFFsong" wA)).
  destruct (upload_intact_for_engine sample_env engine_writing_two_stems
              "uploads/song.wav" "RIFFsong" empty_tmp "/tmp/tmphaaaaaaa" wA wB
              _ _ Hmk ltac:(vm_compute; reflexivity) (surjective_pairing _))
    as (_ & Hstat & _).
  exact Hstat.
Defined.

(** ** What the steps promise when they return *)

(** X17. Whatever [maybe_transcode_to_wav] returns has an accepted suffix: for
    an input path with a name, the path it returns is either the input
    itself, already accepted, or [<workdir>/<stem>.wav], which a child process
    that exited with status 0 has left in existence. *)
Theorem transcode_returns_accepted env host input_path workdir w p w' :
  Str.contains "/" (PurePath.name input_path) = false ->
  Str.nonempty (PurePath.name input_path) = true ->
  maybe_transcode_to_wav env host input_path workdir w = (Ok p, w') ->
  accepted (PurePath.suffix p) = true
  /\ (p = input_path /\ w' = w
      \/ p = workdir // (PurePath.stem input_path ++ ".wav")%string
         /\ FileSystem.path_exists (cwd env) (fs w') p = true
         /\ spawn_count (log w') = S (spawn_count (log w))).
Proof.
  intros Hs Hn. unfold maybe_transcode_to_wav.
  destruct (accepted (PurePath.suffix input_path)) eqn:Ha.
  - intros H. inversion H; subst. split; [exact Ha|now left].
  - intros H.
    apply bind_ok_inv in H as (ffmpeg_bin & w1 & Hres & H).
    destruct (negb (Str.truthy ffmpeg_bin)); [discriminate|].
    apply bind_ok_inv in H as ([[rc out] err] & w2 & Hrun & H).
    apply bind_ok_inv in H as (output_exists & w3 & Hex & H).
    destruct (negb (Z.eqb rc 0) || negb output_exists) eqn:Hc.
    + apply bind_ok_inv in H as (msg & w4 & _ & H). discriminate H.
    + inversion H; subst. inversion Hex; subst.
      apply orb_false_iff in Hc as [_ Hc]. apply negb_false_iff in Hc.
      destruct (wav_path workdir (PurePath.stem input_path)
                  (stem_without_sep _ Hs) (stem_nonempty _ Hn)) as (_ & _ & Hsuf & _).
      split; [now rewrite Hsuf|]. right. split; [reflexivity|]. split; [exact Hc|].
      destruct (adds_only_resolve_ffmpeg_bin env host (fun ev => is_spawn ev = false)
                  (fun _ => eq_refl) _ _ _ Hres) as (evs & Hlog1 & Hquiet).
      assert (Hlog2 : exists cmd, log w' = log w1 ++ [EvSpawn cmd]).
      { revert Hrun. unfold run_subprocess. unfold_M. simpl.
        destruct (spawn host _ (fs w1)); intros E; inversion E; subst. eauto. }
      destruct Hlog2 as (cmd & ->). rewrite Hlog1.
      unfold spawn_count. rewrite !List.filter_app, !length_app.
      rewrite (filter_spawn_quiet evs Hquiet). simpl. lia.
Qed.

(** X18. Whatever [run_demucs] returns is where the engine's output should
    be, and is there: when it returns a path, the engine was found, its one
    process exited with status 0, and the path,
    [output_root / DEMUCS_MODEL / input_path.stem], exists in the file system
    the process left. *)
Theorem run_demucs_returns_existing env host input_path output_root w p w' :
  run_demucs env host input_path output_root w = (Ok p, w') ->
  p = output_root // DEMUCS_MODEL env // PurePath.stem input_path
  /\ FileSystem.path_exists (cwd env) (fs w') p = true
  /\ exists demucs_bin w1 out err,
       resolve_demucs_bin env host w = (Ok demucs_bin, w1)
       /\ spawn host (demucs_cmd env demucs_bin input_path output_root) (fs w1)
          = Exited 0 out err (fs w')
       /\ log w' = log w1 ++ [EvSpawn (demucs_cmd env demucs_bin input_path output_root)].
Proof.
  unfold run_demucs. intros H.
  apply bind_ok_inv in H as (demucs_bin & w1 & Hres & H).
  apply bind_ok_inv in H as ([[rc out] err] & w2 & Hrun & H).
  destruct (Z.eqb rc 0) eqn:Hrc; cbn [negb] in H.
  - apply bind_ok_inv in H as (song_dir_exists & w3 & Hex & H).
    inversion Hex; subst. destruct (FileSystem.path_exists _ _ _) eqn:He;
      cbn [negb] in H; [|discriminate].
    inversion H; subst. split; [reflexivity|]. split; [exact He|].
    exists demucs_bin, w1, out, err. split; [exact Hres|].
    apply Z.eqb_eq in Hrc. subst rc.
    revert Hrun. unfold run_subprocess, demucs_cmd. unfold_M. simpl.
    destruct (spawn host _ (fs w1)) as [|rc' out' err' f'] eqn:Hsp;
      intros E; inversion E; subst. simpl. split; reflexivity.
  - apply bind_ok_inv in H as (msg & w3 & _ & H). discriminate H.
Qed.

Lemma transcode_returns_accepted_witness :
  maybe_transcode_to_wav sample_env studio_host (mkPath "/" ["w"; "clip.webm"])
    (mkPath "/" ["w"]) clip_in_w
  = (Ok (mkPath "/" ["w"; "clip.wav"]),
     snd (maybe_transcode_to_wav sample_env studio_host (mkPath "/" ["w"; "clip.webm"])
            (mkPath "/" ["w"]) clip_in_w))
  /\ accepted (PurePath.suffix (mkPath "/" ["w"; "clip.wav"])) = true.
Proof.
  assert (H : maybe_transcode_to_wav sample_env studio_host (mkPath "/" ["w"; "clip.webm"])
                (mkPath "/" ["w"]) clip_in_w
              = (Ok (mkPath "/" ["w"; "clip.wav"]),
                 snd (maybe_transcode_to_wav sample_env studio_host
                        (mkPath "/" ["w"; "clip.webm"]) (mkPath "/" ["w"]) clip_in_w))).
  { vm_compute. reflexivity. }
  split; [exact H|].
  refine (proj1 (transcode_returns_accepted sample_env studio_host
                   (mkPath "/" ["w"; "clip.webm"]) (mkPath "/" ["w"]) clip_in_w
                   _ _ _ _ H)); vm_compute; reflexivity.
Defined.

Lemma run_demucs_returns_existing_witness :
  FileSystem.path_exists "/"
    (fs (snd (run_demucs sample_env studio_host (mkPath "/" ["w"; "song.wav"])
                (mkPath "/" ["w"; "separated"]) song_in_w)))
    (mkPath "/" ["w"; "separated"; "htdemucs"; "song"])
  = true.
Proof.
  assert (H : run_demucs sample_env studio_host (mkPath "/" ["w"; "song.wav"])
                (mkPath "/" ["w"; "separated"]) song_in_w
              = (Ok (mkPath "/" ["w"; "separated"; "htdemucs"; "song"]),
                 snd (run_demucs sample_env studio_host (mkPath "/" ["w"; "song.wav"])
                        (mkPath "/" ["w"; "separated"]) song_in_w))).
  { vm_compute. reflexivity. }
  exact (proj1 (proj2 (run_demucs_returns_existing sample_env studio_host _ _ _ _ _ H))).
Defined.

(** ** Replies and Latin-1 *)

(** X19. A reply is streamed only for names that the headers can carry:
    whenever [separate] returns for a request other than [OPTIONS], the name
    of the model and the stem of the upload's file name are Latin-1 text.  An
    upload whose stem holds a character from U+0100 on thus never gets a
    reply, whatever the engine does. *)
Theorem streamed_reply_is_latin1 env host request fname raw w reply w' :
  String.eqb (method request) "OPTIONS" = false ->
  separate env host request (Some (mkUpload (Some fname) raw)) w = (Ok reply, w') ->
  Str.latin1 (DEMUCS_MODEL env) = true
  /\ Str.latin1 (PurePath.stem (PurePath.parse fname)) = true.
Proof.
  intros Hm. unfold separate. rewrite Hm.
  cbn [filename Str.truthy]. destruct (Str.nonempty fname) eqn:Hf; [|discriminate].
  cbn [negb default from_option content]. unfold id.
  intros H.
  apply with_TemporaryDirectory_ok_body in H as (t & w1 & w2 & Hmk & H).
  apply bind_ok_inv in H as (u & wa & Hwr & H).
  apply bind_ok_inv in H as (processed_input & wb & _ & H).
  apply bind_ok_inv in H as (stem_dir & wc & _ & H).
  apply bind_ok_inv in H as (zip_buffer & wd & _ & H).
  apply new_StreamingResponse_ok_inv in H as (_ & _ & Henc).
  destruct (write_in_workspace env host fname raw w t w1 u wa Hmk Hwr)
    as (K & _ & _ & _ & _ & _ & Hshape & _).
  assert (Hstem : PurePath.stem (PurePath.parse t // PurePath.name (PurePath.parse fname))
                  = PurePath.stem (PurePath.parse fname)).
  { apply stem_of_name. rewrite Hshape. apply name_snoc. }
  rewrite Hstem in Henc. fold (stems_headers env fname) in Henc.
  rewrite stems_headers_encodable in Henc. now apply andb_true_iff in Henc.
Qed.

Lemma streamed_reply_witness :
  Str.latin1 (DEMUCS_MODEL sample_env) = true
  /\ Str.latin1 (PurePath.stem (PurePath.parse "uploads/song.wav")) = true.
Proof.
  exact (streamed_reply_is_latin1 sample_env engine_writing_two_stems (mkRequest "POST")
           "uploads/song.wav" "RIFFsong" empty_tmp _ _ eq_refl (surjective_pairing _)).
Defined.
